(** * The grants dashboard pipeline of [app.py]

    A shallow embedding of the filter-and-aggregate pipeline of the
    Streamlit script [app.py]: the pandas frame operations it performs
    (column selection, [dropna], boolean masks, [unique], column
    assignment, [to_csv]), the exceptions they raise, the statistics it
    computes and the widgets it emits, followed by the properties the
    specification states about them.

    Numbers are exact rationals ([Qc]): the rounding error of the
    binary floats pandas holds is outside the model. *)

From Stdlib Require Import Ascii QArith Qcanon Qcabs.
From stdpp Require Import gmap strings list fin_maps numbers sorting pretty.

Local Open Scope string_scope.
#[local] Set Warnings "-clear-no-such-hyp".

(** ** Cells, frames and exceptions *)

(** A cell of a frame: missing ([NaN], what [read_excel] gives for an
    empty spreadsheet cell), a number, or text. *)
Inductive cell :=
  | NaN
  | Num (x : Qc)
  | Str (s : string).

#[global] Instance cell_eq_dec : EqDecision cell.
Proof. solve_decision. Defined.

#[global] Instance cell_inhabited : Inhabited cell := populate NaN.

#[global] Instance cell_countable : Countable cell :=
  inj_countable'
    (λ c, match c with
          | NaN => inl ()
          | Num x => inr (inl x)
          | Str s => inr (inr s)
          end)
    (λ e, match e with
          | inl _ => NaN
          | inr (inl x) => Num x
          | inr (inr s) => Str s
          end)
    (λ c, match c with NaN | Num _ | Str _ => eq_refl end).

(** A frame: its column labels in order, and its rows in order, each
    row a map from column label to cell. *)
Record DataFrame := mkFrame {
  columns : list string;
  rows : list (gmap string cell)
}.

(** The exceptions the script can meet inside its [try] block. *)
Inductive exn :=
  | LoadError (cause : string)
  | KeyError (missing : list string)
  | TypeError
  | ValueError.

Inductive result (A : Type) :=
  | Ok (a : A)
  | Raise (e : exn).
Arguments Ok {A} a.
Arguments Raise {A} e.

#[global] Instance result_ret : MRet result := λ A a, Ok a.
#[global] Instance result_bind : MBind result := λ A B f m,
  match m with Ok a => f a | Raise e => Raise e end.
#[global] Instance result_fmap : FMap result := λ A B f m,
  match m with Ok a => Ok (f a) | Raise e => Raise e end.

(** [row[c]]: the cell of a row under a column label. *)
Definition get (c : string) (r : gmap string cell) : cell :=
  default NaN (r !! c).

(** [df[c]]: a column as the list of its cells; [KeyError] when the
    frame has no such column. *)
Definition column (c : string) (df : DataFrame) : result (list cell) :=
  if decide (c ∈ columns df) then Ok (get c <$> rows df)
  else Raise (KeyError [c]).

(** [df[cols]]: the frame restricted to the listed columns, in the
    listed order; [KeyError] when one is absent. *)
Definition select_row (cols : list string) (r : gmap string cell)
  : gmap string cell :=
  list_to_map ((λ c, (c, get c r)) <$> cols).

Definition select (cols : list string) (df : DataFrame) : result DataFrame :=
  match filter (λ c, c ∉ columns df) cols with
  | [] => Ok (mkFrame cols (select_row cols <$> rows df))
  | missing => Raise (KeyError missing)
  end.

(** [df[mask]]: the rows whose mask entry is [True], in order. *)
Fixpoint boolean_index {A} (mask : list bool) (l : list A) : list A :=
  match mask, l with
  | b :: mask, x :: l =>
      if b then x :: boolean_index mask l else boolean_index mask l
  | _, _ => []
  end.

Definition notna (c : cell) : bool :=
  match c with NaN => false | _ => true end.

(** [df.dropna(subset=cols)]: drops the rows with a missing cell in one
    of the listed columns. *)
Definition complete (cols : list string) (r : gmap string cell) : bool :=
  forallb (λ c, notna (get c r)) cols.

Definition dropna (cols : list string) (df : DataFrame) : result DataFrame :=
  match filter (λ c, c ∉ columns df) cols with
  | [] => Ok (mkFrame (columns df) (filter (λ r, complete cols r) (rows df)))
  | missing => Raise (KeyError missing)
  end.

(** [x > 0] on one cell of a column: false on a missing cell, and a
    [TypeError] on text. *)
Definition gt0 (c : cell) : result bool :=
  match c with
  | NaN => Ok false
  | Num x => Ok (bool_decide (0 < x)%Qc)
  | Str _ => Raise TypeError
  end.

(** [x == v] on one cell: a missing cell equals nothing. *)
Definition cell_eqb (v c : cell) : bool :=
  match c with
  | NaN => false
  | _ => bool_decide (c = v)
  end.

(** ** Load and clean (lines 37 to 48) *)

Definition hierarchy_columns : list string :=
  ["Top Level Primary Program"; "Primary Strategy";
   "Organization: Organization Name"; "Project Title"; "Request: ID"].
Definition value_column : string := "Amount".

(** [sunburst_data] as line 48 leaves it. *)
Definition clean (default_df : DataFrame) : result DataFrame :=
  sunburst_data ← select (hierarchy_columns ++ [value_column]) default_df;
  sunburst_data ← dropna (hierarchy_columns ++ [value_column]) sunburst_data;
  amount ← column value_column sunburst_data;
  mask ← mapM gt0 amount;
  mret (mkFrame (columns sunburst_data) (boolean_index mask (rows sunburst_data))).

(** ** Filter options (lines 57 to 72) *)

(** [Series.unique()]: the distinct cells of a column, in order of
    first appearance. *)
Fixpoint unique (l : list cell) : list cell :=
  match l with
  | [] => []
  | x :: l => x :: filter (λ y, y ≠ x) (unique l)
  end.

Definition All : cell := Str "All".

(** [df[df[c] == v]] *)
Definition where_eq (c : string) (v : cell) (df : DataFrame) : result DataFrame :=
  col ← column c df;
  mret (mkFrame (columns df) (boolean_index (cell_eqb v <$> col) (rows df))).

(** The options of the program select box (line 59). *)
Definition program_options (sunburst_data : DataFrame) : result (list cell) :=
  col ← column "Top Level Primary Program" sunburst_data;
  mret (All :: unique col).

(** [strategies] (lines 63 to 66). *)
Definition strategies (selected_program : cell) (sunburst_data : DataFrame)
  : result (list cell) :=
  if decide (selected_program ≠ All) then
    of_program ← where_eq "Top Level Primary Program" selected_program sunburst_data;
    col ← column "Primary Strategy" of_program;
    mret (unique col)
  else
    col ← column "Primary Strategy" sunburst_data;
    mret (unique col).

(** The options of the strategy select box (line 70). *)
Definition strategy_options (selected_program : cell) (sunburst_data : DataFrame)
  : result (list cell) :=
  l ← strategies selected_program sunburst_data;
  mret (All :: l).

(** ** Apply filter (lines 78 to 86) *)

Definition apply_filter (selected_program selected_strategy : cell)
    (sunburst_data : DataFrame) : result DataFrame :=
  let filtered_data := sunburst_data in
  filtered_data ←
    (if decide (selected_program ≠ All)
     then where_eq "Top Level Primary Program" selected_program filtered_data
     else Ok filtered_data);
  filtered_data ←
    (if decide (selected_strategy ≠ All)
     then where_eq "Primary Strategy" selected_strategy filtered_data
     else Ok filtered_data);
  mret filtered_data.

(** ** Summary statistics (lines 92 to 104) *)

(** The numbers of a column, missing cells skipped ([skipna]); text in
    a column that is summed or averaged is a [TypeError]. *)
Fixpoint numbers (col : list cell) : result (list Qc) :=
  match col with
  | [] => Ok []
  | NaN :: col => numbers col
  | Num x :: col => xs ← numbers col; mret (x :: xs)
  | Str _ :: col => Raise TypeError
  end.

(** Numbers are exact rationals here: a sum is the exact sum and a
    mean the exact quotient, with neither the wrap-around of a column
    of 64-bit integers nor the rounding of a column of floating-point
    numbers. *)
Definition total (xs : list Qc) : Qc := foldr Qcplus 0%Qc xs.

(** [Series.sum()]: [0] on an empty column. *)
Definition series_sum (col : list cell) : result Qc :=
  xs ← numbers col; mret (total xs).

Definition mean_of (xs : list Qc) : cell :=
  match xs with
  | [] => NaN
  | _ => Num (total xs / Qc_of_Z (Z.of_nat (length xs)))%Qc
  end.

(** [Series.mean()]: [NaN] on an empty column. *)
Definition series_mean (col : list cell) : result cell :=
  xs ← numbers col; mret (mean_of xs).

Definition median_of (xs : list Qc) : cell :=
  let sorted := merge_sort Qcle xs in
  let n := length sorted in
  match n with
  | O => NaN
  | _ =>
      if Nat.odd n then Num (default 0%Qc (sorted !! (n / 2)%nat))
      else Num ((default 0%Qc (sorted !! (n / 2 - 1)%nat)
                 + default 0%Qc (sorted !! (n / 2)%nat)) / 2)%Qc
  end.

(** [Series.median()]: the middle value of the sorted column, the mean
    of the two middle values when their number is even, [NaN] on an
    empty column. *)
Definition series_median (col : list cell) : result cell :=
  xs ← numbers col; mret (median_of xs).

(** ** Currency text: the format [,.2f] *)

(** Rounding to the nearest integer, ties to even, of a rational that
    is not negative. *)
Definition round_half_even (q : Qc) : Z :=
  let n := Qnum q in
  let d := Z.pos (Qden q) in
  let fl := (n / d)%Z in
  let r := (n mod d)%Z in
  match (2 * r ?= d)%Z with
  | Lt => fl
  | Gt => (fl + 1)%Z
  | Eq => if Z.even fl then fl else (fl + 1)%Z
  end.

(** Commas between groups of three digits. *)
Fixpoint group3 (digits : string) : string :=
  match digits with
  | EmptyString => EmptyString
  | String c rest =>
      let n := String.length rest in
      if (negb (n =? 0)%nat && (n mod 3 =? 0)%nat)%bool
      then String c ("," +:+ group3 rest)
      else String c (group3 rest)
  end.

Definition two_digits (n : Z) : string :=
  (if bool_decide (n < 10)%Z then "0" else "") +:+ pretty (Z.to_N n).

(** [f"{x:,.2f}"] on a number. *)
Definition format_2f (x : Qc) : string :=
  let cents := round_half_even (Qcabs x * Qc_of_Z 100)%Qc in
  (if bool_decide (x < 0)%Qc then "-" else "")
  +:+ group3 (pretty (Z.to_N (cents / 100)%Z))
  +:+ "." +:+ two_digits (cents mod 100)%Z.

(** [f"${x:,.2f}"] on a cell: a missing number prints as [nan], text
    has no format [f]. *)
Definition format_money (c : cell) : result string :=
  match c with
  | NaN => Ok "$nan"
  | Num x => Ok ("$" +:+ format_2f x)
  | Str _ => Raise ValueError
  end.

(** ** Frame updates used by the script *)

(** [df[c] = vals]: overwrites column [c], or appends it as the last
    column when the frame has none of that label. *)
Definition assign (c : string) (vals : list cell) (df : DataFrame)
  : result DataFrame :=
  if decide (length vals = length (rows df)) then
    Ok (mkFrame
          (if decide (c ∈ columns df) then columns df else columns df ++ [c])
          (zip_with (λ r v, <[c:=v]> r) (rows df) vals))
  else Raise ValueError.

(** [df.drop(columns=[c])] *)
Definition drop_column (c : string) (df : DataFrame) : result DataFrame :=
  if decide (c ∈ columns df) then
    Ok (mkFrame (filter (λ c', c' ≠ c) (columns df)) (delete c <$> rows df))
  else Raise (KeyError [c]).

(** [df.empty]: no row, or no column. *)
Definition is_empty (df : DataFrame) : bool :=
  match rows df, columns df with
  | [], _ | _, [] => true
  | _, _ => false
  end.

(** ** CSV text ([to_csv], minimal quoting)

    [to_csv] writes through the writer of Python's [csv] with the line
    feed as line terminator: a field that holds a comma, a quote or a
    line feed is put in quotes with its quotes doubled, fields are
    joined by commas, and a line ends with a line feed. A carriage
    return alone does not put a field in quotes. *)

Definition dquote : ascii := "034"%char.
Definition newline : ascii := "010"%char.
Definition creturn : ascii := "013"%char.
Definition comma : ascii := ","%char.

Definition special (a : ascii) : bool :=
  bool_decide (a = comma ∨ a = dquote ∨ a = newline).

Fixpoint needs_quotes (s : string) : bool :=
  match s with
  | EmptyString => false
  | String a s => special a || needs_quotes s
  end.

Fixpoint double_quotes (s : string) : string :=
  match s with
  | EmptyString => EmptyString
  | String a s =>
      if bool_decide (a = dquote) then String dquote (String dquote (double_quotes s))
      else String a (double_quotes s)
  end.

Definition csv_field (s : string) : string :=
  if needs_quotes s
  then String dquote (double_quotes s +:+ String dquote EmptyString)
  else s.

Fixpoint join_fields (fields : list string) : string :=
  match fields with
  | [] => EmptyString
  | [f] => csv_field f
  | f :: fields => csv_field f +:+ String comma (join_fields fields)
  end.

(** One line of the file. A record that is one empty field is written
    as a pair of quotes, as the writer of Python's [csv] does. *)
Definition csv_record (fields : list string) : string :=
  match fields with
  | [EmptyString] => String dquote (String dquote (String newline EmptyString))
  | _ => join_fields fields +:+ String newline EmptyString
  end.

Fixpoint csv_lines (records : list (list string)) : string :=
  match records with
  | [] => EmptyString
  | r :: records => csv_record r +:+ csv_lines records
  end.

(** ** A reader for that dialect

    The states of the reader of Python's [csv], as a function of the
    rest of the text: fields separated by commas; a record ended by a
    line feed, by a carriage return, or by the two in a row; a field in
    quotes holding any character, line ends included, with its quotes
    doubled. It returns the records still to come, the first of them
    being the one under way wherever a record is under way. *)

Inductive mode :=
  | StartRecord
  | StartField
  | InField
  | InQuoted
  | QuoteInQuoted
  | EatCRNL.

(** The next character belongs to the field under way. *)
Definition add_char (a : ascii) (recs : list (list string)) : list (list string) :=
  match recs with
  | (f :: r) :: recs => (String a f :: r) :: recs
  | [] :: recs => [String a EmptyString] :: recs
  | [] => [[String a EmptyString]]
  end.

(** The field under way ends here and another follows. *)
Definition end_field (recs : list (list string)) : list (list string) :=
  match recs with
  | r :: recs => (EmptyString :: r) :: recs
  | [] => [[EmptyString]]
  end.

Fixpoint parse (m : mode) (s : string) : list (list string) :=
  match s with
  | EmptyString =>
      match m with
      | StartRecord | EatCRNL => []
      | _ => [[EmptyString]]
      end
  | String a s =>
      match m with
      | StartRecord =>
          if bool_decide (a = newline) then [] :: parse StartRecord s
          else if bool_decide (a = creturn) then [] :: parse EatCRNL s
          else if bool_decide (a = comma) then end_field (parse StartField s)
          else if bool_decide (a = dquote) then parse InQuoted s
          else add_char a (parse InField s)
      | StartField =>
          if bool_decide (a = newline) then [EmptyString] :: parse StartRecord s
          else if bool_decide (a = creturn) then [EmptyString] :: parse EatCRNL s
          else if bool_decide (a = comma) then end_field (parse StartField s)
          else if bool_decide (a = dquote) then parse InQuoted s
          else add_char a (parse InField s)
      | InField =>
          if bool_decide (a = newline) then [EmptyString] :: parse StartRecord s
          else if bool_decide (a = creturn) then [EmptyString] :: parse EatCRNL s
          else if bool_decide (a = comma) then end_field (parse StartField s)
          else add_char a (parse InField s)
      | InQuoted =>
          if bool_decide (a = dquote) then parse QuoteInQuoted s
          else add_char a (parse InQuoted s)
      | QuoteInQuoted =>
          if bool_decide (a = newline) then [EmptyString] :: parse StartRecord s
          else if bool_decide (a = creturn) then [EmptyString] :: parse EatCRNL s
          else if bool_decide (a = comma) then end_field (parse StartField s)
          else if bool_decide (a = dquote) then add_char a (parse InQuoted s)
          else add_char a (parse InField s)
      | EatCRNL =>
          if bool_decide (a = newline) then parse StartRecord s
          else if bool_decide (a = creturn) then [] :: parse EatCRNL s
          else if bool_decide (a = comma) then end_field (parse StartField s)
          else if bool_decide (a = dquote) then parse InQuoted s
          else add_char a (parse InField s)
      end
  end.

Definition parse_csv (text : string) : list (list string) :=
  parse StartRecord text.

(** ** The page: widgets, and the script as a program that emits them *)

(** A sunburst figure: its sectors, each known by its labels from the
    root down, with the value it is drawn with. The figure holds them
    in no order of its own. *)
Record figure := mkFigure {
  fig_title : string;
  fig_sectors : gmap (list cell) Qc
}.

Inductive widget :=
  | title (s : string)
  | warning (s : string)
  | sidebar_header (s : string)
  | sidebar_selectbox (label : string) (options : list cell)
  | sidebar_button (label : string)
  | plotly_chart (fig : figure)
  | markdown (s : string)
  | metric (label value : string)
  | subheader (s : string)
  | html_table (t : DataFrame)
  | download_button (label data file_name mime : string)
  | error (msg : string) (e : exn)
  | file_uploader (label : string)
  | info (s : string).

(** A run of script code: the widgets it has emitted, and its value or
    the exception that stopped it. *)
Record UI (A : Type) := mkUI {
  shown : list widget;
  outcome : result A
}.
Arguments mkUI {A} shown outcome.
Arguments shown {A} u.
Arguments outcome {A} u.

#[global] Instance UI_ret : MRet UI := λ A a, mkUI [] (Ok a).
#[global] Instance UI_bind : MBind UI := λ A B f m,
  match outcome m with
  | Ok a => let k := f a in mkUI (shown m ++ shown k) (outcome k)
  | Raise e => mkUI (shown m) (Raise e)
  end.

Definition emit (w : widget) : UI unit := mkUI [w] (Ok ()).
Definition lift {A} (r : result A) : UI A := mkUI [] r.

(** [try: body except Exception as e: handler e] *)
Definition try_except (body : UI unit) (handler : exn → UI unit) : UI unit :=
  match outcome body with
  | Ok _ => body
  | Raise e =>
      let h := handler e in mkUI (shown body ++ shown h) (outcome h)
  end.

(** The six numbers of lines 92 to 104. *)
Record Metrics := mkMetrics {
  total_records : nat;
  total_amount : Qc;
  median_all : cell;
  mean_all : cell;
  median_filtered : option cell;
  mean_filtered : option cell
}.

Definition compute_metrics (sunburst_data filtered_data : DataFrame)
  : result Metrics :=
  let total_records := length (rows filtered_data) in
  amount ← column "Amount" filtered_data;
  total_amount ← series_sum amount;
  amount_all ← column "Amount" sunburst_data;
  median_all ← series_median amount_all;
  mean_all ← series_mean amount_all;
  if negb (is_empty filtered_data) then
    median_filtered ← series_median amount;
    mean_filtered ← series_mean amount;
    mret (mkMetrics total_records total_amount median_all mean_all
            (Some median_filtered) (Some mean_filtered))
  else
    mret (mkMetrics total_records total_amount median_all mean_all None None).

(** The text of an optional statistic (lines 147 to 150, 159 to 162). *)
Definition filtered_text (m : option cell) : result string :=
  match m with
  | Some x => format_money x
  | None => Ok "No Data"
  end.

Definition SALESFORCE_BASE_URL : string :=
  "https://hewlett.lightning.force.com/lightning/r/Request__c/".
Definition DEFAULT_FILE_PATH : string := "default_grants_data.xlsx".

Definition table_columns : list string :=
  ["Top Level Primary Program"; "Primary Strategy";
   "Organization: Organization Name"; "Salesforce Link"; "Amount"].

Definition quoted (s : string) : string :=
  String dquote (s +:+ String dquote EmptyString).

(** What a run of the script finds: the outcome of [pd.read_excel] on
    the default file, the values the two select boxes return (the
    session state under their keys), and whether a file is uploaded. *)
Record Env := mkEnv {
  read_excel : result DataFrame;
  selected_program : cell;
  selected_strategy : cell;
  uploaded_file : bool
}.

(** Lines 30 to 32: the callback of the reset button puts both
    selections back to the sentinel for the next run. *)
Definition reset_filters (env : Env) : Env :=
  mkEnv (read_excel env) (Str "All") (Str "All") (uploaded_file env).

Section Script.
(** Two library functions the script relies on and the model leaves
    open: Python's [str] of a number, and the number [pd.to_numeric]
    reads off a text cell under [errors="coerce"] ([NaN] when it
    reads none). *)
Variable str_of_number : Qc → string.
Variable numeric_of_text : string → cell.

Definition py_str (c : cell) : string :=
  match c with
  | NaN => "nan"
  | Num x => str_of_number x
  | Str s => s
  end.

Definition to_numeric (c : cell) : cell :=
  match c with
  | Str s => numeric_of_text s
  | _ => c
  end.

(** Line 89. *)
Definition coerce_amount (filtered_data : DataFrame) : result DataFrame :=
  amount ← column "Amount" filtered_data;
  assign "Amount" (to_numeric <$> amount) filtered_data.

(** The anchor of line 108. *)
Definition salesforce_link (row : gmap string cell) : string :=
  "<a href=" +:+ quoted (SALESFORCE_BASE_URL +:+ py_str (get "Request: ID" row) +:+ "/view")
  +:+ " target=" +:+ quoted "_blank" +:+ ">"
  +:+ py_str (get "Project Title" row) +:+ "</a>".

(** Lines 107 to 113: the link column is added, the identifier
    column dropped. The function of line 108 reads the two cells of a
    row, and a frame that has a row and lacks one of the two columns
    raises the [KeyError] of that column. The page passes the frame
    with its six columns; a frame with no row that lacks one of the two
    is not told apart from one with rows here. *)
Definition add_links (filtered_data : DataFrame) : result DataFrame :=
  _ ← column "Request: ID" filtered_data;
  _ ← column "Project Title" filtered_data;
  filtered_data ← assign "Salesforce Link"
    ((λ row, Str (salesforce_link row)) <$> rows filtered_data) filtered_data;
  drop_column "Request: ID" filtered_data.

(** Lines 116 to 125. [px.sunburst] groups the rows by their labels
    along the path: it makes one sector for each program, for each
    strategy under a program, and so on down to the project titles, the
    leaves, and adds up the values of the rows that fall in a sector.
    Rows with the same four labels share one leaf. It refuses, with a
    [ValueError], a path or a value that is not a column of the frame,
    and values that are text or below zero. The page passes it rows
    with no label missing; the sectors of other rows are left as the
    grouping gives them. *)
Definition path_of (path : list string) (row : gmap string cell) : list cell :=
  (λ c, get c row) <$> path.

Definition prefixes (labels : list cell) : list (list cell) :=
  (λ n, take n labels) <$> seq 1 (length labels).

Definition number (c : cell) : option Qc :=
  match c with
  | Num x => Some x
  | _ => None
  end.

Definition sector_rows (path : list string) (key : list cell)
    (rs : list (gmap string cell)) : list (gmap string cell) :=
  filter (λ r, take (length key) (path_of path r) = key) rs.

Definition sectors (path : list string) (values : string)
    (rs : list (gmap string cell)) : gmap (list cell) Qc :=
  list_to_map
    ((λ key, (key, total (omap (λ r, number (get values r))
                            (sector_rows path key rs))))
       <$> (rs ≫= λ r, prefixes (path_of path r))).

Definition chart_value (c : cell) : bool :=
  match c with
  | NaN => true
  | Num x => bool_decide (0 ≤ x)%Qc
  | Str _ => false
  end.

Definition sunburst (path : list string) (values : string) (ttl : string)
    (df : DataFrame) : result figure :=
  if forallb (λ c, bool_decide (c ∈ columns df)) (path ++ [values]) then
    if forallb (λ r, chart_value (get values r)) (rows df) then
      Ok (mkFigure ttl (sectors path values (rows df)))
    else Raise ValueError
  else Raise ValueError.

(** Lines 164 to 169: the table in its column order, the amount
    column overwritten by its currency text. *)
Definition build_table (filtered_data : DataFrame) : result DataFrame :=
  filtered_data ← select table_columns filtered_data;
  amount ← column "Amount" filtered_data;
  texts ← mapM format_money amount;
  assign "Amount" (Str <$> texts) filtered_data.

(** [df.to_csv(index=False)] *)
Definition csv_text (c : cell) : string :=
  match c with
  | NaN => EmptyString
  | Num x => str_of_number x
  | Str s => s
  end.

Definition to_csv (df : DataFrame) : string :=
  csv_lines (columns df
             :: ((λ r, (λ c, csv_text (get c r)) <$> columns df) <$> rows df)).

(** The body of the [try] block, lines 37 to 193. *)
Definition page (env : Env) : UI unit :=
  default_df ← lift (read_excel env);
  sunburst_data ← lift (clean default_df);
  if is_empty sunburst_data then
    emit (warning "No default data available to display. Please upload a dataset.")
  else
    _ ← emit (sidebar_header "Filter Options");
    options ← lift (program_options sunburst_data);
    _ ← emit (sidebar_selectbox "Select Top Level Program:" options);
    options ← lift (strategy_options (selected_program env) sunburst_data);
    _ ← emit (sidebar_selectbox "Select Primary Strategy:" options);
    _ ← emit (sidebar_button "Reset Filters");
    filtered_data ← lift (apply_filter (selected_program env)
                            (selected_strategy env) sunburst_data);
    filtered_data ← lift (coerce_amount filtered_data);
    m ← lift (compute_metrics sunburst_data filtered_data);
    filtered_data ← lift (add_links filtered_data);
    fig ← lift (sunburst ["Top Level Primary Program"; "Primary Strategy";
                          "Organization: Organization Name"; "Project Title"]
                  value_column "Grants Distribution Hierarchy (2024)"
                  filtered_data);
    _ ← emit (plotly_chart fig);
    _ ← emit (markdown "---");
    _ ← emit (metric "Total Records" (pretty (total_records m)));
    text ← lift (format_money (Num (total_amount m)));
    _ ← emit (metric "Total Amount" text);
    _ ← emit (markdown "---");
    text ← lift (format_money (median_all m));
    _ ← emit (metric "Median (All Grants)" text);
    text ← lift (filtered_text (median_filtered m));
    _ ← emit (metric "Median (Filtered)" text);
    _ ← emit (markdown "---");
    text ← lift (format_money (mean_all m));
    _ ← emit (metric "Mean (All Grants)" text);
    text ← lift (filtered_text (mean_filtered m));
    _ ← emit (metric "Mean (Filtered)" text);
    filtered_data ← lift (build_table filtered_data);
    _ ← emit (subheader "Filtered Data Table");
    _ ← emit (html_table filtered_data);
    let csv := to_csv filtered_data in
    _ ← emit (download_button "Download Filtered Data as CSV" csv
                "filtered_data.csv" "text/csv");
    emit (html_table filtered_data).

(** The whole script. *)
Definition app (env : Env) : UI unit :=
  _ ← emit (title "Dynamic Sunburst Diagram of 2024 Grants");
  _ ← (if bool_decide (DEFAULT_FILE_PATH ≠ EmptyString) then
         try_except (page env)
           (λ e, emit (error "Error loading default data: " e))
       else mret ());
  _ ← emit (file_uploader "Upload the Grants Excel File");
  if uploaded_file env then
    emit (info "Custom data handling not fully implemented here. Follow similar steps as above for uploaded data.")
  else mret ().

End Script.

(** ** Vocabulary of the properties *)

(** The six columns the script keeps. *)
Definition required : list string := hierarchy_columns ++ [value_column].

(** The amount of a row is a number above zero. *)
Definition positive_amount (r : gmap string cell) : bool :=
  match get value_column r with
  | Num x => bool_decide (0 < x)%Qc
  | _ => false
  end.

(** A row survives lines 47 and 48: none of the six cells is missing
    and the amount is above zero. *)
Definition keeps (r : gmap string cell) : bool :=
  complete required r && positive_amount r.

(** The amount column holds numbers or missing cells, no text. *)
Definition numeric_amounts (df : DataFrame) : Prop :=
  ∀ r, r ∈ rows df → ∀ s, get value_column r ≠ Str s.

(** The rows the specification says cleaning removes: a missing
    program, strategy, organization name or project title, or an
    amount that is zero or below. *)
Definition spec_hierarchy_fields : list string :=
  ["Top Level Primary Program"; "Primary Strategy";
   "Organization: Organization Name"; "Project Title"].

Definition spec_removes (r : gmap string cell) : bool :=
  existsb (λ c, negb (notna (get c r))) spec_hierarchy_fields
  || match get value_column r with
     | Num x => bool_decide (x ≤ 0)%Qc
     | _ => false
     end.

(** What a cleaned frame is known to satisfy. *)
Record cleaned (d : DataFrame) : Prop := {
  cleaned_columns : columns d = required;
  cleaned_rows : ∀ r, r ∈ rows d →
    select_row required r = r
    ∧ (∀ c, c ∈ required → ∃ v, r !! c = Some v ∧ v ≠ NaN)
    ∧ ∃ x, r !! value_column = Some (Num x) ∧ (0 < x)%Qc
}.

(** A row passes the two filters of lines 81 to 86. *)
Definition passes (selected_program selected_strategy : cell)
    (r : gmap string cell) : bool :=
  (bool_decide (selected_program = All)
   || cell_eqb selected_program (get "Top Level Primary Program" r))
  && (bool_decide (selected_strategy = All)
      || cell_eqb selected_strategy (get "Primary Strategy" r)).

(** The amounts of a frame, row by row. *)
Definition amounts (d : DataFrame) : list Qc :=
  omap (λ r, match get value_column r with Num x => Some x | _ => None end)
       (rows d).

(** A grant row, and the frames the examples run on. *)
Definition grant (program strategy organization project request amount : cell)
  : gmap string cell :=
  list_to_map [("Top Level Primary Program", program);
               ("Primary Strategy", strategy);
               ("Organization: Organization Name", organization);
               ("Project Title", project);
               ("Request: ID", request);
               ("Amount", amount)].

Definition dollars (n : Z) : cell := Num (Qc_of_Z n).

Definition example_grants : DataFrame :=
  mkFrame required
    [grant (Str "ProgA") (Str "Strat1") (Str "OrgX") (Str "Proj1") (Str "R1") (dollars 100);
     grant (Str "ProgA") (Str "Strat2") (Str "OrgY") (Str "Proj2") (Str "R2") (dollars 300);
     grant (Str "ProgB") (Str "Strat1") (Str "OrgZ") (Str "Proj3") (Str "R3") (dollars 200)].

(** The six numbers, written out for cleaned frames. *)
Definition metrics_of (sunburst_data filtered_data : DataFrame) : Metrics :=
  mkMetrics (length (rows filtered_data)) (total (amounts filtered_data))
    (median_of (amounts sunburst_data)) (mean_of (amounts sunburst_data))
    (if bool_decide (rows filtered_data = []) then None
     else Some (median_of (amounts filtered_data)))
    (if bool_decide (rows filtered_data = []) then None
     else Some (mean_of (amounts filtered_data))).

(** The currency text of a cell that is not text. *)
Definition money_text (c : cell) : string :=
  match c with
  | NaN => "$nan"
  | Num x => "$" +:+ format_2f x
  | Str _ => EmptyString
  end.

(** A row of the frame once the link is added and the identifier
    dropped (lines 107 to 113), and a row of the table (lines 164 to
    169). *)
Definition linked_columns : list string :=
  ["Top Level Primary Program"; "Primary Strategy";
   "Organization: Organization Name"; "Project Title"; "Amount";
   "Salesforce Link"].

Definition linked_row (str_of_number : Qc → string) (r : gmap string cell)
  : gmap string cell :=
  delete "Request: ID"
    (<["Salesforce Link" := Str (salesforce_link str_of_number r)]> r).

Definition table_row (str_of_number : Qc → string) (r : gmap string cell)
  : gmap string cell :=
  let r' := select_row table_columns (linked_row str_of_number r) in
  <["Amount" := Str (money_text (get "Amount" r'))]> r'.

(** The fields of a table row as the export writes them. *)
Definition export_fields (str_of_number : Qc → string) (r : gmap string cell)
  : list string :=
  [csv_text str_of_number (get "Top Level Primary Program" r);
   csv_text str_of_number (get "Primary Strategy" r);
   csv_text str_of_number (get "Organization: Organization Name" r);
   salesforce_link str_of_number r;
   money_text (get "Amount" r)].

(** The filtered frame of a cleaned frame, and the widgets of a page
    that meets no exception. *)
Definition filtered_of (env : Env) (d : DataFrame) : DataFrame :=
  mkFrame required
    (filter (λ r, passes (selected_program env) (selected_strategy env) r)
       (rows d)).

Definition strategies_of (selected_program : cell) (d : DataFrame) : list cell :=
  unique (get "Primary Strategy" <$>
            filter (λ r, bool_decide (selected_program = All)
                         || cell_eqb selected_program
                              (get "Top Level Primary Program" r))
              (rows d)).

Definition table_of (str_of_number : Qc → string) (fd : DataFrame) : DataFrame :=
  mkFrame table_columns (table_row str_of_number <$> rows fd).

Definition chart_path : list string :=
  ["Top Level Primary Program"; "Primary Strategy";
   "Organization: Organization Name"; "Project Title"].

Definition figure_of (str_of_number : Qc → string) (fd : DataFrame) : figure :=
  mkFigure "Grants Distribution Hierarchy (2024)"
    (sectors chart_path value_column (linked_row str_of_number <$> rows fd)).

Definition optional_text (m : option cell) : string :=
  match m with
  | Some x => money_text x
  | None => "No Data"
  end.

Definition metric_widgets (m : Metrics) : list widget :=
  [markdown "---";
   metric "Total Records" (pretty (total_records m));
   metric "Total Amount" (money_text (Num (total_amount m)));
   markdown "---";
   metric "Median (All Grants)" (money_text (median_all m));
   metric "Median (Filtered)" (optional_text (median_filtered m));
   markdown "---";
   metric "Mean (All Grants)" (money_text (mean_all m));
   metric "Mean (Filtered)" (optional_text (mean_filtered m))].

Definition page_widgets (str_of_number : Qc → string) (env : Env)
    (d : DataFrame) : list widget :=
  let fd := filtered_of env d in
  [sidebar_header "Filter Options";
   sidebar_selectbox "Select Top Level Program:"
     (All :: unique (get "Top Level Primary Program" <$> rows d));
   sidebar_selectbox "Select Primary Strategy:"
     (All :: strategies_of (selected_program env) d);
   sidebar_button "Reset Filters";
   plotly_chart (figure_of str_of_number fd)]
  ++ metric_widgets (metrics_of d fd)
  ++ [subheader "Filtered Data Table";
      html_table (table_of str_of_number fd);
      download_button "Download Filtered Data as CSV"
        (to_csv str_of_number (table_of str_of_number fd))
        "filtered_data.csv" "text/csv";
      html_table (table_of str_of_number fd)].

(** The widgets around the [try] block. *)
Definition frame_widgets (env : Env) (inner : list widget) : list widget :=
  title "Dynamic Sunburst Diagram of 2024 Grants" :: inner
  ++ file_uploader "Upload the Grants Excel File"
     :: (if uploaded_file env
         then [info "Custom data handling not fully implemented here. Follow similar steps as above for uploaded data."]
         else []).

(** A field put in front of the record under way. *)
Definition cons_field (f : string) (recs : list (list string))
  : list (list string) :=
  match recs with
  | r :: recs => (f :: r) :: recs
  | [] => [[f]]
  end.

(** An instance of the two library functions for the worked examples,
    which print no number through [str] and hold no text amount. *)
Definition example_str (x : Qc) : string := format_2f x.
Definition example_numeric (s : string) : cell := NaN.

(** A frame whose only row lacks its request identifier. *)
Definition no_request_id : DataFrame :=
  mkFrame required
    [grant (Str "ProgA") (Str "Strat1") (Str "OrgX") (Str "Proj1") NaN (dollars 100)].

(** A frame with a program that is named like the sentinel. *)
Definition program_named_all : DataFrame :=
  mkFrame required
    [grant (Str "All") (Str "Strat1") (Str "OrgX") (Str "Proj1") (Str "R1") (dollars 100);
     grant (Str "ProgB") (Str "Strat2") (Str "OrgY") (Str "Proj2") (Str "R2") (dollars 300)].

(** Two frames that differ in their number of rows and in their sum,
    and agree on the rows of one program, on the median and on the
    mean. *)
Definition two_grants : DataFrame :=
  mkFrame required
    [grant (Str "ProgA") (Str "Strat1") (Str "OrgX") (Str "Proj1") (Str "R1") (dollars 100);
     grant (Str "ProgB") (Str "Strat1") (Str "OrgZ") (Str "Proj3") (Str "R3") (dollars 100)].

Definition three_grants : DataFrame :=
  mkFrame required
    [grant (Str "ProgA") (Str "Strat1") (Str "OrgX") (Str "Proj1") (Str "R1") (dollars 100);
     grant (Str "ProgB") (Str "Strat1") (Str "OrgZ") (Str "Proj3") (Str "R3") (dollars 100);
     grant (Str "ProgB") (Str "Strat1") (Str "OrgZ") (Str "Proj3") (Str "R3") (dollars 100)].

Definition is_metric (w : widget) : bool :=
  match w with metric _ _ => true | _ => false end.

Definition is_text (c : cell) : bool :=
  match c with Str _ => true | _ => false end.

(** The rows of the first program of [example_grants]. *)
Definition example_program_a : DataFrame :=
  mkFrame required
    [grant (Str "ProgA") (Str "Strat1") (Str "OrgX") (Str "Proj1") (Str "R1") (dollars 100);
     grant (Str "ProgA") (Str "Strat2") (Str "OrgY") (Str "Proj2") (Str "R2") (dollars 300)].

(** A frame that has no program column. *)
Definition no_program_column : DataFrame :=
  mkFrame ["Primary Strategy"; "Amount"]
    [list_to_map [("Primary Strategy", Str "Strat1"); ("Amount", dollars 100)]].

(** A text holds no carriage return; a field reads back when the
    writer puts it in quotes or it holds no carriage return. *)
Fixpoint cr_free (s : string) : bool :=
  match s with
  | EmptyString => true
  | String a s => negb (bool_decide (a = creturn)) && cr_free s
  end.

Definition reads_back (field : string) : bool :=
  needs_quotes field || cr_free field.

(** The three cells of a row that the export writes as they are, as
    the export writes them. *)
Definition plain_fields (str_of_number : Qc → string) (r : gmap string cell)
  : list string :=
  [csv_text str_of_number (get "Top Level Primary Program" r);
   csv_text str_of_number (get "Primary Strategy" r);
   csv_text str_of_number (get "Organization: Organization Name" r)].

(** A frame whose only row has a carriage return in its program. *)
Definition carriage_return_grants : DataFrame :=
  mkFrame required
    [grant (Str ("Prog" +:+ String creturn "A")) (Str "Strat1") (Str "OrgX")
       (Str "Proj1") (Str "R1") (dollars 100)].

(** The number of cents a currency text denotes: a dollar sign, then
    decimal digits with commas between them, a point and two digits. *)
Definition digit_value (a : ascii) : option Z :=
  let n := (Z.of_N (N_of_ascii a) - 48)%Z in
  if bool_decide (0 ≤ n ≤ 9)%Z then Some n else None.

Fixpoint read_cents (whole : Z) (s : string) : option Z :=
  match s with
  | EmptyString => None
  | String a s =>
      if bool_decide (a = "."%char) then
        match s with
        | String a (String b EmptyString) =>
            a ← digit_value a; b ← digit_value b;
            Some (100 * whole + 10 * a + b)%Z
        | _ => None
        end
      else if bool_decide (a = comma) then read_cents whole s
      else d ← digit_value a; read_cents (10 * whole + d)%Z s
  end.

Definition read_money (s : string) : option Z :=
  match s with
  | String "$" s => read_cents 0 s
  | _ => None
  end.

(** A text of decimal digits. *)
Fixpoint all_digits (s : string) : bool :=
  match s with
  | EmptyString => true
  | String a s => bool_decide (is_Some (digit_value a)) && all_digits s
  end.

(** A text without its commas, and whether it has none. *)
Fixpoint strip_commas (s : string) : string :=
  match s with
  | EmptyString => EmptyString
  | String a s =>
      if bool_decide (a = comma) then strip_commas s
      else String a (strip_commas s)
  end.

Fixpoint comma_free (s : string) : bool :=
  match s with
  | EmptyString => true
  | String a s => negb (bool_decide (a = comma)) && comma_free s
  end.

(** A frame whose only row has text for its amount. *)
Definition text_amount : DataFrame :=
  mkFrame required
    [grant (Str "ProgA") (Str "Strat1") (Str "OrgX") (Str "Proj1") (Str "R1")
       (Str "n/a")].

(** A frame whose cells hold the characters the export must quote. *)
Definition awkward_cells : DataFrame :=
  mkFrame ["Organization, Name"; "Title"]
    [list_to_map [("Organization, Name", Str ("Smith, Jones" +:+ String newline "and Co"));
                  ("Title", Str (quoted "Quoted"))];
     list_to_map [("Organization, Name", NaN); ("Title", Str EmptyString)]].

(** The session dictionary of the two select boxes. Lines 24 to 27 give
    a key that is absent the sentinel; lines 30 to 32 ([reset_filters])
    assign the sentinel to both keys. A select box returns the value
    under its key when that value is among the options it offers; a
    value that is not among them is passed on as it is here. *)
Definition init_key (k : string) (session_state : gmap string cell)
  : gmap string cell :=
  match session_state !! k with
  | Some _ => session_state
  | None => <[k := Str "All"]> session_state
  end.

Definition init_session_state (session_state : gmap string cell)
  : gmap string cell :=
  init_key "selected_strategy" (init_key "selected_program" session_state).

Definition reset_filters_state (session_state : gmap string cell)
  : gmap string cell :=
  <["selected_strategy" := Str "All"]>
    (<["selected_program" := Str "All"]> session_state).

Definition env_of_session (excel : result DataFrame)
    (session_state : gmap string cell) (uploaded : bool) : Env :=
  mkEnv excel (get "selected_program" session_state)
    (get "selected_strategy" session_state) uploaded.

(** ** Basic facts: exceptions, masks, column selection *)

Lemma bind_Ok {A B} (f : A → result B) (a : A) : (Ok a ≫= f) = f a.
Proof. reflexivity. Qed.

Lemma bind_Ok_inv {A B} (f : A → result B) (m : result A) (b : B) :
  (m ≫= f) = Ok b → ∃ a, m = Ok a ∧ f a = Ok b.
Proof. destruct m as [a|e]; [eauto | discriminate]. Qed.

Lemma boolean_index_fmap {A} (f : A → bool) (l : list A) :
  boolean_index (f <$> l) l = filter (λ x, f x) l.
Proof.
  induction l as [|x l IH]; [done|].
  cbn [fmap list_fmap boolean_index]. rewrite filter_cons, IH.
  destruct (f x); by case_decide.
Qed.

Lemma boolean_index_fmap2 {A B} (f : B → bool) (g : A → B) (l : list A) :
  boolean_index (f <$> (g <$> l)) l = filter (λ x, f (g x)) l.
Proof. rewrite <-list_fmap_compose. apply (boolean_index_fmap (f ∘ g)). Qed.

Lemma filter_none {A} (P : A → Prop) `{∀ x, Decision (P x)} (l : list A) :
  (∀ x, x ∈ l → ¬ P x) → filter P l = [].
Proof.
  induction l as [|x l IH]; intros Hl; [done|].
  rewrite filter_cons, decide_False by (apply Hl; left).
  apply IH. intros y Hy. apply Hl. by right.
Qed.

Lemma filter_all {A} (P : A → Prop) `{∀ x, Decision (P x)} (l : list A) :
  (∀ x, x ∈ l → P x) → filter P l = l.
Proof.
  induction l as [|x l IH]; intros Hl; [done|].
  rewrite filter_cons, decide_True by (apply Hl; left).
  f_equal. apply IH. intros y Hy. apply Hl. by right.
Qed.

Lemma get_lookup c r v : r !! c = Some v → get c r = v.
Proof. unfold get. by intros ->. Qed.

Lemma get_select_row cols r c :
  get c (select_row cols r) = if decide (c ∈ cols) then get c r else NaN.
Proof.
  unfold select_row, get at 1.
  induction cols as [|c' cols IH]; [done|].
  cbn [fmap list_fmap list_to_map foldr]. cbn. rewrite lookup_insert.
  destruct (decide (c' = c)) as [->|Hne].
  - rewrite decide_True by left. done.
  - rewrite IH. destruct (decide (c ∈ cols)) as [Hin|Hnin].
    + rewrite decide_True by (by right). done.
    + rewrite decide_False; [done|]. rewrite elem_of_cons. by intros [|].
Qed.

Lemma lookup_select_row cols r c :
  c ∈ cols → select_row cols r !! c = Some (get c r).
Proof.
  unfold select_row.
  induction cols as [|c' cols IH]; [by intros ?%elem_of_nil|].
  intros Hc. cbn. rewrite lookup_insert.
  destruct (decide (c' = c)) as [->|Hne]; [done|].
  apply IH. by apply elem_of_cons in Hc as [|].
Qed.

Lemma select_row_idem cols r :
  select_row cols (select_row cols r) = select_row cols r.
Proof.
  unfold select_row at 1 3. f_equal.
  apply list_fmap_ext. intros i c Hc. f_equal.
  rewrite get_select_row, decide_True; [done|].
  by eapply list_elem_of_lookup_2.
Qed.

Lemma select_ok cols df :
  cols ⊆ columns df →
  select cols df = Ok (mkFrame cols (select_row cols <$> rows df)).
Proof.
  intros Hsub. unfold select.
  rewrite filter_none; [done|]. intros c Hc Hn. by apply Hn, Hsub.
Qed.

Lemma select_missing cols df c :
  c ∈ cols → c ∉ columns df →
  ∃ missing, select cols df = Raise (KeyError missing) ∧ c ∈ missing.
Proof.
  intros Hc Hn. unfold select.
  assert (Hin : c ∈ filter (λ c, c ∉ columns df) cols)
    by (by apply list_elem_of_filter).
  destruct (filter _ cols) as [|c0 l] eqn:E.
  - by apply elem_of_nil in Hin.
  - eauto.
Qed.

Lemma select_Ok_inv cols df d :
  select cols df = Ok d →
  cols ⊆ columns df ∧ d = mkFrame cols (select_row cols <$> rows df).
Proof.
  unfold select. destruct (filter _ cols) as [|c0 l] eqn:E; [|discriminate].
  intros [= <-]. split; [|done].
  intros c Hc. destruct (decide (c ∈ columns df)) as [|Hn]; [done|].
  assert (c ∈ filter (λ c, c ∉ columns df) cols) as Hin
    by (by apply list_elem_of_filter).
  rewrite E in Hin. by apply elem_of_nil in Hin.
Qed.

(** ** Cleaning *)

Lemma value_column_required : value_column ∈ required.
Proof. apply elem_of_app. right. by apply list_elem_of_singleton. Qed.

Lemma required_present : filter (λ c, c ∉ required) required = [].
Proof. apply filter_none. by intros c Hc Hn. Qed.

Lemma mapM_gt0 (l : list (gmap string cell)) :
  (∀ r, r ∈ l → ∀ s, get value_column r ≠ Str s) →
  mapM gt0 (get value_column <$> l) = Ok (positive_amount <$> l).
Proof.
  induction l as [|r l IH]; intros Hl; [done|].
  cbn [fmap list_fmap mapM]. rewrite IH by (intros; apply Hl; by right).
  unfold positive_amount.
  destruct (get value_column r) as [|x|s] eqn:E; [done..|].
  exfalso. by eapply (Hl r); [left|].
Qed.

Lemma mapM_gt0_inv (l : list (gmap string cell)) mask :
  mapM gt0 (get value_column <$> l) = Ok mask →
  mask = positive_amount <$> l.
Proof.
  revert mask. induction l as [|r l IH]; intros mask.
  - by intros [= <-].
  - cbn [fmap list_fmap mapM]. intros (b & Hb & H)%bind_Ok_inv.
    apply bind_Ok_inv in H as (k & Hk & [= <-]).
    rewrite (IH k Hk). f_equal.
    unfold positive_amount. by destruct (get value_column r); inversion Hb.
Qed.

Lemma keeps_filter (l : list (gmap string cell)) :
  filter (λ r, positive_amount r) (filter (λ r, complete required r) l)
  = filter (λ r, keeps r) l.
Proof.
  rewrite list_filter_filter. apply list_filter_iff. intros r.
  unfold keeps. rewrite andb_True. tauto.
Qed.

(** The steps of [clean] on a frame that has the six columns. *)
Lemma clean_steps raw :
  required ⊆ columns raw →
  clean raw =
    mask ← mapM gt0 (get value_column <$>
              filter (λ r, complete required r) (select_row required <$> rows raw));
    mret (mkFrame required
            (boolean_index mask
               (filter (λ r, complete required r)
                  (select_row required <$> rows raw)))).
Proof.
  intros Hsub. unfold clean. fold required.
  rewrite (select_ok _ _ Hsub), bind_Ok.
  unfold dropna. cbn [columns rows]. rewrite required_present, bind_Ok.
  unfold column. cbn [columns rows].
  rewrite decide_True by apply value_column_required.
  by rewrite bind_Ok.
Qed.

Lemma clean_ok raw :
  required ⊆ columns raw → numeric_amounts raw →
  clean raw
  = Ok (mkFrame required (filter (λ r, keeps r) (select_row required <$> rows raw))).
Proof.
  intros Hsub Hnum. rewrite (clean_steps _ Hsub), mapM_gt0.
  - by rewrite bind_Ok, boolean_index_fmap, keeps_filter.
  - intros r [_ (r0 & -> & Hr0)%list_elem_of_fmap]%list_elem_of_filter s.
    rewrite get_select_row, decide_True by apply value_column_required.
    by apply Hnum.
Qed.

Lemma keeps_cleaned_row r0 :
  keeps (select_row required r0) →
  select_row required (select_row required r0) = select_row required r0
  ∧ (∀ c, c ∈ required → ∃ v, select_row required r0 !! c = Some v ∧ v ≠ NaN)
  ∧ ∃ x, select_row required r0 !! value_column = Some (Num x) ∧ (0 < x)%Qc.
Proof.
  unfold keeps. rewrite andb_True. intros [Hc Hp].
  split; [apply select_row_idem|]. split.
  - intros c Hin. exists (get c r0). split; [by apply lookup_select_row|].
    unfold complete in Hc. rewrite Is_true_true, forallb_forall in Hc.
    specialize (Hc c). rewrite <-list_elem_of_In in Hc. specialize (Hc Hin).
    rewrite get_select_row, decide_True in Hc by done.
    by destruct (get c r0).
  - unfold positive_amount in Hp.
    rewrite get_select_row, decide_True in Hp by apply value_column_required.
    rewrite lookup_select_row by apply value_column_required.
    destruct (get value_column r0) as [|x|]; [done| |done].
    exists x. split; [done|]. by apply bool_decide_unpack in Hp.
Qed.

Lemma clean_inv raw d :
  clean raw = Ok d →
  required ⊆ columns raw
  ∧ d = mkFrame required (filter (λ r, keeps r) (select_row required <$> rows raw))
  ∧ cleaned d.
Proof.
  intros H.
  assert (Hsub : required ⊆ columns raw).
  { unfold clean in H. fold required in H.
    apply bind_Ok_inv in H as (sd & Hsel & _).
    by apply select_Ok_inv in Hsel as [? _]. }
  rewrite (clean_steps _ Hsub) in H.
  apply bind_Ok_inv in H as (mask & Hmask & [= <-]).
  apply mapM_gt0_inv in Hmask as ->.
  rewrite boolean_index_fmap, keeps_filter.
  split; [done|]. split; [done|]. split; [done|].
  cbn [rows]. intros r [Hk (r0 & -> & _)%list_elem_of_fmap]%list_elem_of_filter.
  by apply keeps_cleaned_row.
Qed.

Lemma cleaned_keeps d r : cleaned d → r ∈ rows d → keeps r.
Proof.
  intros [_ Hrows] Hr. destruct (Hrows r Hr) as (_ & Hall & x & Hx & Hpos).
  unfold keeps. apply andb_True. split.
  - unfold complete. apply Is_true_true, forallb_forall. intros c Hc.
    apply list_elem_of_In in Hc. destruct (Hall c Hc) as (v & Hv & Hn).
    rewrite (get_lookup _ _ _ Hv). by destruct v.
  - unfold positive_amount. rewrite (get_lookup _ _ _ Hx).
    by apply bool_decide_pack.
Qed.

Lemma cleaned_numeric d : cleaned d → numeric_amounts d.
Proof.
  intros [_ Hrows] r Hr s. destruct (Hrows r Hr) as (_ & _ & x & Hx & _).
  by rewrite (get_lookup _ _ _ Hx).
Qed.

Lemma clean_cleaned d : cleaned d → clean d = Ok d.
Proof.
  intros Hd. rewrite clean_ok.
  - destruct Hd as [Hcols Hrows]. destruct d as [cols rws].
    cbn [columns rows] in *. subst cols. do 2 f_equal.
    rewrite filter_all.
    + rewrite <-(list_fmap_id rws) at 2. apply list_fmap_ext.
      intros i r Hr. apply Hrows. by eapply list_elem_of_lookup_2.
    + intros r (r0 & -> & Hr0)%list_elem_of_fmap.
      destruct (Hrows r0 Hr0) as (Hfix & _). rewrite Hfix.
      by apply (cleaned_keeps (mkFrame required rws)).
  - by rewrite (cleaned_columns _ Hd).
  - by apply cleaned_numeric.
Qed.

(** ** Filtering *)

Lemma frame_eta df : mkFrame (columns df) (rows df) = df.
Proof. by destruct df. Qed.

Lemma where_eq_ok c v df :
  c ∈ columns df →
  where_eq c v df
  = Ok (mkFrame (columns df) (filter (λ r, cell_eqb v (get c r)) (rows df))).
Proof.
  intros Hc. unfold where_eq, column. rewrite decide_True by done.
  by rewrite bind_Ok, boolean_index_fmap2.
Qed.

(** One of the two filter stages: a constraint unless the selection is
    the sentinel. *)
Lemma stage_ok c v df :
  c ∈ columns df →
  (if decide (v ≠ All) then where_eq c v df else Ok df)
  = Ok (mkFrame (columns df)
          (filter (λ r, bool_decide (v = All) || cell_eqb v (get c r)) (rows df))).
Proof.
  intros Hc. case_decide as Hv.
  - rewrite where_eq_ok by done. do 2 f_equal.
    apply list_filter_iff. intros r. by rewrite bool_decide_eq_false_2.
  - subst v.
    rewrite filter_all; [by rewrite frame_eta|]. intros r _.
    by rewrite bool_decide_eq_true_2.
Qed.

Lemma apply_filter_ok p s df :
  "Top Level Primary Program" ∈ columns df →
  "Primary Strategy" ∈ columns df →
  apply_filter p s df
  = Ok (mkFrame (columns df) (filter (λ r, passes p s r) (rows df))).
Proof.
  intros Hp Hs. unfold apply_filter.
  rewrite (stage_ok _ p df Hp), bind_Ok.
  rewrite stage_ok by done. rewrite bind_Ok. cbn [columns rows].
  unfold mret, result_ret. do 2 f_equal.
  rewrite list_filter_filter. apply list_filter_iff. intros r.
  unfold passes. rewrite andb_True. tauto.
Qed.

Lemma program_required : "Top Level Primary Program" ∈ required.
Proof. unfold required, hierarchy_columns. set_solver. Qed.
Lemma strategy_required : "Primary Strategy" ∈ required.
Proof. unfold required, hierarchy_columns. set_solver. Qed.
Lemma project_required : "Project Title" ∈ required.
Proof. unfold required, hierarchy_columns. set_solver. Qed.
Lemma request_required : "Request: ID" ∈ required.
Proof. unfold required, hierarchy_columns. set_solver. Qed.

Lemma cleaned_sub d l :
  cleaned d → l ⊆ rows d → cleaned (mkFrame required l).
Proof.
  intros [Hc Hr] Hl. split; [done|]. intros r Hin. apply Hr, Hl, Hin.
Qed.

Lemma cleaned_filter d (P : gmap string cell → Prop) `{∀ r, Decision (P r)} :
  cleaned d → cleaned (mkFrame required (filter P (rows d))).
Proof.
  intros Hd. apply (cleaned_sub d); [done|].
  intros r Hr. by apply list_elem_of_filter in Hr as [_ ?].
Qed.

Lemma apply_filter_cleaned p s d :
  cleaned d →
  apply_filter p s d
  = Ok (mkFrame required (filter (λ r, passes p s r) (rows d))).
Proof.
  intros Hd. rewrite apply_filter_ok.
  - by rewrite (cleaned_columns _ Hd).
  - rewrite (cleaned_columns _ Hd). apply program_required.
  - rewrite (cleaned_columns _ Hd). apply strategy_required.
Qed.

(** On a cleaned row, [==] against a selection is plain equality. *)
Lemma cell_eqb_cleaned d r c v :
  cleaned d → r ∈ rows d → c ∈ required →
  cell_eqb v (get c r) ↔ get c r = v.
Proof.
  intros [_ Hrows] Hr Hc. destruct (Hrows r Hr) as (_ & Hall & _).
  destruct (Hall c Hc) as (w & Hw & Hn). rewrite (get_lookup _ _ _ Hw).
  unfold cell_eqb. destruct w; [done| |]; by rewrite bool_decide_spec.
Qed.

(** ** Distinct values *)

Lemma elem_of_unique l x : x ∈ unique l ↔ x ∈ l.
Proof.
  induction l as [|y l IH]; [done|]. cbn [unique].
  rewrite !elem_of_cons, list_elem_of_filter, IH.
  destruct (decide (x = y)); naive_solver.
Qed.

Lemma NoDup_unique l : NoDup (unique l).
Proof.
  induction l as [|y l IH]; cbn [unique]; [constructor|].
  constructor.
  - rewrite list_elem_of_filter. by intros [? _].
  - by apply NoDup_filter.
Qed.

(** ** Statistics of a cleaned frame *)

Lemma column_ok c df : c ∈ columns df → column c df = Ok (get c <$> rows df).
Proof. intros Hc. unfold column. by rewrite decide_True. Qed.

Lemma column_cleaned c d :
  cleaned d → c ∈ required → column c d = Ok (get c <$> rows d).
Proof. intros Hd Hc. apply column_ok. by rewrite (cleaned_columns _ Hd). Qed.

Lemma numbers_ok (l : list (gmap string cell)) :
  (∀ r, r ∈ l → ∀ s, get value_column r ≠ Str s) →
  numbers (get value_column <$> l)
  = Ok (omap (λ r, match get value_column r with Num x => Some x | _ => None end) l).
Proof.
  induction l as [|r l IH]; intros Hl; [done|].
  cbn [fmap list_fmap numbers omap list_omap].
  specialize (IH (λ r' Hr', Hl r' (list_elem_of_further _ _ _ Hr'))).
  destruct (get value_column r) as [|x|s] eqn:E.
  - done.
  - by rewrite IH.
  - exfalso. by eapply (Hl r); [left|].
Qed.

Lemma numbers_cleaned d :
  cleaned d → numbers (get value_column <$> rows d) = Ok (amounts d).
Proof. intros Hd. apply numbers_ok. by apply cleaned_numeric. Qed.

Lemma is_empty_cleaned d :
  cleaned d → is_empty d = bool_decide (rows d = []).
Proof.
  intros [Hc _]. unfold is_empty. rewrite Hc. by destruct (rows d).
Qed.

Lemma amounts_nil d : rows d = [] → amounts d = [].
Proof. unfold amounts. by intros ->. Qed.

Lemma compute_metrics_cleaned d fd :
  cleaned d → cleaned fd → compute_metrics d fd = Ok (metrics_of d fd).
Proof.
  intros Hd Hfd. unfold compute_metrics.
  rewrite !column_cleaned by (done || apply value_column_required).
  rewrite bind_Ok. unfold series_sum, series_median, series_mean.
  pose proof (numbers_cleaned d Hd) as Ed.
  pose proof (numbers_cleaned fd Hfd) as Efd.
  unfold value_column in Ed, Efd. rewrite Efd, !bind_Ok, Ed, !bind_Ok.
  rewrite is_empty_cleaned by done. unfold metrics_of.
  by case_bool_decide.
Qed.

Lemma median_of_not_text xs s : median_of xs ≠ Str s.
Proof.
  unfold median_of. destruct (length _); [done|]. by destruct (Nat.odd _).
Qed.

Lemma mean_of_not_text xs s : mean_of xs ≠ Str s.
Proof. unfold mean_of. by destruct xs. Qed.

Lemma format_money_ok c : (∀ s, c ≠ Str s) → format_money c = Ok (money_text c).
Proof. destruct c as [| |s]; [done..|]. intros H. by destruct (H s). Qed.

Lemma format_money_dollar c t : format_money c = Ok t → ∃ t', t = String "$" t'.
Proof. destruct c; intros [= <-]; eauto. Qed.

Lemma format_money_no_data c : format_money c ≠ Ok "No Data".
Proof. by intros [t' [=]]%format_money_dollar. Qed.

(** ** The script on a cleaned frame *)

Lemma get_insert c c' v (r : gmap string cell) :
  get c (<[c':=v]> r) = if decide (c' = c) then v else get c r.
Proof. unfold get. rewrite lookup_insert. by case_decide. Qed.

Lemma get_delete c c' (r : gmap string cell) :
  get c (delete c' r) = if decide (c' = c) then NaN else get c r.
Proof. unfold get. rewrite lookup_delete. by case_decide. Qed.

Lemma mapM_format_money (l : list cell) :
  (∀ c, c ∈ l → ∀ s, c ≠ Str s) →
  mapM format_money l = Ok (money_text <$> l).
Proof.
  induction l as [|c l IH]; intros Hl; [done|].
  cbn [mapM fmap list_fmap]. rewrite format_money_ok by (apply Hl; left).
  rewrite bind_Ok, IH; [done|]. intros c' Hc'. apply Hl. by right.
Qed.

Lemma strategies_cleaned p d :
  cleaned d → strategies p d = Ok (strategies_of p d).
Proof.
  intros Hd. unfold strategies, strategies_of.
  pose proof (stage_ok "Top Level Primary Program" p d) as Hstage.
  rewrite (cleaned_columns _ Hd) in Hstage. specialize (Hstage program_required).
  case_decide as Hp.
  - rewrite Hstage, bind_Ok.
    rewrite column_ok by apply strategy_required. done.
  - subst p. rewrite column_cleaned by (done || apply strategy_required).
    rewrite bind_Ok. do 3 f_equal. symmetry. by apply filter_all.
Qed.

Section ScriptFacts.
Variable str_of_number : Qc → string.
Variable numeric_of_text : string → cell.

Lemma coerce_rows (l : list (gmap string cell)) :
  (∀ r, r ∈ l → ∃ x, r !! "Amount" = Some (Num x)) →
  zip_with (λ r v, <["Amount":=v]> r) l
    (to_numeric numeric_of_text <$> (get "Amount" <$> l)) = l.
Proof.
  induction l as [|r l IH]; intros Hl; [done|].
  cbn [fmap list_fmap zip_with]. f_equal.
  - destruct (Hl r) as [x Hx]; [by left|].
    rewrite (get_lookup _ _ _ Hx). cbn [to_numeric]. by apply insert_id.
  - apply IH. intros r' Hr'. apply Hl. by right.
Qed.

(** Line 89 changes nothing on a cleaned frame. *)
Lemma coerce_amount_cleaned d :
  cleaned d → coerce_amount numeric_of_text d = Ok d.
Proof.
  intros Hd. unfold coerce_amount.
  rewrite column_cleaned by (done || apply value_column_required).
  rewrite bind_Ok. unfold assign.
  rewrite decide_True by (by rewrite !length_fmap).
  rewrite decide_True
    by (rewrite (cleaned_columns _ Hd); apply value_column_required).
  rewrite (coerce_rows (rows d)); [by rewrite frame_eta|].
  intros r Hr. destruct (cleaned_rows _ Hd r Hr) as (_ & _ & x & Hx & _).
  eauto.
Qed.

Lemma add_links_cleaned d :
  cleaned d →
  add_links str_of_number d
  = Ok (mkFrame linked_columns (linked_row str_of_number <$> rows d)).
Proof.
  intros Hd. unfold add_links.
  rewrite !column_cleaned
    by (done || apply request_required || apply project_required).
  rewrite !bind_Ok. unfold assign.
  rewrite decide_True by (by rewrite !length_fmap).
  rewrite (cleaned_columns _ Hd).
  rewrite decide_False by (unfold required, hierarchy_columns; set_solver).
  rewrite bind_Ok. unfold drop_column. cbn [columns rows].
  rewrite decide_True by (unfold required, hierarchy_columns; set_solver).
  f_equal. f_equal.
  rewrite zip_with_fmap_r, zip_with_diag, <-list_fmap_compose. done.
Qed.

Lemma sunburst_linked path values ttl l :
  path ⊆ linked_columns → values ∈ linked_columns →
  Forall (λ r, chart_value (get values r)) l →
  sunburst path values ttl (mkFrame linked_columns l)
  = Ok (mkFigure ttl (sectors path values l)).
Proof.
  intros Hp Hv Hl. unfold sunburst. cbn [columns rows].
  assert (H : forallb (λ c, bool_decide (c ∈ linked_columns)) (path ++ [values])
              = true).
  { apply forallb_forall. intros c Hc%list_elem_of_In.
    apply bool_decide_eq_true. apply elem_of_app in Hc as [Hc|Hc].
    - by apply Hp.
    - by apply list_elem_of_singleton in Hc as ->. }
  rewrite H.
  assert (H' : forallb (λ r, chart_value (get values r)) l = true);
    [|by rewrite H'].
  apply forallb_forall. intros r Hr%list_elem_of_In.
  rewrite Forall_forall in Hl. by apply Is_true_true, Hl.
Qed.

(** The link leaves the labels and the amount of a row as they are. *)
Lemma linked_get c r :
  c ≠ "Request: ID" → c ≠ "Salesforce Link" →
  get c (linked_row str_of_number r) = get c r.
Proof.
  intros H1 H2. unfold linked_row.
  rewrite get_delete, decide_False by done.
  by rewrite get_insert, decide_False.
Qed.

Lemma linked_chart_values d :
  cleaned d →
  Forall (λ r, chart_value (get value_column r))
    (linked_row str_of_number <$> rows d).
Proof.
  intros Hd. apply Forall_fmap, Forall_forall. intros r Hr. cbn.
  rewrite linked_get by done.
  destruct (cleaned_rows _ Hd r Hr) as (_ & _ & x & Hx & Hpos).
  rewrite (get_lookup _ _ _ Hx). cbn [chart_value].
  by apply bool_decide_pack, Qclt_le_weak.
Qed.

Lemma linked_amount r :
  get "Amount" (select_row table_columns (linked_row str_of_number r))
  = get "Amount" r.
Proof.
  rewrite get_select_row, decide_True by (unfold table_columns; set_solver).
  unfold linked_row. rewrite get_delete, decide_False by done.
  by rewrite get_insert, decide_False.
Qed.

Lemma build_table_linked d :
  cleaned d →
  build_table (mkFrame linked_columns (linked_row str_of_number <$> rows d))
  = Ok (table_of str_of_number d).
Proof.
  intros Hd. unfold build_table.
  rewrite select_ok by (unfold table_columns, linked_columns; set_solver).
  rewrite bind_Ok. cbn [rows].
  rewrite column_ok by (unfold table_columns; set_solver).
  rewrite bind_Ok. cbn [rows].
  rewrite mapM_format_money.
  - rewrite bind_Ok. unfold assign. cbn [columns rows].
    rewrite decide_True by (by rewrite !length_fmap).
    rewrite decide_True by (unfold table_columns; set_solver).
    unfold table_of. do 2 f_equal.
    rewrite <-!list_fmap_compose.
    rewrite zip_with_fmap_l, zip_with_fmap_r, zip_with_diag.
    done.
  - intros c Hc s. rewrite <-!list_fmap_compose in Hc.
    apply list_elem_of_fmap in Hc as (r & -> & Hr). unfold compose.
    rewrite linked_amount.
    by apply (cleaned_numeric d Hd r Hr).
Qed.

(** The text of each field of a table row. *)
Lemma table_row_fields r :
  (λ c, csv_text str_of_number (get c (table_row str_of_number r)))
    <$> table_columns
  = export_fields str_of_number r.
Proof.
  unfold table_columns, export_fields. cbn [fmap list_fmap].
  unfold table_row. cbn zeta. rewrite linked_amount.
  rewrite !get_insert, !get_select_row. unfold linked_row.
  rewrite !get_delete, !get_insert.
  repeat (rewrite decide_False by done).
  repeat (rewrite decide_True by (done || set_solver)).
  repeat (rewrite decide_False by done).
  done.
Qed.

Lemma to_csv_table d :
  to_csv str_of_number (table_of str_of_number d)
  = csv_lines (table_columns :: (export_fields str_of_number <$> rows d)).
Proof.
  unfold to_csv, table_of. cbn [columns rows]. do 2 f_equal.
  rewrite <-list_fmap_compose. apply list_fmap_ext. intros i r _.
  apply table_row_fields.
Qed.
End ScriptFacts.

(** ** Running the page *)

Lemma bind_lift_Ok {A B} (a : A) (f : A → UI B) : (lift (Ok a) ≫= f) = f a.
Proof. unfold mbind, UI_bind. cbn. by destruct (f a). Qed.

Lemma bind_emit {B} (w : widget) (f : unit → UI B) ws r :
  f () = mkUI ws r → (emit w ≫= f) = mkUI (w :: ws) r.
Proof. unfold mbind, UI_bind. cbn. by intros ->. Qed.

Section Running.
Variable str_of_number : Qc → string.
Variable numeric_of_text : string → cell.

(** The page of a load that succeeds on data that is not empty. *)
Lemma page_ok env raw d :
  read_excel env = Ok raw → clean raw = Ok d → rows d ≠ [] →
  page str_of_number numeric_of_text env = mkUI (page_widgets str_of_number env d) (Ok ()).
Proof.
  intros Hread Hclean Hrows.
  destruct (clean_inv _ _ Hclean) as (_ & _ & Hd).
  assert (Hfd : cleaned (filtered_of env d)) by (by apply cleaned_filter).
  unfold page. rewrite Hread, bind_lift_Ok, Hclean, bind_lift_Ok.
  rewrite is_empty_cleaned, bool_decide_eq_false_2 by done.
  unfold page_widgets, metric_widgets. cbn [List.app].
  apply bind_emit.
  unfold program_options.
  rewrite column_cleaned by (done || apply program_required).
  rewrite bind_Ok, bind_lift_Ok. apply bind_emit.
  unfold strategy_options. rewrite strategies_cleaned by done.
  rewrite bind_Ok, bind_lift_Ok. do 2 apply bind_emit.
  rewrite apply_filter_cleaned by done. fold (filtered_of env d).
  rewrite bind_lift_Ok, coerce_amount_cleaned by done.
  rewrite bind_lift_Ok, compute_metrics_cleaned by done.
  rewrite bind_lift_Ok, add_links_cleaned by done.
  rewrite bind_lift_Ok, sunburst_linked
    by (by apply linked_chart_values
        || (unfold linked_columns, value_column; set_solver)).
  fold chart_path.
  rewrite bind_lift_Ok. do 3 apply bind_emit.
  cbn [format_money]. rewrite bind_lift_Ok. do 2 apply bind_emit.
  rewrite (format_money_ok (median_all _))
    by (cbn [metrics_of median_all]; apply median_of_not_text).
  rewrite bind_lift_Ok. apply bind_emit.
  assert (Hopt : ∀ m, (∀ x s, m = Some x → x ≠ Str s) →
            filtered_text m = Ok (optional_text m)).
  { intros [x|] Hm; [|done]. apply format_money_ok. intros s. by apply Hm. }
  rewrite (Hopt (median_filtered _)).
  2:{ cbn [metrics_of median_filtered]. intros x s.
      case_bool_decide; [done|]. intros [= <-]. apply median_of_not_text. }
  rewrite bind_lift_Ok. do 2 apply bind_emit.
  rewrite (format_money_ok (mean_all _))
    by (cbn [metrics_of mean_all]; apply mean_of_not_text).
  rewrite bind_lift_Ok. apply bind_emit.
  rewrite (Hopt (mean_filtered _)).
  2:{ cbn [metrics_of mean_filtered]. intros x s.
      case_bool_decide; [done|]. intros [= <-]. apply mean_of_not_text. }
  rewrite bind_lift_Ok. apply bind_emit.
  rewrite build_table_linked by done.
  rewrite bind_lift_Ok. do 3 apply bind_emit.
  reflexivity.
Qed.

(** The page of a load that succeeds on data with no valid row. *)
Lemma page_no_rows env raw d :
  read_excel env = Ok raw → clean raw = Ok d → rows d = [] →
  page str_of_number numeric_of_text env
  = mkUI [warning "No default data available to display. Please upload a dataset."]
      (Ok ()).
Proof.
  intros Hread Hclean Hrows.
  destruct (clean_inv _ _ Hclean) as (_ & _ & Hd).
  unfold page. rewrite Hread, bind_lift_Ok, Hclean, bind_lift_Ok.
  by rewrite is_empty_cleaned, bool_decide_eq_true_2.
Qed.

(** The page of a load that fails. *)
Lemma page_load_fails env e :
  read_excel env = Raise e → page str_of_number numeric_of_text env = mkUI [] (Raise e).
Proof. intros Hread. unfold page. by rewrite Hread. Qed.

Lemma page_clean_fails env raw e :
  read_excel env = Ok raw → clean raw = Raise e →
  page str_of_number numeric_of_text env = mkUI [] (Raise e).
Proof.
  intros Hread Hclean. unfold page.
  by rewrite Hread, bind_lift_Ok, Hclean.
Qed.

Lemma app_of_page env ws r :
  page str_of_number numeric_of_text env = mkUI ws r →
  app str_of_number numeric_of_text env
  = mkUI (frame_widgets env
            (ws ++ match r with
                   | Ok _ => []
                   | Raise e => [error "Error loading default data: " e]
                   end))
      (Ok ()).
Proof.
  intros Hpage. unfold app, frame_widgets. apply bind_emit.
  rewrite bool_decide_eq_true_2 by done.
  rewrite Hpage. destruct r as [[]|e].
  - unfold try_except. cbn [outcome]. unfold mbind, UI_bind. cbn [outcome shown].
    rewrite app_nil_r. destruct (uploaded_file env); cbn; by rewrite ?app_nil_r.
  - unfold try_except. cbn [outcome]. unfold mbind, UI_bind. cbn [outcome shown].
    destruct (uploaded_file env); cbn; by rewrite <-?app_assoc.
Qed.
End Running.

(** ** Reading back what [to_csv] writes *)

#[local] Arguments String.append !s1 s2 : simpl nomatch.

Lemma append_assoc (a b c : string) : (a +:+ b) +:+ c = a +:+ (b +:+ c).
Proof. induction a as [|x a IH]; [done|]. cbn [String.append]. by f_equal. Qed.

Lemma end_field_cons recs : end_field recs = cons_field EmptyString recs.
Proof. by destruct recs. Qed.

Lemma add_char_cons a f recs :
  add_char a (cons_field f recs) = cons_field (String a f) recs.
Proof. by destruct recs. Qed.

Lemma special_false a :
  special a = false → a ≠ comma ∧ a ≠ dquote ∧ a ≠ newline.
Proof.
  unfold special. intros H%bool_decide_eq_false. tauto.
Qed.

(** The tests the reader makes on a quote character. *)
Ltac quote_cases :=
  repeat first
    [ rewrite (bool_decide_eq_true_2 (dquote = dquote)) by done
    | rewrite (bool_decide_eq_false_2 (dquote = newline)) by done
    | rewrite (bool_decide_eq_false_2 (dquote = creturn)) by done
    | rewrite (bool_decide_eq_false_2 (dquote = comma)) by done ].

(** A character of a field written without quotes: none of the four
    the reader tests. *)
Lemma plain_char a s :
  needs_quotes (String a s) = false → cr_free (String a s) →
  (a ≠ comma ∧ a ≠ dquote ∧ a ≠ newline ∧ a ≠ creturn)
  ∧ needs_quotes s = false ∧ cr_free s.
Proof.
  cbn [needs_quotes cr_free]. intros [Ha Hs]%orb_false_iff [Hr Hcr]%andb_True.
  apply special_false in Ha as (Hc & Hq & Hn).
  apply negb_True in Hr. rewrite bool_decide_spec in Hr. done.
Qed.

(** An unquoted field, read from inside the field. *)
Lemma parse_plain_comma s rest :
  needs_quotes s = false → cr_free s →
  parse InField (s +:+ String comma rest) = cons_field s (parse StartField rest).
Proof.
  induction s as [|a s IH]; intros Hs Hcr.
  - cbn. by rewrite end_field_cons.
  - apply plain_char in Hs as ((Hc & Hq & Hn & Hr) & Hs & Hcr'); [|done].
    cbn [String.append parse].
    rewrite !bool_decide_eq_false_2 by done.
    by rewrite IH, add_char_cons.
Qed.

Lemma parse_plain_newline s rest :
  needs_quotes s = false → cr_free s →
  parse InField (s +:+ String newline rest) = [s] :: parse StartRecord rest.
Proof.
  induction s as [|a s IH]; intros Hs Hcr.
  - done.
  - apply plain_char in Hs as ((Hc & Hq & Hn & Hr) & Hs & Hcr'); [|done].
    cbn [String.append parse].
    rewrite !bool_decide_eq_false_2 by done.
    by rewrite IH.
Qed.

(** A quoted field, read from behind its opening quote. *)
Lemma parse_quoted_comma s rest :
  parse InQuoted (double_quotes s +:+ String dquote (String comma rest))
  = cons_field s (parse StartField rest).
Proof.
  induction s as [|a s IH].
  - cbn. by rewrite end_field_cons.
  - cbn [double_quotes]. case_bool_decide as Ha.
    + subst a. cbn [String.append parse].
      quote_cases.
      by rewrite IH, add_char_cons.
    + cbn [String.append parse]. rewrite bool_decide_eq_false_2 by done.
      by rewrite IH, add_char_cons.
Qed.

Lemma parse_quoted_newline s rest :
  parse InQuoted (double_quotes s +:+ String dquote (String newline rest))
  = [s] :: parse StartRecord rest.
Proof.
  induction s as [|a s IH].
  - done.
  - cbn [double_quotes]. case_bool_decide as Ha.
    + subst a. cbn [String.append parse].
      quote_cases.
      by rewrite IH.
    + cbn [String.append parse]. rewrite bool_decide_eq_false_2 by done.
      by rewrite IH.
Qed.

Lemma reads_back_plain f :
  reads_back f → needs_quotes f = false → cr_free f.
Proof. unfold reads_back. intros H Hq. by rewrite Hq in H. Qed.

(** A written field followed by a comma, read at the start of a field
    or of a record. *)
Lemma parse_field_comma m f rest :
  m = StartField ∨ m = StartRecord → reads_back f →
  parse m (csv_field f +:+ String comma rest)
  = cons_field f (parse StartField rest).
Proof.
  intros Hm Hf. unfold csv_field. destruct (needs_quotes f) eqn:Hq.
  - cbn [String.append]. rewrite append_assoc. cbn [String.append].
    rewrite <-parse_quoted_comma.
    destruct Hm as [-> | ->]; cbn [parse];
      by quote_cases.
  - pose proof (reads_back_plain f Hf Hq) as Hcr. destruct f as [|a f].
    + destruct Hm as [-> | ->]; cbn; by rewrite end_field_cons.
    + rewrite <-parse_plain_comma by done.
      apply plain_char in Hq as ((Hc & Hd & Hn & Hr) & _); [|done].
      destruct Hm as [-> | ->]; cbn [String.append parse];
        by rewrite !bool_decide_eq_false_2.
Qed.

(** A written field that ends its line. *)
Lemma parse_field_newline m f rest :
  m = StartField ∨ (m = StartRecord ∧ f ≠ EmptyString) → reads_back f →
  parse m (csv_field f +:+ String newline rest)
  = [f] :: parse StartRecord rest.
Proof.
  intros Hm Hf. unfold csv_field. destruct (needs_quotes f) eqn:Hq.
  - cbn [String.append]. rewrite append_assoc. cbn [String.append].
    rewrite <-parse_quoted_newline.
    destruct Hm as [-> | [-> _]]; cbn [parse];
      by quote_cases.
  - pose proof (reads_back_plain f Hf Hq) as Hcr. destruct f as [|a f].
    + destruct Hm as [-> | [_ ?]]; done.
    + rewrite <-parse_plain_newline by done.
      apply plain_char in Hq as ((Hc & Hd & Hn & Hr) & _); [|done].
      destruct Hm as [-> | [-> _]]; cbn [String.append parse];
        by rewrite !bool_decide_eq_false_2.
Qed.

Lemma parse_join_fields f fields rest :
  Forall (λ f, reads_back f) (f :: fields) →
  parse StartField (join_fields (f :: fields) +:+ String newline rest)
  = (f :: fields) :: parse StartRecord rest.
Proof.
  revert f. induction fields as [|g fields IH]; intros f Hall.
  - cbn [join_fields]. apply parse_field_newline; [by left|].
    by apply Forall_cons in Hall as [? _].
  - apply Forall_cons in Hall as [Hf Hall].
    change (join_fields (f :: g :: fields))
      with (csv_field f +:+ String comma (join_fields (g :: fields))).
    rewrite append_assoc. cbn [String.append].
    rewrite parse_field_comma by (done || by left). by rewrite IH.
Qed.

Lemma parse_record r rest :
  Forall (λ f, reads_back f) r →
  parse StartRecord (csv_record r +:+ rest) = r :: parse StartRecord rest.
Proof.
  intros Hall. destruct r as [|f [|g fields]].
  - done.
  - destruct f as [|a f]; [done|].
    unfold csv_record. rewrite append_assoc. cbn [String.append join_fields].
    apply parse_field_newline; [by right|].
    by apply Forall_cons in Hall as [? _].
  - unfold csv_record.
    assert (E : ∀ f', join_fields (f' :: g :: fields) +:+ String newline EmptyString
              = csv_field f' +:+ String comma
                  (join_fields (g :: fields) +:+ String newline EmptyString)).
    { intros f'. change (join_fields (f' :: g :: fields))
        with (csv_field f' +:+ String comma (join_fields (g :: fields))).
      by rewrite append_assoc. }
    transitivity (parse StartRecord
      ((join_fields (f :: g :: fields) +:+ String newline EmptyString) +:+ rest)).
    { by destruct f. }
    apply Forall_cons in Hall as [Hf Hall].
    rewrite E, !append_assoc. cbn [String.append].
    rewrite append_assoc. cbn [String.append].
    rewrite parse_field_comma by (done || by right).
    by rewrite parse_join_fields.
Qed.

(** Reading the lines written for a list of records gives the records
    back, when each field is one the writer quotes or holds no
    carriage return. *)
Lemma parse_csv_lines records :
  Forall (Forall (λ f, reads_back f)) records →
  parse_csv (csv_lines records) = records.
Proof.
  unfold parse_csv. induction 1 as [|r records Hr _ IH]; [done|].
  cbn [csv_lines]. by rewrite parse_record, IH.
Qed.

(** ** Reading a currency text *)

Lemma digit_char x : (x < 10)%N → digit_value (pretty_N_char x) = Some (Z.of_N x).
Proof.
  intros Hx.
  assert (Hall : Forall (λ k, digit_value (pretty_N_char (Z.to_N k)) = Some k) (seqZ 0 10))
    by (apply (bool_decide_unpack _); by vm_compute).
  rewrite Forall_forall in Hall.
  rewrite <-(N2Z.id x) at 1. apply Hall, elem_of_seqZ. lia.
Qed.

(** A digit is none of the characters the readers test. *)
Lemma digit_plain a :
  is_Some (digit_value a) →
  a ≠ "."%char ∧ a ≠ comma ∧ a ≠ creturn.
Proof.
  intros [d Hd]. repeat split; intros ->; by vm_compute in Hd.
Qed.

Lemma read_cents_digit whole a d s :
  digit_value a = Some d →
  read_cents whole (String a s) = read_cents (10 * whole + d) s.
Proof.
  intros Hd. destruct (digit_plain a) as (H1 & H2 & _); [by eexists|].
  cbn [read_cents]. rewrite !bool_decide_eq_false_2 by done.
  by rewrite Hd.
Qed.

Lemma all_digits_pretty_go x s : all_digits s → all_digits (pretty_N_go x s).
Proof.
  revert s. induction (N.lt_wf_0 x) as [x _ IH]. intros s Hs.
  destruct (decide (x = 0)%N) as [->|Hx]; [by rewrite pretty_N_go_0|].
  rewrite pretty_N_go_step by lia. apply IH; [apply N.div_lt; lia|].
  cbn [all_digits]. apply andb_True. split; [|done].
  apply bool_decide_pack. rewrite digit_char; [by eexists|].
  apply N.mod_lt. lia.
Qed.

Lemma all_digits_pretty (n : N) : all_digits (pretty n).
Proof.
  unfold pretty, pretty_N. case_decide; [done|].
  by apply all_digits_pretty_go.
Qed.

Lemma pretty_go_app x s rest :
  pretty_N_go x s +:+ rest = pretty_N_go x (s +:+ rest).
Proof.
  revert s. induction (N.lt_wf_0 x) as [x _ IH]. intros s.
  destruct (decide (x = 0)%N) as [->|Hx]; [rewrite !pretty_N_go_0; reflexivity|].
  rewrite (pretty_N_go_step x s), (pretty_N_go_step x (s +:+ rest)) by lia.
  rewrite IH; [reflexivity|apply N.div_lt; lia].
Qed.

(** Reading the decimal digits of a number adds the number. *)
Lemma read_cents_pretty_go x s :
  read_cents 0 (pretty_N_go x s) = read_cents (Z.of_N x) s.
Proof.
  revert s. induction (N.lt_wf_0 x) as [x _ IH]. intros s.
  destruct (decide (x = 0)%N) as [->|Hx]; [by rewrite pretty_N_go_0|].
  rewrite pretty_N_go_step by lia. rewrite IH by (apply N.div_lt; lia).
  rewrite (read_cents_digit _ _ (Z.of_N (x `mod` 10))).
  - f_equal. rewrite N2Z.inj_div, N2Z.inj_mod. change (Z.of_N 10) with 10%Z.
    pose proof (Z.div_mod (Z.of_N x) 10). lia.
  - apply digit_char, N.mod_lt. lia.
Qed.

Lemma read_cents_pretty (n : N) rest :
  read_cents 0 (pretty n +:+ rest) = read_cents (Z.of_N n) rest.
Proof.
  unfold pretty, pretty_N. case_decide as Hn.
  - subst n. by cbn.
  - by rewrite pretty_go_app, read_cents_pretty_go.
Qed.

(** The commas of the grouping are skipped. *)
Lemma read_cents_comma whole s :
  read_cents whole (String comma s) = read_cents whole s.
Proof. reflexivity. Qed.

Lemma read_cents_group3 whole digits rest :
  all_digits digits →
  read_cents whole (group3 digits +:+ rest) = read_cents whole (digits +:+ rest).
Proof.
  revert whole. induction digits as [|a digits IH]; intros whole Hd; [done|].
  cbn [all_digits] in Hd. apply andb_True in Hd as [Ha Hd].
  apply bool_decide_unpack in Ha as [d Ha].
  cbn [group3]. destruct (_ && _)%bool; cbn [String.append].
  - rewrite (read_cents_digit whole a d (digits +:+ rest)) by done.
    rewrite (read_cents_digit whole a d) by done.
    rewrite read_cents_comma. by apply IH.
  - rewrite (read_cents_digit whole a d (digits +:+ rest)) by done.
    rewrite (read_cents_digit whole a d) by done. by apply IH.
Qed.

Lemma read_cents_two_digits whole n :
  (0 ≤ n < 100)%Z →
  read_cents whole (String "." (two_digits n)) = Some (100 * whole + n)%Z.
Proof.
  intros Hn.
  assert (Hall : Forall (λ k, ∃ a b, two_digits k = String a (String b EmptyString)
                    ∧ digit_value a = Some (k / 10)%Z
                    ∧ digit_value b = Some (k mod 10)%Z) (seqZ 0 100)).
  { apply Forall_forall. intros k Hk.
    assert (Hb : Forall (λ k,
       match two_digits k with
       | String a (String b EmptyString) =>
           bool_decide (digit_value a = Some (k / 10)%Z
                        ∧ digit_value b = Some (k mod 10)%Z)
       | _ => false
       end = true) (seqZ 0 100))
      by (apply (bool_decide_unpack _); by vm_compute).
    rewrite Forall_forall in Hb. specialize (Hb k Hk).
    destruct (two_digits k) as [|a [|b [|]]]; try done.
    apply bool_decide_eq_true in Hb. by exists a, b. }
  rewrite Forall_forall in Hall.
  destruct (Hall n) as (a & b & -> & Ha & Hb); [apply elem_of_seqZ; lia|].
  cbn [read_cents]. rewrite bool_decide_eq_true_2 by done.
  rewrite Ha, Hb. cbn. f_equal.
  pose proof (Z.div_mod n 10). lia.
Qed.

Lemma round_half_even_nonneg q : (0 ≤ q)%Qc → (0 ≤ round_half_even q)%Z.
Proof.
  intros Hq. assert (Hn : (0 ≤ Qnum q)%Z).
  { unfold Qcle, Qle in Hq. change (this 0%Qc) with 0%Q in Hq. cbn in Hq. lia. }
  unfold round_half_even. cbn zeta.
  pose proof (Z.div_pos (Qnum q) (Z.pos (Qden q)) Hn ltac:(lia)).
  repeat case_match; lia.
Qed.

(** The currency text of a positive amount reads as the amount in
    cents, rounded half to even. *)
Lemma read_money_format x :
  (0 < x)%Qc →
  read_money ("$" +:+ format_2f x) = Some (round_half_even (x * Qc_of_Z 100)).
Proof.
  intros Hx. unfold format_2f. cbn zeta.
  rewrite bool_decide_eq_false_2 by (by apply Qcle_not_lt, Qclt_le_weak).
  rewrite Qcabs_pos by (by apply Qclt_le_weak).
  set (cents := round_half_even (x * Qc_of_Z 100)).
  assert (Hc : (0 ≤ cents)%Z).
  { apply round_half_even_nonneg.
    apply Qcmult_nonneg_nonneg; [by apply Qclt_le_weak|done]. }
  cbn [String.append read_money].
  rewrite read_cents_group3 by apply all_digits_pretty.
  rewrite read_cents_pretty.
  rewrite Z2N.id by (apply Z.div_pos; lia).
  rewrite read_cents_two_digits by (apply Z.mod_pos_bound; lia).
  f_equal. pose proof (Z.div_mod cents 100). lia.
Qed.
Lemma round_half_even_bound (q : Qc) :
  (2 * Z.abs (round_half_even q * Z.pos (Qden q) - Qnum q) ≤ Z.pos (Qden q))%Z.
Proof.
  unfold round_half_even. cbn zeta.
  pose proof (Z.div_mod (Qnum q) (Z.pos (Qden q)) ltac:(lia)).
  pose proof (Z.mod_pos_bound (Qnum q) (Z.pos (Qden q)) ltac:(lia)).
  destruct (Z.compare_spec (2 * (Qnum q mod Z.pos (Qden q))) (Z.pos (Qden q)));
    repeat case_match; nia.
Qed.

Lemma round_half_even_close (q : Qc) :
  (Qcabs (Qc_of_Z (round_half_even q) - q) ≤ Q2Qc (1 # 2))%Qc.
Proof.
  pose proof (round_half_even_bound q) as Hb.
  set (c := round_half_even q) in *.
  apply Qcabs_Qcle_condition.
  unfold Qcle, Qcminus, Qcplus, Qcopp, Qc_of_Z, Q2Qc. cbn [this].
  rewrite !Qred_correct.
  destruct q as [[n d] Hq]. cbn [this Qnum Qden] in *.
  unfold Qle, Qopp, Qplus, inject_Z. cbn [Qnum Qden].
  split; lia.
Qed.

(** ** Fields that read back *)

Lemma needs_quotes_app s1 s2 :
  needs_quotes (s1 +:+ s2) = needs_quotes s1 || needs_quotes s2.
Proof.
  induction s1 as [|a s1 IH]; [done|]. cbn [String.append needs_quotes].
  by rewrite IH, orb_assoc.
Qed.

Lemma cr_free_app s1 s2 : cr_free (s1 +:+ s2) = cr_free s1 && cr_free s2.
Proof.
  induction s1 as [|a s1 IH]; [done|]. cbn [String.append cr_free].
  by rewrite IH, andb_assoc.
Qed.

Lemma cr_free_digits s : all_digits s → cr_free s.
Proof.
  induction s as [|a s IH]; [done|]. cbn [all_digits cr_free].
  intros [Ha Hs]%andb_True. apply andb_True. split; [|by apply IH].
  apply bool_decide_unpack, digit_plain in Ha as (_ & _ & Hr).
  apply negb_True. by intros ?%bool_decide_unpack.
Qed.

Lemma cr_free_group3 s : cr_free s → cr_free (group3 s).
Proof.
  induction s as [|a s IH]; [done|]. cbn [cr_free group3].
  intros [Ha Hs]%andb_True.
  destruct (_ && _)%bool; cbn [cr_free String.append];
    rewrite ?andb_True; auto.
Qed.

Lemma cr_free_format_2f x : cr_free (format_2f x).
Proof.
  unfold format_2f, two_digits. cbn zeta. rewrite !cr_free_app.
  repeat (apply andb_True; split); try done.
  - by case_bool_decide.
  - apply cr_free_group3, cr_free_digits, all_digits_pretty.
  - by case_bool_decide.
  - apply cr_free_digits, all_digits_pretty.
Qed.

(** The anchor holds quotes, so the writer always quotes it. *)
Lemma link_reads_back str_of_number r :
  reads_back (salesforce_link str_of_number r).
Proof.
  unfold reads_back, salesforce_link, quoted.
  rewrite needs_quotes_app. cbn [needs_quotes String.append].
  apply orb_True. left. apply orb_True. right.
  by change (special dquote) with true.
Qed.

Lemma money_reads_back c : reads_back (money_text c).
Proof.
  unfold reads_back. apply orb_True. right.
  destruct c as [|x|s]; [done| |done].
  cbn [money_text String.append cr_free]. apply cr_free_format_2f.
Qed.

Lemma export_fields_read_back str_of_number r :
  Forall (λ f, reads_back f) (plain_fields str_of_number r) →
  Forall (λ f, reads_back f) (export_fields str_of_number r).
Proof.
  unfold plain_fields, export_fields. rewrite !Forall_cons.
  intros (H1 & H2 & H3 & _).
  repeat split; auto using link_reads_back, money_reads_back.
Qed.

(** * The properties *)

Lemma keeps_spec r :
  keeps r ↔ (∀ c, c ∈ hierarchy_columns → get c r ≠ NaN)
            ∧ ∃ x, get value_column r = Num x ∧ (0 < x)%Qc.
Proof.
  unfold keeps, complete, positive_amount.
  rewrite andb_True, Is_true_true, forallb_forall. split.
  - intros [Hall Hpos]. split.
    + intros c Hc. specialize (Hall c).
      rewrite <-list_elem_of_In in Hall.
      assert (Hc' : c ∈ required) by (apply elem_of_app; by left).
      specialize (Hall Hc'). by destruct (get c r).
    + destruct (get value_column r) as [|x|]; [done| |done].
      exists x. split; [done|]. by apply bool_decide_unpack in Hpos.
  - intros [Hall (x & Hx & Hpos)]. split.
    + intros c Hc%list_elem_of_In. apply elem_of_app in Hc as [Hc|Hc].
      * specialize (Hall c Hc). by destruct (get c r).
      * apply list_elem_of_singleton in Hc as ->. by rewrite Hx.
    + rewrite Hx. by apply bool_decide_pack.
Qed.

Lemma select_row_dom r :
  dom r = list_to_set required → select_row required r = r.
Proof.
  intros Hdom. apply map_eq. intros c.
  destruct (decide (c ∈ required)) as [Hc|Hc].
  - rewrite lookup_select_row by done. unfold get.
    assert (Hin : c ∈ dom r) by (rewrite Hdom; by apply elem_of_list_to_set).
    apply elem_of_dom in Hin as [v ->]. done.
  - unfold select_row. rewrite (not_elem_of_list_to_map_1 _ c).
    + symmetry. apply not_elem_of_dom. rewrite Hdom.
      by rewrite elem_of_list_to_set.
    + rewrite <-list_fmap_compose.
      intros (c' & -> & Hc')%list_elem_of_fmap. done.
Qed.

(** C1, as amended. Cleaning a frame that has the six columns and a
    numeric amount column keeps, in order and restricted to the six
    columns, exactly the rows in which none of the four hierarchy
    fields, the request identifier and the amount is missing and the
    amount is above zero; a row that has the six columns and no other
    is kept unchanged; and cleaning the cleaned frame gives it back. *)
Theorem clean_keeps_exactly raw :
  required ⊆ columns raw → numeric_amounts raw →
  ∃ d, clean raw = Ok d
    ∧ columns d = required
    ∧ rows d = filter (λ r, keeps r) (select_row required <$> rows raw)
    ∧ ((∀ r, r ∈ rows raw → dom r = list_to_set required) →
       rows d = filter (λ r, keeps r) (rows raw))
    ∧ (∀ r, keeps r ↔
         (∀ c, c ∈ hierarchy_columns → get c r ≠ NaN)
         ∧ ∃ x, get value_column r = Num x ∧ (0 < x)%Qc)
    ∧ clean d = Ok d.
Proof.
  intros Hsub Hnum. eexists. split; [by apply clean_ok|].
  split; [done|]. split; [done|]. split; [|split; [apply keeps_spec|]].
  - intros Hdom. cbn [rows]. f_equal.
    rewrite <-(list_fmap_id (rows raw)) at 2. apply list_fmap_ext.
    intros i r Hr. apply select_row_dom, Hdom. by eapply list_elem_of_lookup_2.
  - apply clean_cleaned.
    by destruct (clean_inv raw _ (clean_ok raw Hsub Hnum)) as (_ & _ & ?).
Qed.

Lemma columns_example : required ⊆ columns example_grants.
Proof. done. Qed.

Lemma numeric_example : numeric_amounts example_grants.
Proof.
  intros r Hr s. cbn [rows example_grants] in Hr.
  repeat (apply elem_of_cons in Hr as [-> | Hr]; [by vm_compute|]).
  by apply elem_of_nil in Hr.
Qed.

Lemma clean_keeps_exactly_witness :
  ∃ d, clean example_grants = Ok d
    ∧ columns d = required
    ∧ rows d = filter (λ r, keeps r) (select_row required <$> rows example_grants)
    ∧ ((∀ r, r ∈ rows example_grants → dom r = list_to_set required) →
       rows d = filter (λ r, keeps r) (rows example_grants))
    ∧ (∀ r, keeps r ↔
         (∀ c, c ∈ hierarchy_columns → get c r ≠ NaN)
         ∧ ∃ x, get value_column r = Num x ∧ (0 < x)%Qc)
    ∧ clean d = Ok d.
Proof.
  exact (clean_keeps_exactly example_grants columns_example numeric_example).
Defined.

(** C1, as stated, fails: a row whose four hierarchy fields are present
    and whose amount is above zero, but whose request identifier is
    missing, is not among the rows the claim says are removed, and
    cleaning removes it. *)
Lemma clean_drops_missing_request :
  clean no_request_id = Ok (mkFrame required [])
  ∧ filter (λ r, negb (spec_removes r)) (rows no_request_id)
    = rows no_request_id
  ∧ length (rows no_request_id) = 1%nat.
Proof.
  split; [vm_compute; reflexivity|]. split; [|done].
  unfold no_request_id. cbn [rows].
  rewrite filter_cons_True; [done|]. vm_compute. exact I.
Qed.

(** C3. On a cleaned frame, the strategies offered for a selected
    program [P] other than the sentinel are, without repetition,
    exactly the strategy values of the rows whose program is [P]; for
    the sentinel they are exactly the strategy values of all rows. The
    select box offers them behind the sentinel. *)
Theorem strategies_of_selected_program raw d P :
  clean raw = Ok d →
  ∃ l, strategies P d = Ok l
    ∧ strategy_options P d = Ok (All :: l)
    ∧ NoDup l
    ∧ (P ≠ All → ∀ s, s ∈ l ↔
         ∃ r, r ∈ rows d ∧ get "Top Level Primary Program" r = P
              ∧ get "Primary Strategy" r = s)
    ∧ (P = All → ∀ s, s ∈ l ↔ ∃ r, r ∈ rows d ∧ get "Primary Strategy" r = s).
Proof.
  intros Hclean. destruct (clean_inv _ _ Hclean) as (_ & _ & Hd).
  exists (strategies_of P d).
  split; [by apply strategies_cleaned|].
  split; [unfold strategy_options; by rewrite strategies_cleaned|].
  split; [apply NoDup_unique|].
  unfold strategies_of. split.
  - intros HP s. rewrite elem_of_unique, list_elem_of_fmap. split.
    + intros (r & -> & [Hpass Hr]%list_elem_of_filter). exists r.
      rewrite bool_decide_eq_false_2 in Hpass by done.
      apply (cell_eqb_cleaned d) in Hpass;
        [done | done | done | apply program_required].
    + intros (r & Hr & Hprog & <-). exists r. split; [done|].
      apply list_elem_of_filter. split; [|done].
      rewrite bool_decide_eq_false_2 by done.
      by apply (cell_eqb_cleaned d); [| |apply program_required|].
  - intros -> s. rewrite elem_of_unique, list_elem_of_fmap. split.
    + intros (r & -> & [_ Hr]%list_elem_of_filter). eauto.
    + intros (r & Hr & <-). exists r. split; [done|].
      by apply list_elem_of_filter.
Qed.

Lemma strategies_of_selected_program_witness :
  ∃ l, strategies (Str "ProgA") example_grants = Ok l
    ∧ strategy_options (Str "ProgA") example_grants = Ok (All :: l)
    ∧ NoDup l
    ∧ (Str "ProgA" ≠ All → ∀ s, s ∈ l ↔
         ∃ r, r ∈ rows example_grants
              ∧ get "Top Level Primary Program" r = Str "ProgA"
              ∧ get "Primary Strategy" r = s)
    ∧ (Str "ProgA" = All → ∀ s, s ∈ l ↔
         ∃ r, r ∈ rows example_grants ∧ get "Primary Strategy" r = s).
Proof.
  apply (strategies_of_selected_program example_grants example_grants).
  vm_compute. reflexivity.
Defined.

(** C4. The selection of the sentinel on both dimensions gives back
    the frame it is applied to, rows and order included; on a cleaned
    frame the conversion of line 89 leaves it so. *)
Theorem filter_all_all_is_identity numeric_of_text raw d :
  clean raw = Ok d →
  apply_filter All All d = Ok d
  ∧ (apply_filter All All d ≫= coerce_amount numeric_of_text) = Ok d
  ∧ ∀ fd, apply_filter All All d = Ok fd → rows fd ≡ₚ rows d.
Proof.
  intros Hclean. destruct (clean_inv _ _ Hclean) as (_ & _ & Hd).
  assert (Hid : apply_filter All All d = Ok d).
  { unfold apply_filter. by rewrite !decide_False by (by intros []). }
  split; [done|]. rewrite Hid. split.
  - rewrite bind_Ok. by apply coerce_amount_cleaned.
  - by intros fd [= <-].
Qed.

Lemma filter_all_all_is_identity_witness :
  apply_filter All All example_grants = Ok example_grants
  ∧ (apply_filter All All example_grants ≫= coerce_amount example_numeric)
    = Ok example_grants
  ∧ ∀ fd, apply_filter All All example_grants = Ok fd →
          rows fd ≡ₚ rows example_grants.
Proof.
  apply (filter_all_all_is_identity example_numeric example_grants).
  vm_compute. reflexivity.
Defined.

(** C10. On a cleaned frame every selection gives a frame whose rows
    are rows of the input in the order they have there: what passes
    the two filters, and nothing moved. *)
Theorem filter_preserves_order raw d p s :
  clean raw = Ok d →
  ∃ fd, apply_filter p s d = Ok fd
    ∧ rows fd = filter (λ r, passes p s r) (rows d)
    ∧ rows fd `sublist_of` rows d.
Proof.
  intros Hclean. destruct (clean_inv _ _ Hclean) as (_ & _ & Hd).
  eexists. split; [by apply apply_filter_cleaned|].
  split; [done|]. apply sublist_filter.
Qed.

Lemma filter_preserves_order_witness :
  ∃ fd, apply_filter (Str "ProgA") (Str "Strat2") example_grants = Ok fd
    ∧ rows fd = filter (λ r, passes (Str "ProgA") (Str "Strat2") r)
                  (rows example_grants)
    ∧ rows fd `sublist_of` rows example_grants.
Proof.
  apply (filter_preserves_order example_grants).
  vm_compute. reflexivity.
Defined.

(** C9. With the sentinel selected for the program, the rows kept are
    those the strategy selection alone keeps, whatever their program,
    the text of the sentinel included; likewise for the strategy. So
    when a cleaned frame holds a row whose program is that text and a
    row of another program, no program selection gives exactly the
    rows whose program is that text. *)
Theorem sentinel_never_constrains raw d r_all r_other :
  clean raw = Ok d →
  r_all ∈ rows d → get "Top Level Primary Program" r_all = All →
  r_other ∈ rows d → get "Top Level Primary Program" r_other ≠ All →
  (∀ s, ∃ fd, apply_filter All s d = Ok fd
     ∧ ∀ r, r ∈ rows fd ↔
            r ∈ rows d ∧ (s = All ∨ get "Primary Strategy" r = s))
  ∧ (∀ p, ∃ fd, apply_filter p All d = Ok fd
     ∧ ∀ r, r ∈ rows fd ↔
            r ∈ rows d ∧ (p = All ∨ get "Top Level Primary Program" r = p))
  ∧ (∀ p, ∃ fd, apply_filter p All d = Ok fd
     ∧ rows fd ≠ filter (λ r, get "Top Level Primary Program" r = All) (rows d)).
Proof.
  intros Hclean Hall Hprog Hother Hnot.
  destruct (clean_inv _ _ Hclean) as (_ & _ & Hd).
  assert (Hmem : ∀ p s r,
    r ∈ filter (λ r, passes p s r) (rows d) ↔
    r ∈ rows d ∧ (p = All ∨ get "Top Level Primary Program" r = p)
               ∧ (s = All ∨ get "Primary Strategy" r = s)).
  { intros p s r. rewrite list_elem_of_filter. unfold passes.
    rewrite andb_True, !orb_True, !bool_decide_spec. split.
    - intros [[Hp Hs] Hr]. split; [done|]. split.
      + destruct Hp as [|Hp]; [by left|right].
        by apply (cell_eqb_cleaned d) in Hp; [| | |apply program_required].
      + destruct Hs as [|Hs]; [by left|right].
        by apply (cell_eqb_cleaned d) in Hs; [| | |apply strategy_required].
    - intros (Hr & Hp & Hs). split; [|done]. split.
      + destruct Hp as [|Hp]; [by left|right].
        by apply (cell_eqb_cleaned d); [| |apply program_required|].
      + destruct Hs as [|Hs]; [by left|right].
        by apply (cell_eqb_cleaned d); [| |apply strategy_required|]. }
  split; [|split].
  - intros s. eexists. split; [by apply apply_filter_cleaned|].
    intros r. cbn [rows]. rewrite Hmem. naive_solver.
  - intros p. eexists. split; [by apply apply_filter_cleaned|].
    intros r. cbn [rows]. rewrite Hmem. naive_solver.
  - intros p. eexists. split; [by apply apply_filter_cleaned|].
    cbn [rows]. intros Heq.
    destruct (decide (p = All)) as [->|Hp].
    + assert (Hin : r_other ∈ filter (λ r, passes All All r) (rows d))
        by (apply Hmem; naive_solver).
      rewrite Heq in Hin. by apply list_elem_of_filter in Hin as [? _].
    + assert (Hin : r_all ∈ filter (λ r, passes p All r) (rows d))
        by (rewrite Heq; by apply list_elem_of_filter).
      apply Hmem in Hin as (_ & [?|Hin] & _); [done|]. congruence.
Qed.

Lemma sentinel_never_constrains_witness :
  (∀ s, ∃ fd, apply_filter All s program_named_all = Ok fd
     ∧ ∀ r, r ∈ rows fd ↔
            r ∈ rows program_named_all
            ∧ (s = All ∨ get "Primary Strategy" r = s))
  ∧ (∀ p, ∃ fd, apply_filter p All program_named_all = Ok fd
     ∧ ∀ r, r ∈ rows fd ↔
            r ∈ rows program_named_all
            ∧ (p = All ∨ get "Top Level Primary Program" r = p))
  ∧ (∀ p, ∃ fd, apply_filter p All program_named_all = Ok fd
     ∧ rows fd ≠ filter (λ r, get "Top Level Primary Program" r = All)
                   (rows program_named_all)).
Proof.
  apply (sentinel_never_constrains program_named_all program_named_all
           (grant (Str "All") (Str "Strat1") (Str "OrgX") (Str "Proj1")
              (Str "R1") (dollars 100))
           (grant (Str "ProgB") (Str "Strat2") (Str "OrgY") (Str "Proj2")
              (Str "R2") (dollars 300))).
  - vm_compute. reflexivity.
  - left.
  - vm_compute. reflexivity.
  - right. left.
  - vm_compute. discriminate.
Defined.

(** ** The page as a whole *)

Lemma app_ok str_of_number numeric_of_text env raw d :
  read_excel env = Ok raw → clean raw = Ok d → rows d ≠ [] →
  app str_of_number numeric_of_text env
  = mkUI (frame_widgets env (page_widgets str_of_number env d)) (Ok ()).
Proof.
  intros Hread Hclean Hrows.
  rewrite (app_of_page _ _ _ _ _ (page_ok _ numeric_of_text _ _ _ Hread Hclean Hrows)).
  by rewrite app_nil_r.
Qed.

Lemma elem_of_frame_widgets env inner w :
  w ∈ inner → w ∈ frame_widgets env inner.
Proof.
  intros Hw. unfold frame_widgets. right. apply elem_of_app. by left.
Qed.

Lemma metric_shown str_of_number env d w :
  w ∈ metric_widgets (metrics_of d (filtered_of env d)) →
  w ∈ frame_widgets env (page_widgets str_of_number env d).
Proof.
  intros Hw. apply elem_of_frame_widgets. unfold page_widgets.
  apply elem_of_app. right. apply elem_of_app. by left.
Qed.

Lemma filtered_of_spec env d fd :
  cleaned d →
  apply_filter (selected_program env) (selected_strategy env) d = Ok fd →
  fd = filtered_of env d.
Proof. intros Hd. rewrite apply_filter_cleaned by done. by intros [= <-]. Qed.

(** C2. When the selection leaves no row of a cleaned frame, the
    record count is [0], the sum is [0], and the median and the mean of
    the selection are the absent value [None], which is neither a
    number nor [NaN]; the page shows the count as 0, the sum as $0.00
    and both statistics as the text No Data, which no number is shown
    as. *)
Theorem empty_selection_reports_no_data str_of_number numeric_of_text env raw d fd :
  read_excel env = Ok raw → clean raw = Ok d → rows d ≠ [] →
  apply_filter (selected_program env) (selected_strategy env) d = Ok fd →
  rows fd = [] →
  coerce_amount numeric_of_text fd = Ok fd
  ∧ (∃ m, compute_metrics d fd = Ok m
      ∧ total_records m = 0%nat ∧ total_amount m = 0%Qc
      ∧ median_filtered m = None ∧ mean_filtered m = None
      ∧ filtered_text (median_filtered m) = Ok "No Data"
      ∧ filtered_text (mean_filtered m) = Ok "No Data")
  ∧ (∀ x, filtered_text (Some x) ≠ Ok "No Data")
  ∧ metric "Total Records" "0" ∈ shown (app str_of_number numeric_of_text env)
  ∧ metric "Total Amount" "$0.00" ∈ shown (app str_of_number numeric_of_text env)
  ∧ metric "Median (Filtered)" "No Data" ∈ shown (app str_of_number numeric_of_text env)
  ∧ metric "Mean (Filtered)" "No Data" ∈ shown (app str_of_number numeric_of_text env).
Proof.
  intros Hread Hclean Hrows Hfilter Hempty.
  destruct (clean_inv _ _ Hclean) as (_ & _ & Hd).
  assert (Hfd : cleaned (filtered_of env d)) by (by apply cleaned_filter).
  apply (filtered_of_spec env d fd Hd) in Hfilter. subst fd.
  assert (Hm : metrics_of d (filtered_of env d)
               = mkMetrics 0 0%Qc (median_of (amounts d)) (mean_of (amounts d))
                   None None).
  { unfold metrics_of. rewrite (amounts_nil _ Hempty), Hempty. done. }
  split; [by apply coerce_amount_cleaned|].
  split.
  { eexists. split; [by apply compute_metrics_cleaned|]. by rewrite Hm. }
  split; [intros x; apply format_money_no_data|].
  rewrite (app_ok _ _ _ _ _ Hread Hclean Hrows). cbn [shown].
  repeat split; apply metric_shown; rewrite Hm; unfold metric_widgets;
    cbn [total_records total_amount median_filtered mean_filtered optional_text].
  - right. left.
  - do 2 right. left.
  - do 5 right. left.
  - do 8 right. left.
Qed.

Lemma empty_selection_reports_no_data_witness :
  let env := mkEnv (Ok example_grants) (Str "ProgB") (Str "Strat2") false in
  coerce_amount example_numeric (mkFrame required []) = Ok (mkFrame required [])
  ∧ (∃ m, compute_metrics example_grants (mkFrame required []) = Ok m
      ∧ total_records m = 0%nat ∧ total_amount m = 0%Qc
      ∧ median_filtered m = None ∧ mean_filtered m = None
      ∧ filtered_text (median_filtered m) = Ok "No Data"
      ∧ filtered_text (mean_filtered m) = Ok "No Data")
  ∧ (∀ x, filtered_text (Some x) ≠ Ok "No Data")
  ∧ metric "Total Records" "0" ∈ shown (app example_str example_numeric env)
  ∧ metric "Total Amount" "$0.00" ∈ shown (app example_str example_numeric env)
  ∧ metric "Median (Filtered)" "No Data" ∈ shown (app example_str example_numeric env)
  ∧ metric "Mean (Filtered)" "No Data" ∈ shown (app example_str example_numeric env).
Proof.
  apply (empty_selection_reports_no_data example_str example_numeric
           (mkEnv (Ok example_grants) (Str "ProgB") (Str "Strat2") false)
           example_grants example_grants (mkFrame required [])).
  - reflexivity.
  - vm_compute. reflexivity.
  - discriminate.
  - vm_compute. reflexivity.
  - reflexivity.
Defined.

(** C5, as amended. On a page that loads, the median and the mean are
    computed on the whole cleaned frame and, when the selection keeps a
    row, on the selection; the record count and the sum are computed
    on the selection only; and the page shows these six values, and no
    other metric. *)
Theorem six_metrics_shown str_of_number numeric_of_text env raw d :
  read_excel env = Ok raw → clean raw = Ok d → rows d ≠ [] →
  ∃ fd m,
    (apply_filter (selected_program env) (selected_strategy env) d
       ≫= coerce_amount numeric_of_text) = Ok fd
    ∧ compute_metrics d fd = Ok m
    ∧ total_records m = length (rows fd)
    ∧ total_amount m = total (amounts fd)
    ∧ median_all m = median_of (amounts d)
    ∧ mean_all m = mean_of (amounts d)
    ∧ median_filtered m
      = (if bool_decide (rows fd = []) then None
         else Some (median_of (amounts fd)))
    ∧ mean_filtered m
      = (if bool_decide (rows fd = []) then None
         else Some (mean_of (amounts fd)))
    ∧ filter (λ w, is_metric w) (shown (app str_of_number numeric_of_text env))
      = [metric "Total Records" (pretty (total_records m));
         metric "Total Amount" (money_text (Num (total_amount m)));
         metric "Median (All Grants)" (money_text (median_all m));
         metric "Median (Filtered)" (optional_text (median_filtered m));
         metric "Mean (All Grants)" (money_text (mean_all m));
         metric "Mean (Filtered)" (optional_text (mean_filtered m))].
Proof.
  intros Hread Hclean Hrows.
  destruct (clean_inv _ _ Hclean) as (_ & _ & Hd).
  assert (Hfd : cleaned (filtered_of env d)) by (by apply cleaned_filter).
  exists (filtered_of env d), (metrics_of d (filtered_of env d)).
  split.
  { rewrite apply_filter_cleaned by done. fold (filtered_of env d).
    rewrite bind_Ok. by apply coerce_amount_cleaned. }
  split; [by apply compute_metrics_cleaned|].
  do 6 (split; [done|]).
  rewrite (app_ok _ _ _ _ _ Hread Hclean Hrows). cbn [shown].
  unfold frame_widgets, page_widgets, metric_widgets.
  by destruct (uploaded_file env).
Qed.

Lemma six_metrics_shown_witness :
  let env := mkEnv (Ok example_grants) (Str "ProgA") All false in
  ∃ fd m,
    (apply_filter (selected_program env) (selected_strategy env) example_grants
       ≫= coerce_amount example_numeric) = Ok fd
    ∧ compute_metrics example_grants fd = Ok m
    ∧ total_records m = length (rows fd)
    ∧ total_amount m = total (amounts fd)
    ∧ median_all m = median_of (amounts example_grants)
    ∧ mean_all m = mean_of (amounts example_grants)
    ∧ median_filtered m
      = (if bool_decide (rows fd = []) then None
         else Some (median_of (amounts fd)))
    ∧ mean_filtered m
      = (if bool_decide (rows fd = []) then None
         else Some (mean_of (amounts fd)))
    ∧ filter (λ w, is_metric w) (shown (app example_str example_numeric env))
      = [metric "Total Records" (pretty (total_records m));
         metric "Total Amount" (money_text (Num (total_amount m)));
         metric "Median (All Grants)" (money_text (median_all m));
         metric "Median (Filtered)" (optional_text (median_filtered m));
         metric "Mean (All Grants)" (money_text (mean_all m));
         metric "Mean (Filtered)" (optional_text (mean_filtered m))].
Proof.
  apply (six_metrics_shown example_str example_numeric
           (mkEnv (Ok example_grants) (Str "ProgA") All false)
           example_grants example_grants).
  - reflexivity.
  - vm_compute. reflexivity.
  - discriminate.
Defined.

(** C5, as stated, fails: the page computes and shows no record count
    and no sum of the whole frame. Two cleaned frames of two and of
    three rows, of sums 200 and 300, give with the same selection the
    same page, widget for widget. *)
Lemma page_hides_full_count_and_sum :
  shown (app example_str example_numeric
           (mkEnv (Ok two_grants) (Str "ProgA") All false))
  = shown (app example_str example_numeric
             (mkEnv (Ok three_grants) (Str "ProgA") All false))
  ∧ clean two_grants = Ok two_grants
  ∧ clean three_grants = Ok three_grants
  ∧ length (rows two_grants) = 2%nat
  ∧ length (rows three_grants) = 3%nat
  ∧ series_sum (get "Amount" <$> rows two_grants) = Ok (Qc_of_Z 200)
  ∧ series_sum (get "Amount" <$> rows three_grants) = Ok (Qc_of_Z 300).
Proof.
  split; [by vm_compute|]. split; [by vm_compute|]. split; [by vm_compute|].
  split; [done|]. split; [done|].
  split; vm_compute; f_equal; by apply Qc_is_canon.
Qed.

(** ** The table and its export *)

Lemma dom_select_row cols r : dom (select_row cols r) = list_to_set cols.
Proof.
  unfold select_row. rewrite dom_list_to_map_L, <-list_fmap_compose.
  f_equal. rewrite <-(list_fmap_id cols) at 2. by apply list_fmap_ext.
Qed.

Lemma dom_table_row str_of_number r :
  dom (table_row str_of_number r) = list_to_set table_columns.
Proof.
  unfold table_row. cbn zeta. rewrite dom_insert_L, dom_select_row.
  unfold table_columns. set_solver.
Qed.

Lemma table_row_amount str_of_number r :
  table_row str_of_number r !! "Amount"
  = Some (Str (money_text (get "Amount" r))).
Proof.
  unfold table_row. cbn zeta. by rewrite lookup_insert_eq, linked_amount.
Qed.

Lemma amount_texts d :
  cleaned d →
  (λ r, money_text (get "Amount" r)) <$> rows d
  = (λ x, "$" +:+ format_2f x) <$> amounts d.
Proof.
  intros [_ Hrows]. unfold amounts.
  induction (rows d) as [|r l IH]; [done|].
  cbn [fmap list_fmap omap list_omap].
  destruct (Hrows r) as (_ & _ & x & Hx & _); [by left|].
  unfold value_column in *. rewrite (get_lookup _ _ _ Hx). cbn. f_equal.
  apply IH. intros r' Hr'. apply Hrows. by right.
Qed.

(** C6, as amended. The table built from a selection of a cleaned
    frame has the five table columns and no other; in each of its rows
    the cell of the Amount column is the currency text of the amount of
    the row it comes from, written over the number. *)
Theorem table_amount_is_currency_text str_of_number raw d p s fd :
  clean raw = Ok d → apply_filter p s d = Ok fd →
  ∃ t, (add_links str_of_number fd ≫= build_table) = Ok t
    ∧ columns t = table_columns
    ∧ rows t = table_row str_of_number <$> rows fd
    ∧ ∀ r, r ∈ rows fd →
        dom (table_row str_of_number r) = list_to_set table_columns
        ∧ ∃ x, get "Amount" r = Num x
             ∧ table_row str_of_number r !! "Amount"
               = Some (Str ("$" +:+ format_2f x)).
Proof.
  intros Hclean Hfilter. destruct (clean_inv _ _ Hclean) as (_ & _ & Hd).
  rewrite apply_filter_cleaned in Hfilter by done.
  injection Hfilter as <-.
  assert (Hfd : cleaned (mkFrame required (filter (λ r, passes p s r) (rows d))))
    by (by apply cleaned_filter).
  exists (table_of str_of_number
            (mkFrame required (filter (λ r, passes p s r) (rows d)))).
  split.
  { rewrite add_links_cleaned by done. rewrite bind_Ok.
    by apply build_table_linked. }
  split; [done|]. split; [done|].
  intros r Hr. split; [apply dom_table_row|].
  destruct (cleaned_rows _ Hfd r Hr) as (_ & _ & x & Hx & _).
  exists x. split; [by apply get_lookup|].
  rewrite table_row_amount. unfold value_column in Hx.
  by rewrite (get_lookup _ _ _ Hx).
Qed.

Lemma table_amount_is_currency_text_witness :
  ∃ t, (add_links example_str example_grants ≫= build_table) = Ok t
    ∧ columns t = table_columns
    ∧ rows t = table_row example_str <$> rows example_grants
    ∧ ∀ r, r ∈ rows example_grants →
        dom (table_row example_str r) = list_to_set table_columns
        ∧ ∃ x, get "Amount" r = Num x
             ∧ table_row example_str r !! "Amount"
               = Some (Str ("$" +:+ format_2f x)).
Proof.
  apply (table_amount_is_currency_text example_str example_grants
           example_grants All All example_grants).
  - vm_compute. reflexivity.
  - vm_compute. reflexivity.
Defined.

(** C6, as stated, fails: once the table is built no cell of it holds
    a number, the Amount column holding text such as $100.00; and the
    text does not tell two amounts below half a cent apart. *)
Lemma table_holds_no_number :
  (add_links example_str example_grants ≫= build_table)
  = Ok (table_of example_str example_grants)
  ∧ Forall (λ r, map_Forall (λ _ v, is_text v = true) r)
      (rows (table_of example_str example_grants))
  ∧ (λ r, r !! "Amount") <$> rows (table_of example_str example_grants)
    = [Some (Str "$100.00"); Some (Str "$300.00"); Some (Str "$200.00")]
  ∧ format_money (Num (Q2Qc (1 # 1000))) = format_money (Num (Q2Qc (2 # 1000))).
Proof.
  split; [by vm_compute|]. split; [|split; by vm_compute].
  apply (bool_decide_unpack _). by vm_compute.
Qed.

(** C7, as amended. On a page that loads, the text behind the download
    button is the export of the table shown. When, in each row of the
    selection, the program, the strategy and the organization name are
    written in quotes or hold no carriage return, the text read back
    gives the five column labels of the table in their order, then one
    record per row of the selection, in order, whose last field is the
    currency text of the amount of that row; read as a number, that
    field gives the amount in cents, rounded half to even, which is
    within half a cent of the amount. *)
Theorem export_reads_back str_of_number numeric_of_text env raw d :
  read_excel env = Ok raw → clean raw = Ok d → rows d ≠ [] →
  Forall (λ r, passes (selected_program env) (selected_strategy env) r →
               Forall (λ field, reads_back field) (plain_fields str_of_number r))
    (rows d) →
  ∃ fd csv,
    apply_filter (selected_program env) (selected_strategy env) d = Ok fd
    ∧ csv = to_csv str_of_number (table_of str_of_number fd)
    ∧ html_table (table_of str_of_number fd)
      ∈ shown (app str_of_number numeric_of_text env)
    ∧ download_button "Download Filtered Data as CSV" csv
        "filtered_data.csv" "text/csv"
      ∈ shown (app str_of_number numeric_of_text env)
    ∧ parse_csv csv
      = columns (table_of str_of_number fd)
        :: (export_fields str_of_number <$> rows fd)
    ∧ columns (table_of str_of_number fd)
      = ["Top Level Primary Program"; "Primary Strategy";
         "Organization: Organization Name"; "Salesforce Link"; "Amount"]
    ∧ length (parse_csv csv) = S (length (rows fd))
    ∧ (λ record, record !! 4%nat) <$> tail (parse_csv csv)
      = (λ x, Some ("$" +:+ format_2f x)) <$> amounts fd
    ∧ (λ record, record !! 4%nat ≫= read_money) <$> tail (parse_csv csv)
      = (λ x, Some (round_half_even (x * Qc_of_Z 100))) <$> amounts fd
    ∧ Forall (λ x, (Qcabs (Qc_of_Z (round_half_even (x * Qc_of_Z 100))
                           - x * Qc_of_Z 100) ≤ Q2Qc (1 # 2))%Qc)
        (amounts fd).
Proof.
  intros Hread Hclean Hrows Hplain.
  destruct (clean_inv _ _ Hclean) as (_ & _ & Hd).
  assert (Hfd : cleaned (filtered_of env d)) by (by apply cleaned_filter).
  assert (Hpos : Forall (λ x, (0 < x)%Qc) (amounts (filtered_of env d))).
  { unfold amounts. apply Forall_forall. intros x Hx.
    apply list_elem_of_omap in Hx as (r & Hr & Hx).
    destruct (cleaned_rows _ Hfd r Hr) as (_ & _ & y & Hy & Hpos).
    unfold value_column in *. rewrite (get_lookup _ _ _ Hy) in Hx.
    by injection Hx as <-. }
  exists (filtered_of env d). eexists.
  split; [by apply apply_filter_cleaned|]. split; [reflexivity|].
  rewrite (app_ok _ _ _ _ _ Hread Hclean Hrows). cbn [shown].
  split; [|split].
  - apply elem_of_frame_widgets. unfold page_widgets.
    rewrite !elem_of_app. do 2 right. right. left.
  - apply elem_of_frame_widgets. unfold page_widgets.
    rewrite !elem_of_app. do 2 right. do 2 right. left.
  - rewrite to_csv_table, parse_csv_lines.
    2:{ apply Forall_cons. split.
        - apply (bool_decide_unpack _). by vm_compute.
        - apply Forall_fmap, Forall_forall. intros r Hr.
          apply export_fields_read_back.
          unfold filtered_of in Hr. cbn [rows] in Hr.
          apply list_elem_of_filter in Hr as [Hp Hr].
          rewrite Forall_forall in Hplain. by apply Hplain. }
    cbn [tail columns table_of].
    split; [done|]. split; [done|].
    split; [cbn [length]; by rewrite length_fmap|].
    assert (Htexts :
      (λ record : list string, record !! 4%nat)
        <$> (export_fields str_of_number <$> rows (filtered_of env d))
      = (λ x, Some ("$" +:+ format_2f x)) <$> amounts (filtered_of env d)).
    { transitivity
        (Some <$> ((λ r, money_text (get "Amount" r))
                     <$> rows (filtered_of env d))).
      - rewrite <-!list_fmap_compose. by apply list_fmap_ext.
      - rewrite (amount_texts _ Hfd). by rewrite <-list_fmap_compose. }
    split; [done|]. split.
    + transitivity
        ((λ o : option string, o ≫= read_money)
           <$> ((λ record : list string, record !! 4%nat)
                  <$> (export_fields str_of_number <$> rows (filtered_of env d)))).
      { by rewrite <-!list_fmap_compose. }
      rewrite Htexts, <-list_fmap_compose.
      apply Forall_fmap_ext_1. eapply Forall_impl; [exact Hpos|].
      intros x Hx. unfold compose. cbn [mbind option_bind].
      by apply read_money_format.
    + apply Forall_forall. intros x _. apply round_half_even_close.
Qed.

Lemma export_reads_back_witness :
  let env := mkEnv (Ok example_grants) (Str "ProgA") All false in
  ∃ fd csv,
    apply_filter (selected_program env) (selected_strategy env) example_grants
    = Ok fd
    ∧ csv = to_csv example_str (table_of example_str fd)
    ∧ html_table (table_of example_str fd)
      ∈ shown (app example_str example_numeric env)
    ∧ download_button "Download Filtered Data as CSV" csv
        "filtered_data.csv" "text/csv"
      ∈ shown (app example_str example_numeric env)
    ∧ parse_csv csv
      = columns (table_of example_str fd)
        :: (export_fields example_str <$> rows fd)
    ∧ columns (table_of example_str fd)
      = ["Top Level Primary Program"; "Primary Strategy";
         "Organization: Organization Name"; "Salesforce Link"; "Amount"]
    ∧ length (parse_csv csv) = S (length (rows fd))
    ∧ (λ record, record !! 4%nat) <$> tail (parse_csv csv)
      = (λ x, Some ("$" +:+ format_2f x)) <$> amounts fd
    ∧ (λ record, record !! 4%nat ≫= read_money) <$> tail (parse_csv csv)
      = (λ x, Some (round_half_even (x * Qc_of_Z 100))) <$> amounts fd
    ∧ Forall (λ x, (Qcabs (Qc_of_Z (round_half_even (x * Qc_of_Z 100))
                           - x * Qc_of_Z 100) ≤ Q2Qc (1 # 2))%Qc)
        (amounts fd).
Proof.
  apply (export_reads_back example_str example_numeric
           (mkEnv (Ok example_grants) (Str "ProgA") All false)
           example_grants example_grants).
  - reflexivity.
  - vm_compute. reflexivity.
  - discriminate.
  - repeat constructor.
Defined.

(** C7, as stated, fails: a program name with a carriage return in it
    is written without quotes, and the reader ends a record at the
    carriage return. The export of the one row of the selection reads
    back as two records, the first of one field, and the amount is read
    from the second alone. *)
Lemma export_splits_at_carriage_return :
  let env := mkEnv (Ok carriage_return_grants) All All false in
  let csv := to_csv example_str (table_of example_str carriage_return_grants) in
  clean carriage_return_grants = Ok carriage_return_grants
  ∧ apply_filter All All carriage_return_grants = Ok carriage_return_grants
  ∧ download_button "Download Filtered Data as CSV" csv
      "filtered_data.csv" "text/csv"
    ∈ shown (app example_str example_numeric env)
  ∧ length (rows carriage_return_grants) = 1%nat
  ∧ length (parse_csv csv) = 3%nat
  ∧ length <$> parse_csv csv = [5; 1; 5]%nat
  ∧ take 3 <$> parse_csv csv
    = [["Top Level Primary Program"; "Primary Strategy";
        "Organization: Organization Name"];
       ["Prog"];
       ["A"; "Strat1"; "OrgX"]]
  ∧ (λ record, record !! 4%nat) <$> tail (parse_csv csv)
    = [None; Some "$100.00"].
Proof.
  cbn zeta.
  assert (Hclean : clean carriage_return_grants = Ok carriage_return_grants)
    by (vm_compute; reflexivity).
  split; [done|]. split; [vm_compute; reflexivity|]. split.
  - rewrite (app_ok example_str example_numeric
               (mkEnv (Ok carriage_return_grants) All All false)
               carriage_return_grants carriage_return_grants
               eq_refl Hclean ltac:(discriminate)).
    cbn [shown]. apply elem_of_frame_widgets. unfold page_widgets.
    rewrite !elem_of_app. do 2 right. do 2 right. left.
  - repeat split; vm_compute; reflexivity.
Qed.

(** C8. The script never ends on an exception. When the load raises,
    or the frame loaded lacks one of the six columns, the page is the
    title, one error message that carries the exception, and the file
    uploader; whatever stops the body of the [try] block is shown in
    such a message, and the uploader is always there. *)
Theorem load_failure_is_shown str_of_number numeric_of_text env :
  outcome (app str_of_number numeric_of_text env) = Ok ()
  ∧ (∀ e, read_excel env = Raise e →
       shown (app str_of_number numeric_of_text env)
       = frame_widgets env [error "Error loading default data: " e])
  ∧ (∀ raw c, read_excel env = Ok raw → c ∈ required → c ∉ columns raw →
       ∃ missing, c ∈ missing
         ∧ shown (app str_of_number numeric_of_text env)
           = frame_widgets env
               [error "Error loading default data: " (KeyError missing)])
  ∧ (∀ e, outcome (page str_of_number numeric_of_text env) = Raise e →
       error "Error loading default data: " e
       ∈ shown (app str_of_number numeric_of_text env))
  ∧ file_uploader "Upload the Grants Excel File"
    ∈ shown (app str_of_number numeric_of_text env).
Proof.
  assert (Happ : ∀ ws r, page str_of_number numeric_of_text env = mkUI ws r →
            file_uploader "Upload the Grants Excel File"
            ∈ frame_widgets env
                (ws ++ match r with
                       | Ok _ => []
                       | Raise e => [error "Error loading default data: " e]
                       end)).
  { intros ws r _. unfold frame_widgets. right. apply elem_of_app. right. left. }
  destruct (page str_of_number numeric_of_text env) as [ws r] eqn:Hpage.
  pose proof (app_of_page _ _ _ _ _ Hpage) as Heq.
  split; [by rewrite Heq|]. split; [|split; [|split]].
  - intros e Hread.
    rewrite (page_load_fails _ _ _ _ Hread) in Hpage.
    injection Hpage as <- <-. by rewrite Heq.
  - intros raw c Hread Hc Hn.
    destruct (select_missing required raw c Hc Hn) as (missing & Hsel & Hin).
    exists missing. split; [done|].
    assert (Hclean : clean raw = Raise (KeyError missing)).
    { unfold clean. fold required. by rewrite Hsel. }
    rewrite (page_clean_fails _ _ _ _ _ Hread Hclean) in Hpage.
    injection Hpage as <- <-. by rewrite Heq.
  - cbn [outcome]. intros e ->. rewrite Heq. cbn [shown].
    unfold frame_widgets. right. rewrite !elem_of_app. left. right. left.
  - rewrite Heq. cbn [shown]. by eapply Happ.
Qed.

Lemma load_failure_is_shown_witness :
  let env := mkEnv (Raise (LoadError "No such file or directory"))
               All All false in
  outcome (app example_str example_numeric env) = Ok ()
  ∧ shown (app example_str example_numeric env)
    = [title "Dynamic Sunburst Diagram of 2024 Grants";
       error "Error loading default data: "
         (LoadError "No such file or directory");
       file_uploader "Upload the Grants Excel File"].
Proof.
  pose proof (load_failure_is_shown example_str example_numeric
                (mkEnv (Raise (LoadError "No such file or directory"))
                   All All false)) as (Hok & Hload & _).
  split; [exact Hok|]. exact (Hload _ eq_refl).
Defined.

(** * Further properties of the script *)

(** ** The two filters *)

Lemma where_eq_inv c v df fd :
  where_eq c v df = Ok fd →
  c ∈ columns df
  ∧ fd = mkFrame (columns df) (filter (λ r, cell_eqb v (get c r)) (rows df)).
Proof.
  intros H. destruct (decide (c ∈ columns df)) as [Hc|Hc].
  - split; [done|]. rewrite where_eq_ok in H by done. by injection H.
  - unfold where_eq, column in H. by rewrite decide_False in H.
Qed.

(** A filter stage needs its column only when it constrains. *)
Lemma stage_ok_when c v df :
  (v ≠ All → c ∈ columns df) →
  (if decide (v ≠ All) then where_eq c v df else Ok df)
  = Ok (mkFrame (columns df)
          (filter (λ r, bool_decide (v = All) || cell_eqb v (get c r)) (rows df))).
Proof.
  intros Hc. destruct (decide (v = All)) as [->|Hv].
  - rewrite decide_False by (by intros []).
    rewrite filter_all; [by rewrite frame_eta|]. intros r _.
    by rewrite bool_decide_eq_true_2.
  - rewrite <-(stage_ok c v df (Hc Hv)). done.
Qed.

Lemma apply_filter_when p s df :
  (p ≠ All → "Top Level Primary Program" ∈ columns df) →
  (s ≠ All → "Primary Strategy" ∈ columns df) →
  apply_filter p s df
  = Ok (mkFrame (columns df) (filter (λ r, passes p s r) (rows df))).
Proof.
  intros Hp Hs. unfold apply_filter.
  rewrite (stage_ok_when _ p df Hp), bind_Ok.
  rewrite stage_ok_when by done. rewrite bind_Ok. cbn [columns rows].
  unfold mret, result_ret. do 2 f_equal.
  rewrite list_filter_filter. apply list_filter_iff. intros r.
  unfold passes. rewrite andb_True. tauto.
Qed.

Lemma apply_filter_inv p s df fd :
  apply_filter p s df = Ok fd →
  (p ≠ All → "Top Level Primary Program" ∈ columns df)
  ∧ (s ≠ All → "Primary Strategy" ∈ columns df)
  ∧ fd = mkFrame (columns df) (filter (λ r, passes p s r) (rows df)).
Proof.
  intros H.
  assert (Hp : p ≠ All → "Top Level Primary Program" ∈ columns df).
  { intros Hp. unfold apply_filter in H. rewrite decide_True in H by done.
    apply bind_Ok_inv in H as (x & Hx & _). by apply where_eq_inv in Hx as [? _]. }
  assert (Hs : s ≠ All → "Primary Strategy" ∈ columns df).
  { intros Hs. unfold apply_filter in H.
    rewrite (stage_ok_when _ p df Hp), bind_Ok in H.
    rewrite decide_True in H by done.
    apply bind_Ok_inv in H as (x & Hx & _). by apply where_eq_inv in Hx as [? _]. }
  split; [done|]. split; [done|].
  rewrite apply_filter_when in H by done. by injection H.
Qed.

(** X1. Applying a selection to what the same selection gave changes
    nothing: the second pass keeps every row and the columns. *)
Theorem apply_filter_idempotent p s df fd :
  apply_filter p s df = Ok fd → apply_filter p s fd = Ok fd.
Proof.
  intros (Hp & Hs & ->)%apply_filter_inv.
  rewrite apply_filter_when by done. cbn [columns rows]. do 2 f_equal.
  apply filter_all. by intros r [? _]%list_elem_of_filter.
Qed.

Lemma apply_filter_idempotent_witness :
  apply_filter (Str "ProgA") All example_program_a = Ok example_program_a.
Proof.
  apply (apply_filter_idempotent (Str "ProgA") All example_grants).
  vm_compute. reflexivity.
Defined.

Lemma passes_cleaned d p s r :
  cleaned d → r ∈ rows d →
  passes p s r ↔
  (p = All ∨ get "Top Level Primary Program" r = p)
  ∧ (s = All ∨ get "Primary Strategy" r = s).
Proof.
  intros Hd Hr. unfold passes.
  rewrite andb_True, !orb_True, !bool_decide_spec.
  rewrite (cell_eqb_cleaned d r _ p Hd Hr program_required).
  by rewrite (cell_eqb_cleaned d r _ s Hd Hr strategy_required).
Qed.

(** X2. On a cleaned frame the rows a selection gives are exactly the
    rows whose program is the selected one, unless the sentinel is
    selected, and whose strategy is the selected one, unless the
    sentinel is selected; no other row, and none of these left out. *)
Theorem filtered_rows_match_selection raw d p s :
  clean raw = Ok d →
  ∃ fd, apply_filter p s d = Ok fd
    ∧ columns fd = columns d
    ∧ ∀ r, r ∈ rows fd ↔
        r ∈ rows d
        ∧ (p = All ∨ get "Top Level Primary Program" r = p)
        ∧ (s = All ∨ get "Primary Strategy" r = s).
Proof.
  intros Hclean. destruct (clean_inv _ _ Hclean) as (_ & _ & Hd).
  eexists. split; [by apply apply_filter_cleaned|].
  split; [by rewrite (cleaned_columns _ Hd)|].
  intros r. cbn [rows]. rewrite list_elem_of_filter. split.
  - intros [Hpass Hr]. split; [done|]. by apply (passes_cleaned d).
  - intros [Hr Hsel]. split; [|done]. by apply (passes_cleaned d).
Qed.

Lemma filtered_rows_match_selection_witness :
  ∃ fd, apply_filter (Str "ProgA") (Str "Strat2") example_grants = Ok fd
    ∧ columns fd = columns example_grants
    ∧ ∀ r, r ∈ rows fd ↔
        r ∈ rows example_grants
        ∧ (Str "ProgA" = All ∨ get "Top Level Primary Program" r = Str "ProgA")
        ∧ (Str "Strat2" = All ∨ get "Primary Strategy" r = Str "Strat2").
Proof.
  apply (filtered_rows_match_selection example_grants).
  vm_compute. reflexivity.
Defined.

(** X3. On a frame that has both columns the two filters commute and
    compose: the strategy filter applied to what the program filter
    gave, and the program filter applied to what the strategy filter
    gave, are both the frame the two selections give together. *)
Theorem filters_commute p s df :
  "Top Level Primary Program" ∈ columns df →
  "Primary Strategy" ∈ columns df →
  (apply_filter p All df ≫= apply_filter All s) = apply_filter p s df
  ∧ (apply_filter All s df ≫= apply_filter p All) = apply_filter p s df.
Proof.
  intros Hp Hs. rewrite !(apply_filter_ok _ _ df) by done.
  rewrite !bind_Ok, !apply_filter_ok by done. cbn [columns rows].
  split; do 2 f_equal; rewrite list_filter_filter; apply list_filter_iff;
    intros r; unfold passes;
    rewrite !andb_True, !orb_True, !bool_decide_spec; naive_solver.
Qed.

Lemma filters_commute_witness :
  (apply_filter (Str "ProgA") All example_grants
     ≫= apply_filter All (Str "Strat2"))
  = apply_filter (Str "ProgA") (Str "Strat2") example_grants
  ∧ (apply_filter All (Str "Strat2") example_grants
       ≫= apply_filter (Str "ProgA") All)
    = apply_filter (Str "ProgA") (Str "Strat2") example_grants.
Proof.
  apply (filters_commute (Str "ProgA") (Str "Strat2") example_grants);
    compute_done.
Defined.

(** X4. A filter reads a column only when it constrains: on a frame
    without the program column the sentinel filters without error, and
    any other program selection raises the [KeyError] of that column,
    whatever the strategy selection. *)
Theorem filter_without_program_column p s df :
  "Top Level Primary Program" ∉ columns df →
  apply_filter All All df = Ok df
  ∧ (p ≠ All →
     apply_filter p s df = Raise (KeyError ["Top Level Primary Program"])).
Proof.
  intros Hn. split.
  - unfold apply_filter. by rewrite !decide_False by (by intros []).
  - intros Hp. unfold apply_filter, where_eq, column.
    rewrite decide_True by done. by rewrite decide_False.
Qed.

Lemma filter_without_program_column_witness :
  apply_filter All All no_program_column = Ok no_program_column
  ∧ (Str "ProgA" ≠ All →
     apply_filter (Str "ProgA") (Str "Strat1") no_program_column
     = Raise (KeyError ["Top Level Primary Program"])).
Proof.
  apply (filter_without_program_column (Str "ProgA") (Str "Strat1")
           no_program_column).
  compute_done.
Defined.

(** ** The options of the select boxes *)

Lemma unique_sublist l : unique l `sublist_of` l.
Proof.
  induction l as [|x l IH]; cbn [unique]; [done|].
  apply sublist_skip. etrans; [apply sublist_filter|done].
Qed.

(** What a filter kept, split at one of the elements kept. *)
Lemma filter_split_inv {A} (P : A → Prop) `{∀ x, Decision (P x)}
    (u l1 l2 : list A) (p : A) :
  filter P u = (l1 ++ p :: l2)%list →
  ∃ u1 u2, u = (u1 ++ p :: u2)%list ∧ filter P u1 = l1 ∧ filter P u2 = l2 ∧ P p.
Proof.
  revert l1. induction u as [|a u IH]; intros l1 Hf.
  - by destruct l1.
  - rewrite filter_cons in Hf. case_decide as Ha.
    + destruct l1 as [|b l1]; cbn in Hf; injection Hf as -> Hf.
      * exists [], u. by rewrite Hf.
      * destruct (IH _ Hf) as (u1 & u2 & -> & <- & <- & Hp).
        exists (b :: u1), u2. by rewrite filter_cons_True.
    + destruct (IH _ Hf) as (u1 & u2 & -> & <- & <- & Hp).
      exists (a :: u1), u2. by rewrite filter_cons_False.
Qed.

(** The distinct cells come in the order of their first appearance:
    the cells listed before a cell are those that appear in the column
    before that cell first does. *)
Lemma unique_first_appearance col l1 p l2 :
  unique col = (l1 ++ p :: l2)%list →
  ∃ c1 c2, col = (c1 ++ p :: c2)%list ∧ (p ∉ c1) ∧ ∀ x, x ∈ c1 ↔ x ∈ l1.
Proof.
  revert l1 p l2. induction col as [|a col IH]; intros l1 p l2 Hu.
  - by destruct l1.
  - cbn [unique] in Hu. destruct l1 as [|b l1]; cbn in Hu; injection Hu as -> Hu.
    + exists [], col. split; [done|]. split; [apply not_elem_of_nil|done].
    + apply filter_split_inv in Hu as (u1 & u2 & Hu & <- & <- & Hp).
      destruct (IH _ _ _ Hu) as (c1 & c2 & -> & Hnot & Hsame).
      exists (b :: c1), c2. split; [done|]. split.
      * rewrite not_elem_of_cons. done.
      * intros x. rewrite !elem_of_cons, list_elem_of_filter, Hsame.
        destruct (decide (x = b)); naive_solver.
Qed.

(** X5. The program select box offers the sentinel first, then the
    program values of the cleaned frame, each once, in the order in
    which they first appear in the frame: a value is offered exactly
    when some row has it, and the values offered before it are those
    of the rows above the first row that has it. *)
Theorem program_options_distinct raw d :
  clean raw = Ok d →
  ∃ l, program_options d = Ok (All :: l)
    ∧ NoDup l
    ∧ l `sublist_of` (get "Top Level Primary Program" <$> rows d)
    ∧ (∀ p, p ∈ l ↔ ∃ r, r ∈ rows d ∧ get "Top Level Primary Program" r = p)
    ∧ ∀ before p after, l = (before ++ p :: after)%list →
        ∃ above below,
          get "Top Level Primary Program" <$> rows d
          = (above ++ p :: below)%list
          ∧ (p ∉ above)
          ∧ ∀ q, q ∈ above ↔ q ∈ before.
Proof.
  intros Hclean. destruct (clean_inv _ _ Hclean) as (_ & _ & Hd).
  exists (unique (get "Top Level Primary Program" <$> rows d)).
  split.
  { unfold program_options.
    by rewrite column_cleaned by (done || apply program_required). }
  split; [apply NoDup_unique|]. split; [apply unique_sublist|]. split.
  - intros p. rewrite elem_of_unique, list_elem_of_fmap. naive_solver.
  - intros before p after. apply unique_first_appearance.
Qed.

Lemma program_options_distinct_witness :
  ∃ l, program_options example_grants = Ok (All :: l)
    ∧ NoDup l
    ∧ l `sublist_of` (get "Top Level Primary Program" <$> rows example_grants)
    ∧ (∀ p, p ∈ l ↔
        ∃ r, r ∈ rows example_grants ∧ get "Top Level Primary Program" r = p)
    ∧ ∀ before p after, l = (before ++ p :: after)%list →
        ∃ above below,
          get "Top Level Primary Program" <$> rows example_grants
          = (above ++ p :: below)%list
          ∧ (p ∉ above)
          ∧ ∀ q, q ∈ above ↔ q ∈ before.
Proof.
  apply (program_options_distinct example_grants).
  vm_compute. reflexivity.
Defined.

(** X6. The select boxes offer no impossible combination: on a cleaned
    frame with a row, whatever program is picked among the program
    options and whatever strategy is then picked among the strategy
    options of that program, the selection keeps at least one row. *)
Theorem offered_selection_keeps_a_row raw d programs strategies_for p s :
  clean raw = Ok d → rows d ≠ [] →
  program_options d = Ok programs → p ∈ programs →
  strategy_options p d = Ok strategies_for → s ∈ strategies_for →
  ∃ fd, apply_filter p s d = Ok fd ∧ rows fd ≠ [].
Proof.
  intros Hclean Hrows Hprog Hp Hstrat Hs.
  destruct (clean_inv _ _ Hclean) as (_ & _ & Hd).
  eexists. split; [by apply apply_filter_cleaned|]. cbn [rows].
  unfold program_options in Hprog.
  rewrite column_cleaned in Hprog by (done || apply program_required).
  injection Hprog as <-.
  unfold strategy_options in Hstrat.
  rewrite strategies_cleaned in Hstrat by done. injection Hstrat as <-.
  assert (Hrow : ∃ r, r ∈ rows d ∧ passes p s r).
  { assert (Hsome : ∃ r, r ∈ rows d
              ∧ (p = All ∨ get "Top Level Primary Program" r = p)).
    { apply elem_of_cons in Hp as [->|Hp].
      - destruct (rows d) as [|r l]; [done|]. exists r. split; [left|by left].
      - apply elem_of_unique, list_elem_of_fmap in Hp as (r & -> & Hr).
        exists r. split; [done|by right]. }
    apply elem_of_cons in Hs as [->|Hs].
    - destruct Hsome as (r & Hr & Hsel). exists r. split; [done|].
      apply (passes_cleaned d); [done..|]. split; [done|by left].
    - unfold strategies_of in Hs.
      apply elem_of_unique, list_elem_of_fmap in Hs as (r & -> & Hin).
      apply list_elem_of_filter in Hin as [Hsel Hr].
      exists r. split; [done|].
      apply (passes_cleaned d); [done..|]. split; [|by right].
      apply orb_True in Hsel as [Hsel|Hsel].
      + left. by apply bool_decide_unpack in Hsel.
      + right. by apply (cell_eqb_cleaned d) in Hsel;
          [| | |apply program_required]. }
  destruct Hrow as (r & Hr & Hpass). intros Hnil.
  assert (Hin : r ∈ filter (λ r, passes p s r) (rows d))
    by (by apply list_elem_of_filter).
  rewrite Hnil in Hin. by apply elem_of_nil in Hin.
Qed.

Lemma offered_selection_keeps_a_row_witness :
  ∃ fd, apply_filter (Str "ProgB") (Str "Strat1") example_grants = Ok fd
    ∧ rows fd ≠ [].
Proof.
  apply (offered_selection_keeps_a_row example_grants example_grants
           [All; Str "ProgA"; Str "ProgB"] [All; Str "Strat1"]).
  - vm_compute. reflexivity.
  - discriminate.
  - vm_compute. reflexivity.
  - compute_done.
  - vm_compute. reflexivity.
  - compute_done.
Defined.

(** ** The statistics *)

Lemma sorted_perm xs ys :
  xs ≡ₚ ys → merge_sort Qcle xs = merge_sort Qcle ys.
Proof.
  intros Hperm. apply (StronglySorted_unique Qcle).
  - apply StronglySorted_merge_sort; apply _.
  - apply StronglySorted_merge_sort; apply _.
  - by rewrite !merge_sort_Permutation.
Qed.

Lemma numbers_perm col1 col2 :
  col1 ≡ₚ col2 →
  match numbers col1, numbers col2 with
  | Ok xs, Ok ys => xs ≡ₚ ys
  | Raise e1, Raise e2 => e1 = e2
  | _, _ => False
  end.
Proof.
  assert (Herr : ∀ col e, numbers col = Raise e → e = TypeError).
  { induction col as [|[|x|s] col IH]; intros e; cbn [numbers].
    - done.
    - apply IH.
    - destruct (numbers col) as [xs|e'] eqn:E; [done|].
      cbn. intros [= <-]. by apply IH.
    - by intros [= <-]. }
  induction 1 as [|c col1 col2 _ IH|c1 c2 col|col1 col2 col3 _ IH1 _ IH2].
  - by cbn.
  - destruct c as [|x|s]; cbn [numbers]; [done| |done].
    destruct (numbers col1), (numbers col2); cbn; try done.
    by constructor.
  - destruct c1 as [|x1|s1], c2 as [|x2|s2]; cbn [numbers];
      destruct (numbers col) as [xs|e] eqn:E; cbn; try done;
      first [ apply perm_swap | symmetry; by eapply Herr | by eapply Herr ].
  - destruct (numbers col1), (numbers col2), (numbers col3); try done.
    + by etrans.
    + congruence.
Qed.

(** X7. The median of a column does not depend on the order of its
    cells: two columns that hold the same cells in any order have the
    same median, or raise the same error. *)
Theorem median_ignores_row_order col1 col2 :
  col1 ≡ₚ col2 →
  series_median col1 = series_median col2.
Proof.
  intros Hperm%numbers_perm. unfold series_median.
  destruct (numbers col1) as [xs|e1], (numbers col2) as [ys|e2];
    [|done|done|by subst].
  rewrite !bind_Ok. unfold mret, result_ret.
  unfold median_of. by rewrite (sorted_perm xs ys).
Qed.

Lemma median_ignores_row_order_witness :
  series_median [dollars 100; dollars 300; dollars 200]
  = series_median [dollars 200; dollars 100; dollars 300].
Proof.
  apply median_ignores_row_order.
  etrans; [apply perm_skip, perm_swap|apply perm_swap].
Defined.

Lemma sorted_prefix_le (s : list Qc) k a :
  StronglySorted Qcle s → s !! k = Some a →
  Forall (λ x, x ≤ a)%Qc (take (S k) s).
Proof.
  intros Hs Hk. rewrite (take_S_r _ _ _ Hk). apply Forall_app. split.
  - apply Forall_forall. intros x Hx.
    rewrite <-(take_drop_middle _ _ _ Hk) in Hs.
    apply (StronglySorted_app_1_elem_of _ _ _ x a Hs); [done|left].
  - repeat constructor. apply Qcle_refl.
Qed.

Lemma sorted_suffix_ge (s : list Qc) k a :
  StronglySorted Qcle s → s !! k = Some a →
  Forall (λ x, a ≤ x)%Qc (drop k s).
Proof.
  intros Hs Hk. rewrite <-(take_drop_middle _ _ _ Hk) in Hs.
  apply StronglySorted_app_1_r, StronglySorted_cons in Hs as [Hall _].
  rewrite (drop_S _ _ _ Hk). constructor; [apply Qcle_refl|done].
Qed.

Lemma count_prefix {A} (P : A → Prop) `{∀ x, Decision (P x)} (l : list A) j :
  Forall P (take j l) → (j ≤ length l)%nat → (j ≤ length (filter P l))%nat.
Proof.
  intros Hall Hj. rewrite <-(take_drop j l) at 1.
  rewrite filter_app, length_app, (filter_all P (take j l)).
  - rewrite length_take. lia.
  - by apply Forall_forall.
Qed.

Lemma count_suffix {A} (P : A → Prop) `{∀ x, Decision (P x)} (l : list A) j :
  Forall P (drop j l) → (length l - j ≤ length (filter P l))%nat.
Proof.
  intros Hall. rewrite <-(take_drop j l) at 2.
  rewrite filter_app, length_app, (filter_all P (drop j l)).
  - rewrite length_drop. lia.
  - by apply Forall_forall.
Qed.

Lemma half_sum (a b : Qc) : ((a + b) / 2 + (a + b) / 2 = a + b)%Qc.
Proof. field. done. Qed.

Lemma midpoint_between (a b : Qc) :
  (a ≤ b → a ≤ (a + b) / 2 ∧ (a + b) / 2 ≤ b)%Qc.
Proof.
  intros Hab. pose proof (half_sum a b) as Hh.
  set (h := ((a + b) / 2)%Qc) in *. split.
  - apply Qcle_ngt. intros Hlt.
    cut (h + h < a + b)%Qc; [by intros ?%Qclt_not_eq|].
    apply Qclt_le_trans with (a + a)%Qc.
    + apply Qclt_trans with (a + h)%Qc.
      * by apply Qcplus_lt_mono_r.
      * by apply Qcplus_lt_mono_l.
    + by apply Qcplus_le_mono_l.
  - apply Qcle_ngt. intros Hlt.
    cut (a + b < h + h)%Qc; [by intros ?%Qclt_not_eq|].
    apply Qcle_lt_trans with (b + b)%Qc.
    + by apply Qcplus_le_mono_r.
    + apply Qclt_trans with (b + h)%Qc.
      * by apply Qcplus_lt_mono_l.
      * by apply Qcplus_lt_mono_r.
Qed.

(** X8. The median splits the values: when the median of a list of
    numbers is [m], at least half of the numbers are [m] or below and
    at least half are [m] or above. *)
Theorem median_splits_values xs m :
  median_of xs = Num m →
  (length xs ≤ 2 * length (filter (λ x, x ≤ m)%Qc xs))%nat
  ∧ (length xs ≤ 2 * length (filter (λ x, m ≤ x)%Qc xs))%nat.
Proof.
  unfold median_of. intros Hmed.
  pose proof (StronglySorted_merge_sort Qcle xs) as Hs.
  pose proof (merge_sort_Permutation Qcle xs) as Hp.
  set (s := merge_sort Qcle xs) in *. clearbody s.
  assert (length xs = length s) as -> by (by rewrite Hp).
  assert (length (filter (λ x, x ≤ m)%Qc xs)
          = length (filter (λ x, x ≤ m)%Qc s)) as -> by (by rewrite Hp).
  assert (length (filter (λ x, m ≤ x)%Qc xs)
          = length (filter (λ x, m ≤ x)%Qc s)) as -> by (by rewrite Hp).
  clear Hp. revert Hmed.
  destruct (length s) as [|n'] eqn:Hlen; [done|].
  set (n := S n') in *.
  assert (Hhalf : (n / 2 < length s)%nat)
    by (rewrite Hlen; apply Nat.div_lt; lia).
  destruct (lookup_lt_is_Some_2 s (n / 2)%nat Hhalf) as [b Hb].
  destruct (Nat.odd n) eqn:Hodd.
  - rewrite Hb. cbn [default]. intros [= <-].
    pose proof (Nat.div_mod_eq n 2) as Hdiv.
    assert (n mod 2 < 2)%nat by (apply Nat.mod_upper_bound; lia).
    split.
    + pose proof (count_prefix (λ x, x ≤ b)%Qc s (S (n / 2))
                    (sorted_prefix_le s _ b Hs Hb)). lia.
    + pose proof (count_suffix (λ x, b ≤ x)%Qc s (n / 2)
                    (sorted_suffix_ge s _ b Hs Hb)). lia.
  - assert (Heven : n = (2 * (n / 2))%nat).
    { assert (Nat.even n = true) as [k Hk]%Nat.even_spec
        by (by rewrite <-Nat.negb_odd, Hodd).
      pose proof (Nat.div_mod_eq n 2) as Hdiv.
      assert (n mod 2 = 0)%nat
        by (rewrite Hk, Nat.mul_comm; apply Nat.Div0.mod_mul).
      lia. }
    assert (Hpos : (0 < n / 2)%nat) by lia.
    assert (Hprev : (n / 2 - 1 < length s)%nat) by lia.
    destruct (lookup_lt_is_Some_2 s (n / 2 - 1)%nat Hprev) as [a Ha].
    rewrite Ha, Hb. cbn [default]. intros [= <-].
    assert (Hab : (a ≤ b)%Qc).
    { pose proof (sorted_suffix_ge s _ a Hs Ha) as Hge.
      rewrite Forall_forall in Hge. apply Hge.
      apply list_elem_of_lookup. exists 1%nat.
      rewrite lookup_drop. rewrite <-Hb. f_equal. lia. }
    destruct (midpoint_between a b Hab) as [Hlo Hhi].
    split.
    + assert (Hall : Forall (λ x, x ≤ (a + b) / 2)%Qc (take (S (n / 2 - 1)) s)).
      { eapply Forall_impl; [by apply sorted_prefix_le|].
        intros x Hx. cbn in Hx. by apply Qcle_trans with a. }
      pose proof (count_prefix _ s _ Hall). lia.
    + assert (Hall : Forall (λ x, (a + b) / 2 ≤ x)%Qc (drop (n / 2) s)).
      { eapply Forall_impl; [by apply sorted_suffix_ge|].
        intros x Hx. cbn in Hx. by apply Qcle_trans with b. }
      pose proof (count_suffix _ s _ Hall). lia.
Qed.

Lemma median_splits_values_witness :
  (length [Qc_of_Z 100; Qc_of_Z 300; Qc_of_Z 200]
   ≤ 2 * length (filter (λ x, x ≤ Qc_of_Z 200)%Qc
                   [Qc_of_Z 100; Qc_of_Z 300; Qc_of_Z 200]))%nat
  ∧ (length [Qc_of_Z 100; Qc_of_Z 300; Qc_of_Z 200]
     ≤ 2 * length (filter (λ x, Qc_of_Z 200 ≤ x)%Qc
                     [Qc_of_Z 100; Qc_of_Z 300; Qc_of_Z 200]))%nat.
Proof.
  apply (median_splits_values [Qc_of_Z 100; Qc_of_Z 300; Qc_of_Z 200]).
  vm_compute. reflexivity.
Defined.

Lemma amounts_positive d : cleaned d → Forall (λ x, 0 < x)%Qc (amounts d).
Proof.
  intros [_ Hrows]. unfold amounts. apply Forall_forall. intros x Hx.
  apply list_elem_of_omap in Hx as (r & Hr & Hx).
  destruct (Hrows r Hr) as (_ & _ & y & Hy & Hpos).
  rewrite (get_lookup _ _ _ Hy) in Hx. by injection Hx as <-.
Qed.

Lemma length_amounts d : cleaned d → length (amounts d) = length (rows d).
Proof.
  intros [_ Hrows]. unfold amounts.
  induction (rows d) as [|r l IH]; [done|]. cbn [omap list_omap].
  destruct (Hrows r) as (_ & _ & x & Hx & _); [by left|].
  rewrite (get_lookup _ _ _ Hx). cbn. f_equal. apply IH.
  intros r' Hr'. apply Hrows. by right.
Qed.

Lemma total_nonneg xs : Forall (λ x, 0 < x)%Qc xs → (0 ≤ total xs)%Qc.
Proof.
  induction 1 as [|x xs Hx _ IH]; [done|]. cbn.
  apply Qcplus_nonneg_nonneg; [by apply Qclt_le_weak|done].
Qed.

Lemma total_pos xs : xs ≠ [] → Forall (λ x, 0 < x)%Qc xs → (0 < total xs)%Qc.
Proof.
  intros Hne Hall. destruct Hall as [|x xs Hx Hall]; [done|]. cbn.
  apply Qcplus_pos_nonneg; [done|by apply total_nonneg].
Qed.

Lemma count_pos n : (0 < Qc_of_Z (Z.of_nat (S n)))%Qc.
Proof.
  rewrite <-Z2Qc_inj_0. apply (proj1 (Z2Qc_inj_lt 0 (Z.of_nat (S n)))). lia.
Qed.

Lemma mean_of_pos xs :
  xs ≠ [] → Forall (λ x, 0 < x)%Qc xs →
  ∃ a, mean_of xs = Num a ∧ (0 < a)%Qc
       ∧ (a * Qc_of_Z (Z.of_nat (length xs)) = total xs)%Qc.
Proof.
  intros Hne Hall. pose proof (total_pos xs Hne Hall) as Hpos.
  destruct xs as [|x xs]; [done|]. eexists. split; [reflexivity|].
  pose proof (count_pos (length xs)) as Hn. cbn [length]. split.
  - apply Qcmult_pos_pos; [done|by apply Qcinv_pos].
  - rewrite Qcmult_comm. apply Qcmult_div_r.
    intros Hz. rewrite Hz in Hn. by apply Qclt_not_eq in Hn.
Qed.

Lemma median_of_pos xs :
  xs ≠ [] → Forall (λ x, 0 < x)%Qc xs →
  ∃ m, median_of xs = Num m ∧ (0 < m)%Qc.
Proof.
  intros Hne Hall. unfold median_of.
  pose proof (merge_sort_Permutation Qcle xs) as Hp.
  set (s := merge_sort Qcle xs) in *. clearbody s.
  assert (Hs : Forall (λ x, 0 < x)%Qc s) by (by rewrite Hp).
  assert (Hget : ∀ k, (0 < default 0 (s !! k))%Qc ∨ s !! k = None).
  { intros k. destruct (s !! k) as [x|] eqn:E; [left|by right].
    rewrite Forall_forall in Hs. apply Hs. by eapply list_elem_of_lookup_2. }
  destruct (length s) as [|n'] eqn:Hlen.
  { apply nil_length_inv in Hlen. subst s.
    by apply Permutation_nil in Hp. }
  set (n := S n') in *.
  assert (Hin : ∀ k, (k < n)%nat → (0 < default 0 (s !! k))%Qc).
  { intros k Hk. destruct (Hget k) as [|Hnone]; [done|].
    apply lookup_ge_None in Hnone. lia. }
  assert (n / 2 < n)%nat by (apply Nat.div_lt; lia).
  destruct (Nat.odd n); eexists; (split; [reflexivity|]).
  - by apply Hin.
  - apply Qcmult_pos_pos; [|by apply Qcinv_pos].
    apply Qcplus_pos_pos; apply Hin; lia.
Qed.

(** X9. On a loaded page with a row, whatever the selection: the
    record count shown is at most the number of cleaned rows; the
    overall median and mean are numbers above zero, never [NaN]; and
    when the selection keeps a row, its median and mean are numbers
    above zero as well. *)
Theorem metrics_within_bounds raw d p s fd m :
  clean raw = Ok d → rows d ≠ [] →
  apply_filter p s d = Ok fd → compute_metrics d fd = Ok m →
  (total_records m ≤ length (rows d))%nat
  ∧ (∃ x, median_all m = Num x ∧ (0 < x)%Qc)
  ∧ (∃ a, mean_all m = Num a ∧ (0 < a)%Qc)
  ∧ (rows fd ≠ [] →
     ∃ x a, median_filtered m = Some (Num x) ∧ (0 < x)%Qc
            ∧ mean_filtered m = Some (Num a) ∧ (0 < a)%Qc).
Proof.
  intros Hclean Hrows Hfilter Hm.
  destruct (clean_inv _ _ Hclean) as (_ & _ & Hd).
  rewrite apply_filter_cleaned in Hfilter by done. injection Hfilter as <-.
  set (fd := mkFrame required (filter (λ r, passes p s r) (rows d))) in *.
  assert (Hfd : cleaned fd) by (by apply cleaned_filter).
  rewrite compute_metrics_cleaned in Hm by done. injection Hm as <-.
  pose proof (amounts_positive d Hd) as Hpos.
  pose proof (amounts_positive fd Hfd) as Hfpos.
  assert (Hne : amounts d ≠ []).
  { intros E. apply (f_equal length) in E.
    rewrite length_amounts in E by done. by destruct (rows d). }
  cbn [metrics_of total_records total_amount median_all mean_all
       median_filtered mean_filtered].
  split; [apply length_filter|].
  split; [by apply median_of_pos|]. split.
  { destruct (mean_of_pos _ Hne Hpos) as (a & Ha & Ha0 & _). by exists a. }
  intros Hfrows. rewrite bool_decide_eq_false_2 by done.
  assert (Hfne : amounts fd ≠ []).
  { intros E. apply (f_equal length) in E.
    rewrite length_amounts in E by done. by destruct (rows fd). }
  destruct (median_of_pos _ Hfne Hfpos) as (x & -> & Hx).
  destruct (mean_of_pos _ Hfne Hfpos) as (a & -> & Ha & _).
  by exists x, a.
Qed.

Lemma metrics_within_bounds_witness :
  (total_records (metrics_of example_grants example_program_a)
   ≤ length (rows example_grants))%nat
  ∧ (∃ x, median_all (metrics_of example_grants example_program_a) = Num x
          ∧ (0 < x)%Qc)
  ∧ (∃ a, mean_all (metrics_of example_grants example_program_a) = Num a
          ∧ (0 < a)%Qc)
  ∧ (rows example_program_a ≠ [] →
     ∃ x a, median_filtered (metrics_of example_grants example_program_a)
            = Some (Num x) ∧ (0 < x)%Qc
            ∧ mean_filtered (metrics_of example_grants example_program_a)
              = Some (Num a) ∧ (0 < a)%Qc).
Proof.
  apply (metrics_within_bounds example_grants example_grants (Str "ProgA") All).
  - vm_compute. reflexivity.
  - discriminate.
  - vm_compute. reflexivity.
  - vm_compute. reflexivity.
Defined.

(** ** The chart *)

(** A map built from keys and a function of the key. *)
Lemma lookup_keyed `{Countable K} {V} (f : K → V) (ks : list K) (k : K) :
  (list_to_map ((λ k, (k, f k)) <$> ks) : gmap K V) !! k
  = if decide (k ∈ ks) then Some (f k) else None.
Proof.
  induction ks as [|k' ks IH]; [done|].
  cbn [fmap list_fmap list_to_map foldr]. cbn.
  destruct (decide (k' = k)) as [->|Hk].
  - rewrite lookup_insert_eq. rewrite decide_True; [done|by left].
  - rewrite lookup_insert_ne by done. rewrite IH.
    destruct (decide (k ∈ ks)) as [Hin|Hin].
    + rewrite decide_True; [done|by right].
    + rewrite decide_False; [done|]. by intros [->|?]%elem_of_cons.
Qed.

Lemma elem_of_prefixes key labels :
  key ∈ prefixes labels ↔ key ≠ [] ∧ key `prefix_of` labels.
Proof.
  unfold prefixes. rewrite list_elem_of_fmap. split.
  - intros (n & -> & Hn). apply elem_of_seq in Hn. split.
    + destruct labels, n; cbn in *; (done || lia).
    + apply prefix_take.
  - intros [Hkey [k ->]]. exists (length key). split.
    + by rewrite take_app_length.
    + apply elem_of_seq. rewrite length_app. destruct key; [done|]. cbn. lia.
Qed.

Lemma size_list_to_set_le `{Countable K} (l : list K) :
  (size (list_to_set l : gset K) ≤ length l)%nat.
Proof.
  induction l as [|x l IH]; [done|]. cbn [list_to_set length].
  destruct (decide (x ∈ (list_to_set l : gset K))) as [Hx|Hx].
  - replace ({[x]} ∪ list_to_set l) with (list_to_set l : gset K)
      by set_solver. lia.
  - rewrite size_union by set_solver. rewrite size_singleton. lia.
Qed.

Lemma linked_path str_of_number r :
  path_of chart_path (linked_row str_of_number r) = path_of chart_path r.
Proof.
  unfold path_of, chart_path. cbn [fmap list_fmap].
  by rewrite !linked_get.
Qed.

Lemma linked_sector_rows str_of_number key l :
  sector_rows chart_path key (linked_row str_of_number <$> l)
  = linked_row str_of_number <$> sector_rows chart_path key l.
Proof.
  unfold sector_rows. induction l as [|r l IH]; [done|].
  cbn [fmap list_fmap]. rewrite !filter_cons, linked_path.
  case_decide; cbn [fmap list_fmap]; by rewrite <-IH.
Qed.

(** The sectors of the figure of a selection. *)
Lemma figure_sector str_of_number fd key :
  fig_sectors (figure_of str_of_number fd) !! key
  = if decide (Exists (λ r, key ∈ prefixes (path_of chart_path r)) (rows fd))
    then Some (total (amounts (mkFrame (columns fd)
                                 (sector_rows chart_path key (rows fd)))))
    else None.
Proof.
  unfold figure_of, sectors. cbn [fig_sectors].
  rewrite (lookup_keyed
    (λ key, total (omap (λ r, number (get value_column r))
                     (sector_rows chart_path key
                        (linked_row str_of_number <$> rows fd))))).
  assert (Hiff : key ∈ ((linked_row str_of_number <$> rows fd)
                          ≫= λ r, prefixes (path_of chart_path r))
                 ↔ Exists (λ r, key ∈ prefixes (path_of chart_path r)) (rows fd)).
  { rewrite list_elem_of_bind, Exists_exists. split.
    - intros (r' & Hkey & (r & -> & Hr)%list_elem_of_fmap).
      rewrite linked_path in Hkey. eauto.
    - intros (r & Hr & Hkey). exists (linked_row str_of_number r).
      rewrite linked_path. split; [done|]. by apply list_elem_of_fmap_2. }
  destruct (decide (key ∈ _)) as [Hin|Hin].
  - rewrite decide_True by (by apply Hiff). f_equal. f_equal.
    rewrite linked_sector_rows. unfold amounts. cbn [rows].
    induction (sector_rows chart_path key (rows fd)) as [|r l IH]; [done|].
    cbn [fmap list_fmap omap list_omap]. rewrite linked_get by done.
    rewrite IH. by destruct (get value_column r).
  - rewrite decide_False; [done|]. by rewrite <-Hiff.
Qed.

(** X10. The chart groups the selection. On a loaded page the sunburst
    has a sector for a list of labels exactly when the list is the
    program, or the program and the strategy, and so on down to the
    project title, of some row of the selection. Rows with the same
    four labels share one leaf, so the leaves are at most as many as
    the records shown; and a sector under which one row alone falls
    has the amount of that row. *)
Theorem chart_groups_selection str_of_number numeric_of_text env raw d :
  read_excel env = Ok raw → clean raw = Ok d → rows d ≠ [] →
  ∃ fd fig m,
    apply_filter (selected_program env) (selected_strategy env) d = Ok fd
    ∧ compute_metrics d fd = Ok m
    ∧ plotly_chart fig ∈ shown (app str_of_number numeric_of_text env)
    ∧ (∀ key, is_Some (fig_sectors fig !! key)
         ↔ key ≠ []
           ∧ ∃ r, r ∈ rows fd
               ∧ key `prefix_of`
                   [get "Top Level Primary Program" r; get "Primary Strategy" r;
                    get "Organization: Organization Name" r;
                    get "Project Title" r])
    ∧ (size (filter (λ sector, length sector.1 = 4%nat) (fig_sectors fig))
       ≤ total_records m)%nat
    ∧ (∀ key r x,
         key ≠ [] → sector_rows chart_path key (rows fd) = [r] →
         get "Amount" r = Num x →
         fig_sectors fig !! key = Some x).
Proof.
  intros Hread Hclean Hrows.
  destruct (clean_inv _ _ Hclean) as (_ & _ & Hd).
  assert (Hfd : cleaned (filtered_of env d)) by (by apply cleaned_filter).
  exists (filtered_of env d), (figure_of str_of_number (filtered_of env d)),
    (metrics_of d (filtered_of env d)).
  split; [by apply apply_filter_cleaned|].
  split; [by apply compute_metrics_cleaned|].
  split.
  { rewrite (app_ok _ _ _ _ _ Hread Hclean Hrows). cbn [shown].
    apply elem_of_frame_widgets. unfold page_widgets.
    rewrite !elem_of_app. left. do 4 right. left. }
  set (fd := filtered_of env d) in *.
  assert (Hsector : ∀ key, is_Some (fig_sectors (figure_of str_of_number fd) !! key)
            ↔ key ≠ [] ∧ ∃ r, r ∈ rows fd ∧ key `prefix_of` path_of chart_path r).
  { intros key. rewrite figure_sector. split.
    - case_decide as Hex; [|by intros [? ?]]. intros _.
      apply Exists_exists in Hex as (r & Hr & [Hkey Hpre]%elem_of_prefixes).
      eauto.
    - intros (Hkey & r & Hr & Hpre). rewrite decide_True; [by eexists|].
      apply Exists_exists. exists r. split; [done|].
      by apply elem_of_prefixes. }
  split; [exact Hsector|]. split.
  - cbn [metrics_of total_records].
    rewrite <-(length_fmap (path_of chart_path) (rows fd)).
    etransitivity; [|apply (size_list_to_set_le (path_of chart_path <$> rows fd))].
    rewrite <-size_dom. apply subseteq_size. intros key Hkey.
    apply elem_of_dom in Hkey as [x Hx].
    apply map_lookup_filter_Some in Hx as [Hx Hlen]. cbn in Hlen.
    destruct (proj1 (Hsector key)) as (_ & r & Hr & [k Hk]); [by eexists|].
    apply elem_of_list_to_set, list_elem_of_fmap. exists r. split; [|done].
    assert (Hk' : length (path_of chart_path r) = length (key ++ k))
      by (by rewrite Hk).
    rewrite length_app, Hlen in Hk'. cbn in Hk'.
    destruct k; [|cbn in Hk'; lia]. by rewrite Hk, app_nil_r.
  - intros key r x Hkey Hone Hx. rewrite figure_sector.
    assert (Hin : r ∈ sector_rows chart_path key (rows fd))
      by (rewrite Hone; by left).
    apply list_elem_of_filter in Hin as [Htake Hr].
    rewrite decide_True.
    + rewrite Hone. unfold amounts, value_column. cbn [rows omap list_omap].
      rewrite Hx. cbn [total foldr]. by rewrite Qcplus_0_r.
    + apply Exists_exists. exists r. split; [done|].
      apply elem_of_prefixes. split; [done|].
      rewrite <-Htake. apply prefix_take.
Qed.

Lemma chart_groups_selection_witness :
  let env := mkEnv (Ok three_grants) (Str "ProgB") All false in
  ∃ fd fig m,
    apply_filter (selected_program env) (selected_strategy env) three_grants
    = Ok fd
    ∧ compute_metrics three_grants fd = Ok m
    ∧ plotly_chart fig ∈ shown (app example_str example_numeric env)
    ∧ (∀ key, is_Some (fig_sectors fig !! key)
         ↔ key ≠ []
           ∧ ∃ r, r ∈ rows fd
               ∧ key `prefix_of`
                   [get "Top Level Primary Program" r; get "Primary Strategy" r;
                    get "Organization: Organization Name" r;
                    get "Project Title" r])
    ∧ (size (filter (λ sector, length sector.1 = 4%nat) (fig_sectors fig))
       ≤ total_records m)%nat
    ∧ (∀ key r x,
         key ≠ [] → sector_rows chart_path key (rows fd) = [r] →
         get "Amount" r = Num x →
         fig_sectors fig !! key = Some x).
Proof.
  apply (chart_groups_selection example_str example_numeric
           (mkEnv (Ok three_grants) (Str "ProgB") All false)
           three_grants three_grants).
  - reflexivity.
  - vm_compute. reflexivity.
  - discriminate.
Defined.

(** ** Currency text *)

(** X11. Rounding to cents goes to the nearest integer: the result is
    at most one half away from the number rounded, and where it is
    exactly one half away the result is even. *)
Theorem round_half_even_nearest (q : Qc) :
  (2 * Z.abs (round_half_even q * Z.pos (Qden q) - Qnum q) ≤ Z.pos (Qden q))%Z
  ∧ ((2 * Z.abs (round_half_even q * Z.pos (Qden q) - Qnum q) = Z.pos (Qden q))%Z
     → Z.even (round_half_even q) = true).
Proof.
  unfold round_half_even.
  set (n := Qnum q). set (d := Z.pos (Qden q)).
  assert (Hd : (0 < d)%Z) by (unfold d; lia).
  pose proof (Z.div_mod n d ltac:(lia)) as Hdiv.
  pose proof (Z.mod_pos_bound n d Hd) as Hmod.
  set (fl := (n / d)%Z) in *. set (r := (n mod d)%Z) in *.
  destruct (Z.compare_spec (2 * r) d) as [Heq|Hlt|Hgt].
  - destruct (Z.even fl) eqn:Heven.
    + split; [nia|done].
    + split; [nia|]. intros _.
      rewrite Z.add_1_r, Z.even_succ, <-Z.negb_even. by rewrite Heven.
  - split; [nia|]. intros Habs. exfalso. nia.
  - split; [nia|]. intros Habs. exfalso. nia.
Qed.

Lemma strip_commas_app s1 s2 :
  strip_commas (s1 +:+ s2) = strip_commas s1 +:+ strip_commas s2.
Proof.
  induction s1 as [|a s1 IH]; [done|]. cbn [String.append strip_commas].
  case_bool_decide; [done|]. cbn [String.append]. by f_equal.
Qed.

Lemma strip_comma_free s : comma_free s → strip_commas s = s.
Proof.
  induction s as [|a s IH]; [done|]. cbn [comma_free strip_commas].
  intros [Ha Hs]%andb_True. case_bool_decide; [done|]. f_equal. by apply IH.
Qed.

Lemma strip_group3 s : comma_free s → strip_commas (group3 s) = s.
Proof.
  induction s as [|a s IH]; [done|]. cbn [comma_free group3].
  intros [Ha Hs]%andb_True.
  assert (a ≠ comma) by (by intros ->).
  destruct (_ && _)%bool; cbn [strip_commas String.append];
    rewrite ?bool_decide_eq_false_2 by done;
    rewrite ?(bool_decide_eq_true_2 (comma = comma)) by done;
    f_equal; by apply IH.
Qed.

Lemma comma_free_digit x : pretty_N_char x ≠ comma.
Proof. unfold pretty_N_char. by repeat case_match. Qed.

Lemma comma_free_pretty_go x s : comma_free s → comma_free (pretty_N_go x s).
Proof.
  revert s. induction (N.lt_wf_0 x) as [x _ IH]. intros s Hs.
  destruct (decide (x = 0)%N) as [->|Hx]; [by rewrite pretty_N_go_0|].
  rewrite pretty_N_go_step by lia. apply IH; [apply N.div_lt; lia|].
  cbn [comma_free]. apply andb_True. split; [|done].
  apply negb_True. intros Hc%bool_decide_unpack. by apply comma_free_digit in Hc.
Qed.

Lemma comma_free_pretty (n : N) : comma_free (pretty n).
Proof.
  unfold pretty, pretty_N. case_decide; [done|].
  by apply comma_free_pretty_go.
Qed.

Lemma two_digits_length n :
  (0 ≤ n < 100)%Z → String.length (two_digits n) = 2%nat.
Proof.
  intros Hn.
  assert (Hall : Forall (λ k, String.length (two_digits k) = 2%nat) (seqZ 0 100))
    by (apply (bool_decide_unpack _); by vm_compute).
  rewrite Forall_forall in Hall. apply Hall, elem_of_seqZ. lia.
Qed.

(** X12. The commas of the format only group digits: for every number,
    the text without its commas is the sign, the plain decimal digits
    of the whole part, a point, and the cents; and the cents are
    always written with two digits. *)
Theorem format_2f_without_commas (x : Qc) :
  strip_commas (format_2f x)
  = (if bool_decide (x < 0)%Qc then "-" else "")
    +:+ pretty (Z.to_N (round_half_even (Qcabs x * Qc_of_Z 100) / 100)%Z)
    +:+ "." +:+ two_digits (round_half_even (Qcabs x * Qc_of_Z 100) mod 100)%Z
  ∧ String.length
      (two_digits (round_half_even (Qcabs x * Qc_of_Z 100) mod 100)%Z) = 2%nat.
Proof.
  split.
  - unfold format_2f. cbn zeta. rewrite !strip_commas_app.
    rewrite strip_group3 by apply comma_free_pretty.
    f_equal; [by case_bool_decide|]. f_equal. f_equal.
    apply strip_comma_free. unfold two_digits.
    case_bool_decide; cbn [String.append comma_free]; apply comma_free_pretty.
  - apply two_digits_length. apply Z.mod_pos_bound. lia.
Qed.

(** ** The export of any frame *)

(** X13. What [to_csv] writes reads back, commas, quotes and line
    feeds in the cells included, as long as no label and no cell holds
    a carriage return outside a text that is written in quotes: the
    records read are the column labels, then for each row, in order,
    the texts of its cells in column order; so the export of a frame
    has one record more than the frame has rows. The same holds of any
    list of such records written line by line. *)
Theorem to_csv_reads_back str_of_number df :
  Forall (λ label, reads_back label) (columns df) →
  Forall (λ r, Forall (λ c, reads_back (csv_text str_of_number (get c r)))
                 (columns df))
    (rows df) →
  parse_csv (to_csv str_of_number df)
  = columns df
    :: ((λ r, (λ c, csv_text str_of_number (get c r)) <$> columns df)
        <$> rows df)
  ∧ length (parse_csv (to_csv str_of_number df)) = S (length (rows df))
  ∧ ∀ records, Forall (Forall (λ field, reads_back field)) records →
               parse_csv (csv_lines records) = records.
Proof.
  intros Hlabels Hcells.
  assert (H : parse_csv (to_csv str_of_number df)
    = columns df
      :: ((λ r, (λ c, csv_text str_of_number (get c r)) <$> columns df)
          <$> rows df)).
  { apply parse_csv_lines. apply Forall_cons. split; [done|].
    apply Forall_fmap. eapply Forall_impl; [exact Hcells|].
    intros r Hr. by apply Forall_fmap. }
  split; [done|]. split; [|apply parse_csv_lines].
  rewrite H. cbn [length]. by rewrite length_fmap.
Qed.

Lemma to_csv_reads_back_witness :
  parse_csv (to_csv example_str awkward_cells)
  = columns awkward_cells
    :: ((λ r, (λ c, csv_text example_str (get c r)) <$> columns awkward_cells)
        <$> rows awkward_cells)
  ∧ length (parse_csv (to_csv example_str awkward_cells))
    = S (length (rows awkward_cells))
  ∧ ∀ records, Forall (Forall (λ field, reads_back field)) records →
               parse_csv (csv_lines records) = records.
Proof.
  apply (to_csv_reads_back example_str awkward_cells).
  - apply (bool_decide_unpack _). vm_compute. exact I.
  - apply (bool_decide_unpack _). vm_compute. exact I.
Defined.

(** ** Pages that show no data *)

(** X14. When the load succeeds and no row survives cleaning, the page
    is the title, the warning that no data is available, and the file
    uploader: no select box, no chart, no metric, no table and no
    download button. *)
Theorem no_valid_row_shows_warning str_of_number numeric_of_text env raw d :
  read_excel env = Ok raw → clean raw = Ok d → rows d = [] →
  app str_of_number numeric_of_text env
  = mkUI (frame_widgets env
            [warning "No default data available to display. Please upload a dataset."])
      (Ok ()).
Proof.
  intros Hread Hclean Hrows.
  by rewrite (app_of_page _ _ _ _ _
                (page_no_rows _ numeric_of_text _ _ _ Hread Hclean Hrows)).
Qed.

Lemma no_valid_row_shows_warning_witness :
  app example_str example_numeric (mkEnv (Ok no_request_id) All All false)
  = mkUI [title "Dynamic Sunburst Diagram of 2024 Grants";
          warning "No default data available to display. Please upload a dataset.";
          file_uploader "Upload the Grants Excel File"]
      (Ok ()).
Proof.
  apply (no_valid_row_shows_warning example_str example_numeric
           (mkEnv (Ok no_request_id) All All false)
           no_request_id (mkFrame required [])).
  - reflexivity.
  - vm_compute. reflexivity.
  - reflexivity.
Defined.

Lemma mapM_gt0_text (l : list cell) s :
  Str s ∈ l → mapM gt0 l = Raise TypeError.
Proof.
  induction l as [|c l IH]; [by intros ?%elem_of_nil|].
  intros [Hc|Hin]%elem_of_cons; cbn [mapM].
  - by subst c.
  - destruct c as [|x|s']; [| |done]; cbn [gt0]; rewrite bind_Ok;
      by rewrite (IH Hin).
Qed.

(** X15. A text amount stops the load: when the frame has the six
    columns and some row with none of its six cells missing holds text
    as its amount, cleaning raises a [TypeError], and the page is the
    title, the error message carrying it, and the file uploader. *)
Theorem text_amount_is_reported str_of_number numeric_of_text env raw r s :
  read_excel env = Ok raw → required ⊆ columns raw →
  r ∈ rows raw → complete required r → get "Amount" r = Str s →
  clean raw = Raise TypeError
  ∧ app str_of_number numeric_of_text env
    = mkUI (frame_widgets env [error "Error loading default data: " TypeError])
        (Ok ()).
Proof.
  intros Hread Hsub Hr Hcomplete Hs.
  assert (Hclean : clean raw = Raise TypeError).
  { rewrite (clean_steps _ Hsub). rewrite (mapM_gt0_text _ s); [done|].
    apply list_elem_of_fmap. exists (select_row required r). split.
    - rewrite get_select_row, decide_True by apply value_column_required.
      done.
    - apply list_elem_of_filter. split; [|by apply list_elem_of_fmap_2].
      unfold complete in *. apply Is_true_true, forallb_forall.
      intros c Hc%list_elem_of_In. rewrite get_select_row, decide_True by done.
      apply Is_true_true in Hcomplete. rewrite forallb_forall in Hcomplete.
      apply Hcomplete. by apply list_elem_of_In. }
  split; [done|].
  by rewrite (app_of_page _ _ _ _ _
                (page_clean_fails _ numeric_of_text _ _ _ Hread Hclean)).
Qed.

Lemma text_amount_is_reported_witness :
  clean text_amount = Raise TypeError
  ∧ app example_str example_numeric (mkEnv (Ok text_amount) All All false)
    = mkUI (frame_widgets (mkEnv (Ok text_amount) All All false)
              [error "Error loading default data: " TypeError])
        (Ok ()).
Proof.
  apply (text_amount_is_reported example_str example_numeric
           (mkEnv (Ok text_amount) All All false) text_amount
           (grant (Str "ProgA") (Str "Strat1") (Str "OrgX") (Str "Proj1")
              (Str "R1") (Str "n/a")) "n/a").
  - reflexivity.
  - done.
  - left.
  - by vm_compute.
  - by vm_compute.
Defined.

(** X16. An uploaded file is accepted and not processed: with a file
    uploaded the page is, widget for widget, the page without it,
    followed by the one message that custom data is not handled. *)
Theorem upload_only_adds_a_message str_of_number numeric_of_text excel p s :
  shown (app str_of_number numeric_of_text (mkEnv excel p s true))
  = (shown (app str_of_number numeric_of_text (mkEnv excel p s false))
     ++ [info "Custom data handling not fully implemented here. Follow similar steps as above for uploaded data."])%list
  ∧ outcome (app str_of_number numeric_of_text (mkEnv excel p s true)) = Ok ().
Proof.
  assert (Hsame : page str_of_number numeric_of_text (mkEnv excel p s true)
                  = page str_of_number numeric_of_text (mkEnv excel p s false))
    by reflexivity.
  destruct (page str_of_number numeric_of_text (mkEnv excel p s false))
    as [ws r] eqn:Hpage.
  rewrite (app_of_page _ _ _ _ _ Hpage).
  rewrite (app_of_page _ _ _ _ _ Hsame).
  split; [|done]. unfold frame_widgets. cbn [shown uploaded_file].
  by rewrite <-!app_assoc, <-app_comm_cons, <-!app_assoc.
Qed.

(** ** The link column *)

(** X17. The link is built, then the identifier dropped: on a selection
    of a cleaned frame, [add_links] gives a frame without the request
    identifier column and with the link column last, row for row the
    input row with its identifier removed and the anchor added, every
    other cell as it was. For a row whose identifier and project title
    are text, the anchor opens the record of that identifier in a new
    tab and shows the project title. Applied again to its own result,
    when that has a row, it raises the [KeyError] of the identifier
    column. *)
Theorem link_replaces_request_id str_of_number raw d p s fd :
  clean raw = Ok d → apply_filter p s d = Ok fd →
  ∃ linked, add_links str_of_number fd = Ok linked
    ∧ columns linked
      = ["Top Level Primary Program"; "Primary Strategy";
         "Organization: Organization Name"; "Project Title"; "Amount";
         "Salesforce Link"]
    ∧ rows linked = linked_row str_of_number <$> rows fd
    ∧ (∀ r, linked_row str_of_number r !! "Request: ID" = None
          ∧ linked_row str_of_number r !! "Salesforce Link"
            = Some (Str (salesforce_link str_of_number r))
          ∧ ∀ c, c ≠ "Request: ID" → c ≠ "Salesforce Link" →
                 linked_row str_of_number r !! c = r !! c)
    ∧ (∀ r id project,
         get "Request: ID" r = Str id → get "Project Title" r = Str project →
         linked_row str_of_number r !! "Salesforce Link"
         = Some (Str ("<a href="
              +:+ String "034"
                    ("https://hewlett.lightning.force.com/lightning/r/Request__c/"
                     +:+ id +:+ "/view"
              +:+ String "034" (" target="
              +:+ String "034" ("_blank"
              +:+ String "034" (">" +:+ project +:+ "</a>")))))))
    ∧ (rows fd ≠ [] →
       add_links str_of_number linked = Raise (KeyError ["Request: ID"])).
Proof.
  intros Hclean Hfilter. destruct (clean_inv _ _ Hclean) as (_ & _ & Hd).
  rewrite apply_filter_cleaned in Hfilter by done. injection Hfilter as <-.
  assert (Hfd : cleaned (mkFrame required (filter (λ r, passes p s r) (rows d))))
    by (by apply cleaned_filter).
  eexists. split; [by apply add_links_cleaned|].
  split; [done|]. split; [done|].
  assert (Hlink : ∀ r, linked_row str_of_number r !! "Salesforce Link"
            = Some (Str (salesforce_link str_of_number r))).
  { intros r. unfold linked_row. rewrite lookup_delete_ne by done.
    apply lookup_insert_eq. }
  split; [|split].
  - intros r. split; [apply lookup_delete_eq|]. split; [apply Hlink|].
    intros c H1 H2. unfold linked_row. rewrite lookup_delete_ne by done.
    by rewrite lookup_insert_ne.
  - intros r id project Hid Hproject. rewrite Hlink. do 2 f_equal.
    unfold salesforce_link, quoted, SALESFORCE_BASE_URL.
    rewrite Hid, Hproject. cbn [py_str String.append].
    repeat first [rewrite append_assoc | progress cbn [String.append]].
    reflexivity.
  - intros _. unfold add_links, column. cbn [columns].
    rewrite (decide_False (P := "Request: ID" ∈ linked_columns)); [done|].
    compute_done.
Qed.

Lemma link_replaces_request_id_witness :
  ∃ linked, add_links example_str example_program_a = Ok linked
    ∧ columns linked
      = ["Top Level Primary Program"; "Primary Strategy";
         "Organization: Organization Name"; "Project Title"; "Amount";
         "Salesforce Link"]
    ∧ rows linked = linked_row example_str <$> rows example_program_a
    ∧ (∀ r, linked_row example_str r !! "Request: ID" = None
          ∧ linked_row example_str r !! "Salesforce Link"
            = Some (Str (salesforce_link example_str r))
          ∧ ∀ c, c ≠ "Request: ID" → c ≠ "Salesforce Link" →
                 linked_row example_str r !! c = r !! c)
    ∧ (∀ r id project,
         get "Request: ID" r = Str id → get "Project Title" r = Str project →
         linked_row example_str r !! "Salesforce Link"
         = Some (Str ("<a href="
              +:+ String "034"
                    ("https://hewlett.lightning.force.com/lightning/r/Request__c/"
                     +:+ id +:+ "/view"
              +:+ String "034" (" target="
              +:+ String "034" ("_blank"
              +:+ String "034" (">" +:+ project +:+ "</a>")))))))
    ∧ (rows example_program_a ≠ [] →
       add_links example_str linked = Raise (KeyError ["Request: ID"])).
Proof.
  apply (link_replaces_request_id example_str example_grants example_grants
           (Str "ProgA") All).
  - vm_compute. reflexivity.
  - vm_compute. reflexivity.
Defined.

(** ** Resetting the filters *)

Lemma filtered_all_cleaned env d :
  cleaned d → selected_program env = All → selected_strategy env = All →
  filtered_of env d = d.
Proof.
  intros Hd Hp Hs. unfold filtered_of. rewrite Hp, Hs.
  rewrite filter_all by done.
  rewrite <-(cleaned_columns _ Hd). apply frame_eta.
Qed.

(** X18. After [reset_filters] the page shows everything: the load and
    the upload are as before, both selections are the sentinel, and on
    a page that loads the record count shown is the number of cleaned
    rows, the median and the mean of the selection are the overall
    ones, and the table holds every cleaned row. Resetting twice is
    resetting once. *)
Theorem reset_filters_shows_everything str_of_number numeric_of_text env raw d :
  read_excel env = Ok raw → clean raw = Ok d → rows d ≠ [] →
  reset_filters (reset_filters env) = reset_filters env
  ∧ read_excel (reset_filters env) = read_excel env
  ∧ uploaded_file (reset_filters env) = uploaded_file env
  ∧ apply_filter (selected_program (reset_filters env))
      (selected_strategy (reset_filters env)) d = Ok d
  ∧ (∃ m, compute_metrics d d = Ok m
       ∧ total_records m = length (rows d)
       ∧ median_filtered m = Some (median_all m)
       ∧ mean_filtered m = Some (mean_all m)
       ∧ metric "Total Records" (pretty (length (rows d)))
         ∈ shown (app str_of_number numeric_of_text (reset_filters env))
       ∧ metric "Median (Filtered)" (money_text (median_all m))
         ∈ shown (app str_of_number numeric_of_text (reset_filters env))
       ∧ metric "Mean (Filtered)" (money_text (mean_all m))
         ∈ shown (app str_of_number numeric_of_text (reset_filters env)))
  ∧ html_table (table_of str_of_number d)
    ∈ shown (app str_of_number numeric_of_text (reset_filters env)).
Proof.
  intros Hread Hclean Hrows.
  destruct (clean_inv _ _ Hclean) as (_ & _ & Hd).
  split; [done|]. split; [done|]. split; [done|].
  assert (Hfd : filtered_of (reset_filters env) d = d)
    by (by apply filtered_all_cleaned).
  split.
  { rewrite apply_filter_cleaned by done.
    fold (filtered_of (reset_filters env) d). by rewrite Hfd. }
  assert (Hread' : read_excel (reset_filters env) = Ok raw) by done.
  rewrite (app_ok _ _ _ _ _ Hread' Hclean Hrows). cbn [shown].
  assert (Hm : metrics_of d d
    = mkMetrics (length (rows d)) (total (amounts d))
        (median_of (amounts d)) (mean_of (amounts d))
        (Some (median_of (amounts d))) (Some (mean_of (amounts d)))).
  { unfold metrics_of. by rewrite bool_decide_eq_false_2. }
  split.
  - exists (metrics_of d d).
    split; [by apply compute_metrics_cleaned|].
    rewrite Hm. cbn [total_records median_filtered mean_filtered median_all mean_all].
    do 3 (split; [done|]).
    repeat split; apply metric_shown; rewrite Hfd, Hm; unfold metric_widgets;
      cbn [total_records median_filtered mean_filtered optional_text].
    + right. left.
    + do 5 right. left.
    + do 8 right. left.
  - apply elem_of_frame_widgets. unfold page_widgets. rewrite Hfd.
    rewrite !elem_of_app. do 2 right. right. left.
Qed.

Lemma reset_filters_shows_everything_witness :
  let env := mkEnv (Ok example_grants) (Str "ProgA") (Str "Strat2") false in
  reset_filters (reset_filters env) = reset_filters env
  ∧ read_excel (reset_filters env) = read_excel env
  ∧ uploaded_file (reset_filters env) = uploaded_file env
  ∧ apply_filter (selected_program (reset_filters env))
      (selected_strategy (reset_filters env)) example_grants = Ok example_grants
  ∧ (∃ m, compute_metrics example_grants example_grants = Ok m
       ∧ total_records m = length (rows example_grants)
       ∧ median_filtered m = Some (median_all m)
       ∧ mean_filtered m = Some (mean_all m)
       ∧ metric "Total Records" (pretty (length (rows example_grants)))
         ∈ shown (app example_str example_numeric (reset_filters env))
       ∧ metric "Median (Filtered)" (money_text (median_all m))
         ∈ shown (app example_str example_numeric (reset_filters env))
       ∧ metric "Mean (Filtered)" (money_text (mean_all m))
         ∈ shown (app example_str example_numeric (reset_filters env)))
  ∧ html_table (table_of example_str example_grants)
    ∈ shown (app example_str example_numeric (reset_filters env)).
Proof.
  apply (reset_filters_shows_everything example_str example_numeric
           (mkEnv (Ok example_grants) (Str "ProgA") (Str "Strat2") false)
           example_grants example_grants).
  - reflexivity.
  - vm_compute. reflexivity.
  - discriminate.
Defined.

(** ** The session dictionary *)

Lemma lookup_init_key k k' (st : gmap string cell) :
  init_key k st !! k'
  = match st !! k' with
    | Some v => Some v
    | None => if decide (k = k') then Some (Str "All") else None
    end.
Proof.
  unfold init_key. destruct (st !! k) as [v|] eqn:Hk.
  - destruct (st !! k') as [v'|] eqn:Hk'; [done|].
    rewrite decide_False; [done|]. intros ->. congruence.
  - rewrite lookup_insert. destruct (decide (k = k')) as [->|Hne].
    + by rewrite Hk.
    + by destruct (st !! k').
Qed.

Lemma lookup_init_session_state k (st : gmap string cell) :
  init_session_state st !! k
  = match st !! k with
    | Some v => Some v
    | None =>
        if decide (k = "selected_program" ∨ k = "selected_strategy")
        then Some (Str "All") else None
    end.
Proof.
  unfold init_session_state. rewrite !lookup_init_key.
  destruct (st !! k) as [v|]; [done|].
  repeat case_decide; naive_solver.
Qed.

(** X19. The defaults of the session never overwrite a selection: after
    lines 24 to 27 every key the session held keeps its value, the two
    selection keys are present, holding the sentinel where they were
    absent, and no other key is added; running the lines again, or
    after a reset, changes nothing; and a reset on the dictionary is
    the reset of the two selections the page reads. *)
Theorem session_defaults_keep_selections (st : gmap string cell) :
  (∀ k v, st !! k = Some v → init_session_state st !! k = Some v)
  ∧ (∀ k, k = "selected_program" ∨ k = "selected_strategy" →
          init_session_state st !! k = Some (default (Str "All") (st !! k)))
  ∧ (∀ k, k ≠ "selected_program" → k ≠ "selected_strategy" →
          init_session_state st !! k = st !! k)
  ∧ init_session_state (init_session_state st) = init_session_state st
  ∧ init_session_state (reset_filters_state st) = reset_filters_state st
  ∧ ∀ excel uploaded,
      env_of_session excel (reset_filters_state st) uploaded
      = reset_filters (env_of_session excel st uploaded).
Proof.
  split; [|split; [|split; [|split; [|split]]]].
  - intros k v Hk. by rewrite lookup_init_session_state, Hk.
  - intros k Hk. rewrite lookup_init_session_state.
    destruct (st !! k); [done|]. by rewrite decide_True.
  - intros k H1 H2. rewrite lookup_init_session_state.
    destruct (st !! k); [done|]. rewrite decide_False; [done|]. by intros [|].
  - apply map_eq. intros k. rewrite !lookup_init_session_state.
    destruct (st !! k); [done|]. by case_decide.
  - apply map_eq. intros k. rewrite lookup_init_session_state.
    destruct (reset_filters_state st !! k) eqn:E; [done|].
    case_decide as Hk; [|done]. unfold reset_filters_state in E.
    destruct Hk as [-> | ->].
    + by rewrite lookup_insert_ne, lookup_insert_eq in E.
    + by rewrite lookup_insert_eq in E.
  - intros excel uploaded. unfold env_of_session, reset_filters, get,
      reset_filters_state. cbn [read_excel uploaded_file].
    rewrite lookup_insert_eq.
    by rewrite lookup_insert_ne, lookup_insert_eq.
Qed.

(** ** What cleaning guarantees and how it fails *)

(** X20. Whenever cleaning succeeds, on any frame, the result has the
    six columns and at most as many rows as the input; each of its rows
    is a row of the input restricted to the six columns, has those six
    keys and no other, no missing cell among them, and a number above
    zero as its amount. *)
Theorem cleaned_frame_invariant raw d :
  clean raw = Ok d →
  columns d = required
  ∧ (length (rows d) ≤ length (rows raw))%nat
  ∧ ∀ r, r ∈ rows d →
      dom r = list_to_set required
      ∧ (∀ c, c ∈ required → ∃ v, r !! c = Some v ∧ v ≠ NaN)
      ∧ (∃ x, r !! "Amount" = Some (Num x) ∧ (0 < x)%Qc)
      ∧ ∃ r0, r0 ∈ rows raw ∧ r = select_row required r0.
Proof.
  intros Hclean. destruct (clean_inv _ _ Hclean) as (_ & Heq & Hd).
  split; [apply (cleaned_columns _ Hd)|]. split.
  { rewrite Heq. cbn [rows].
    etrans; [apply length_filter|]. by rewrite length_fmap. }
  intros r Hr. destruct (cleaned_rows _ Hd r Hr) as (Hfix & Hall & Hamount).
  split; [by rewrite <-Hfix, dom_select_row|]. split; [done|]. split; [done|].
  rewrite Heq in Hr. cbn [rows] in Hr.
  apply list_elem_of_filter in Hr as [_ (r0 & -> & Hr0)%list_elem_of_fmap].
  eauto.
Qed.

Lemma cleaned_frame_invariant_witness :
  columns example_grants = required
  ∧ (length (rows example_grants) ≤ length (rows example_grants))%nat
  ∧ ∀ r, r ∈ rows example_grants →
      dom r = list_to_set required
      ∧ (∀ c, c ∈ required → ∃ v, r !! c = Some v ∧ v ≠ NaN)
      ∧ (∃ x, r !! "Amount" = Some (Num x) ∧ (0 < x)%Qc)
      ∧ ∃ r0, r0 ∈ rows example_grants ∧ r = select_row required r0.
Proof.
  apply (cleaned_frame_invariant example_grants example_grants).
  vm_compute. reflexivity.
Defined.

Lemma mapM_gt0_Raise_inv (l : list cell) e :
  mapM gt0 l = Raise e → e = TypeError ∧ ∃ s, Str s ∈ l.
Proof.
  induction l as [|c l IH]; [done|]. cbn [mapM].
  destruct c as [|x|s]; cbn [gt0].
  - rewrite bind_Ok. destruct (mapM gt0 l) as [k|e'] eqn:E; [done|].
    intros [= <-]. destruct (IH eq_refl) as (-> & s & Hs).
    split; [done|]. exists s. by right.
  - rewrite bind_Ok. destruct (mapM gt0 l) as [k|e'] eqn:E; [done|].
    intros [= <-]. destruct (IH eq_refl) as (-> & s & Hs).
    split; [done|]. exists s. by right.
  - intros [= <-]. split; [done|]. exists s. left.
Qed.

(** X21. Cleaning fails in two ways only. Either the frame lacks some
    of the six columns, and the error is the [KeyError] listing exactly
    the columns it lacks; or it has them all, and the error is a
    [TypeError] caused by a row with none of its six cells missing
    whose amount is text. *)
Theorem clean_fails_two_ways raw e :
  clean raw = Raise e →
  (∃ missing, e = KeyError missing ∧ missing ≠ []
     ∧ ∀ c, c ∈ missing ↔ c ∈ required ∧ c ∉ columns raw)
  ∨ (e = TypeError ∧ required ⊆ columns raw
     ∧ ∃ r s, r ∈ rows raw ∧ complete required r ∧ get "Amount" r = Str s).
Proof.
  intros Hclean.
  destruct (filter (λ c, c ∉ columns raw) required) as [|c0 l] eqn:Hmiss.
  - right.
    assert (Hsub : required ⊆ columns raw).
    { intros c Hc. destruct (decide (c ∈ columns raw)) as [|Hn]; [done|].
      assert (c ∈ filter (λ c, c ∉ columns raw) required) as Hin
        by (by apply list_elem_of_filter).
      rewrite Hmiss in Hin. by apply elem_of_nil in Hin. }
    rewrite (clean_steps _ Hsub) in Hclean.
    destruct (mapM gt0 _) as [mask|e'] eqn:Hmask; [done|].
    injection Hclean as ->.
    apply mapM_gt0_Raise_inv in Hmask as (-> & s & Hs).
    split; [done|]. split; [done|].
    apply list_elem_of_fmap in Hs as (r & Hr & Hin).
    apply list_elem_of_filter in Hin as [Hc (r0 & -> & Hr0)%list_elem_of_fmap].
    exists r0, s. split; [done|]. split.
    + unfold complete in *. apply Is_true_true, forallb_forall.
      intros c Hin%list_elem_of_In.
      apply Is_true_true in Hc. rewrite forallb_forall in Hc.
      specialize (Hc c). rewrite <-list_elem_of_In in Hc. specialize (Hc Hin).
      by rewrite get_select_row, decide_True in Hc.
    + rewrite get_select_row, decide_True in Hr
        by apply value_column_required.
      done.
  - left. exists (c0 :: l).
    unfold clean, select in Hclean. fold required in Hclean.
    rewrite Hmiss in Hclean. injection Hclean as <-.
    split; [done|]. split; [done|].
    intros c. rewrite <-Hmiss, list_elem_of_filter. tauto.
Qed.

Lemma clean_fails_two_ways_witness :
  (∃ missing, KeyError ["Top Level Primary Program";
                        "Organization: Organization Name"; "Project Title";
                        "Request: ID"] = KeyError missing
     ∧ missing ≠ []
     ∧ ∀ c, c ∈ missing ↔ c ∈ required ∧ c ∉ columns no_program_column)
  ∨ (KeyError ["Top Level Primary Program";
               "Organization: Organization Name"; "Project Title";
               "Request: ID"] = TypeError
     ∧ required ⊆ columns no_program_column
     ∧ ∃ r s, r ∈ rows no_program_column ∧ complete required r
              ∧ get "Amount" r = Str s).
Proof.
  apply (clean_fails_two_ways no_program_column).
  vm_compute. reflexivity.
Defined.

(** X22. Past cleaning nothing in the page raises: when the body of the
    [try] block ends on an exception, that exception is the one
    [read_excel] raised or the one cleaning raised; on a cleaned frame
    the options, the filters, the statistics, the links, the chart, the
    table and the export all succeed. *)
Theorem page_raises_only_on_load str_of_number numeric_of_text env e :
  outcome (page str_of_number numeric_of_text env) = Raise e →
  read_excel env = Raise e
  ∨ ∃ raw, read_excel env = Ok raw ∧ clean raw = Raise e.
Proof.
  intros Hout. destruct (read_excel env) as [raw|e'] eqn:Hread.
  - right. exists raw. split; [done|].
    destruct (clean raw) as [d|e''] eqn:Hclean.
    + destruct (decide (rows d = [])) as [Hrows|Hrows].
      * by rewrite (page_no_rows _ _ _ _ _ Hread Hclean Hrows) in Hout.
      * by rewrite (page_ok _ _ _ _ _ Hread Hclean Hrows) in Hout.
    + rewrite (page_clean_fails _ _ _ _ _ Hread Hclean) in Hout.
      by injection Hout as ->.
  - left. rewrite (page_load_fails _ _ _ _ Hread) in Hout.
    by injection Hout as ->.
Qed.

Lemma page_raises_only_on_load_witness :
  read_excel (mkEnv (Ok text_amount) All All false) = Raise TypeError
  ∨ ∃ raw, read_excel (mkEnv (Ok text_amount) All All false) = Ok raw
           ∧ clean raw = Raise TypeError.
Proof.
  apply (page_raises_only_on_load example_str example_numeric).
  vm_compute. reflexivity.
Defined.
